(** * Reinforcement-learning agents and environments

    A shallow embedding of [research/reinforcement_learning.py]: the
    read-only attribute records ([AttrDict], [State], [Action]), the
    [Agent] base class with the tabular Q-learning agent and the
    epsilon-greedy decorator, the [GridWorld] environment and the two
    memory decorators ([gating_memory], [fixed_long_term_memory]).

    Conventions.
    - A Python [dict] is an association list in insertion order; a key is
      present at most once.  Assignment to a present key keeps its
      position, assignment to a new key appends.
    - A method that may raise returns a [pyresult]; a method that mutates
      its object returns the new object.
    - Python numbers (rewards, values, rates) are kept abstract: a type
      [F] with the operations the source applies to them.  The integer
      [0] and the float [0.0] are both [f0].
    - The built-in [hash] and the random generator [self.rng] (module
      [randommixin] is not part of the sources) are parameters. *)

From Stdlib Require Import ZArith QArith String Ascii Bool Lia.
From Stdlib Require Import DecimalString DecimalNat.
From Stdlib Require OrderedTypeEx.
From stdpp Require Import base numbers list sorting strings.

Local Open Scope Z_scope.

(** ** Exceptions and results *)

Inductive exn : Type :=
| AssertionError
| AttributeError
| IndexError
| TypeError
| RecursionError.

Inductive pyresult (A : Type) : Type :=
| Return (a : A)
| Raise (e : exn).

Arguments Return {A} a.
Arguments Raise {A} e.

#[global] Instance pyresult_ret : MRet pyresult := fun A a => Return a.

#[global] Instance pyresult_bind : MBind pyresult := fun A B k m =>
  match m with
  | Return a => k a
  | Raise e => Raise e
  end.

(** [assert c] *)
Definition assert (c : bool) : pyresult unit :=
  if c then Return tt else Raise AssertionError.

(** ** Attribute values

    The values the source stores in records: [None], integers (rows,
    columns, slot numbers, symbols) and strings (attribute names). *)

Inductive value : Type :=
| VNone
| VInt (z : Z)
| VStr (s : string).

#[global] Instance value_eq_dec : EqDecision value.
Proof. solve_decision. Defined.

(** [v1 == v2] on attribute values. *)
Definition value_eqb (v1 v2 : value) : bool := bool_decide (v1 = v2).

(** ** Python dictionaries *)

Module PyDict.
Section dict.
Context {K V : Type}.
(** [keq stored k]: the stored key matches the looked-up key. *)
Variable keq : K -> K -> bool.

(** [d.get(k)], [None] when absent. *)
Fixpoint get (d : list (K * V)) (k : K) : option V :=
  match d with
  | [] => None
  | (k', v) :: d' => if keq k' k then Some v else get d' k
  end.

(** [k in d] *)
Definition contains (d : list (K * V)) (k : K) : bool :=
  match get d k with Some _ => true | None => false end.

(** [d[k] = v]: a present key keeps its place (and the stored key
    object), a new key is appended. *)
Fixpoint set (d : list (K * V)) (k : K) (v : V) : list (K * V) :=
  match d with
  | [] => [(k, v)]
  | (k', v') :: d' =>
      if keq k' k then (k', v) :: d' else (k', v') :: set d' k v
  end.

(** [del d[k]] for a present key. *)
Definition del (d : list (K * V)) (k : K) : list (K * V) :=
  List.filter (fun kv => negb (keq (fst kv) k)) d.

(** [d.keys()] and [d.items()], in insertion order. *)
Definition keys (d : list (K * V)) : list K := map fst d.
Definition items (d : list (K * V)) : list (K * V) := d.

(** [d1 == d2]: same length, and every item of [d1] is found in [d2]
    with an equal value. *)
Definition eqb (veq : V -> V -> bool) (d1 d2 : list (K * V)) : bool :=
  Nat.eqb (length d1) (length d2)
  && forallb (fun kv => match get d2 (fst kv) with
                        | Some v' => veq (snd kv) v'
                        | None => false
                        end) d1.
End dict.
End PyDict.

(** Keyword dictionaries: string keys. *)
Definition kwargs : Type := list (string * value).

(** A dictionary holds a key once. *)
Definition wf_kwargs (d : kwargs) : Prop := NoDup (map fst d).

(** A call with the items of [d1] and then of [d2] as keyword arguments:
    a keyword of [d2] already given by [d1] is a [TypeError]. *)
Definition kw_merge (d1 d2 : kwargs) : pyresult kwargs :=
  if existsb (fun kv => PyDict.contains String.eqb d1 (fst kv)) d2
  then Raise TypeError
  else Return (d1 ++ d2).

(** ** Records: [AttrDict], [State], [Action] *)

Inductive record : Type :=
| AttrDict (kw : kwargs)
| State (kw : kwargs)
| Action (name : string) (kw : kwargs).

Inductive pytype : Type := TAttrDict | TState | TAction.

#[global] Instance pytype_eq_dec : EqDecision pytype.
Proof. solve_decision. Defined.

#[global] Instance record_eq_dec : EqDecision record.
Proof. solve_decision. Defined.

(** [type(r)] *)
Definition type_of (r : record) : pytype :=
  match r with
  | AttrDict _ => TAttrDict
  | State _ => TState
  | Action _ _ => TAction
  end.

(** [r._attributes_] *)
Definition attributes (r : record) : kwargs :=
  match r with
  | AttrDict kw | State kw | Action _ kw => kw
  end.

Definition wf_record (r : record) : Prop := wf_kwargs (attributes r).

(** [AttrDict.__iter__]: the items of the dictionary. *)
Definition iter (r : record) : list (string * value) :=
  PyDict.items (attributes r).

(** [AttrDict.__getattr__(name)], as reached by [getattr(r, name)] and
    [r.name] for a name that is not a member of the class. *)
Definition getattr (r : record) (name : string) : pyresult value :=
  match PyDict.get String.eqb (attributes r) name with
  | Some v => Return v
  | None => Raise AttributeError
  end.

(** [AttrDict.as_dict]: a copy of the dictionary. *)
Definition as_dict (r : record) : kwargs := attributes r.

(** [AttrDict.__eq__], inherited by [State] and [Action]. *)
Definition record_eqb (self other : record) : bool :=
  bool_decide (type_of self = type_of other)
  && PyDict.eqb String.eqb value_eqb (attributes self) (attributes other).

(** [x in l] on a list of records. *)
Definition record_in (x : record) (l : list record) : bool :=
  existsb (fun y => record_eqb x y) l.

(** *** Hashing

    The elements of the tuples handed to the built-in [hash]: a name, or
    a key/value pair. *)
Inductive pyobj : Type :=
| OVal (v : value)
| OPair (k : string) (v : value).

#[global] Instance pyobj_eq_dec : EqDecision pyobj.
Proof. solve_decision. Defined.

(** Order of the items of a dictionary under [sorted]: keys are distinct,
    so the comparison of two items is decided by their keys. *)
Definition item_le (a b : string * value) : Prop :=
  String.leb (fst a) (fst b) = true.

#[global] Instance item_le_dec : RelDecision item_le.
Proof. intros a b. unfold item_le. apply bool_eq_dec. Defined.

(** [sorted(items)] *)
Definition sorted (l : list (string * value)) : list (string * value) :=
  merge_sort item_le l.

Definition pair_obj (kv : string * value) : pyobj := OPair (fst kv) (snd kv).

(** The tuple a record hashes:
    [tuple(sorted(self._attributes_.items()))] in [AttrDict.__hash__],
    [tuple([self.name, *sorted(self)])] in [Action.__hash__]. *)
Definition hash_tuple (r : record) : list pyobj :=
  match r with
  | AttrDict kw | State kw => map pair_obj (sorted (PyDict.items kw))
  | Action name kw => OVal (VStr name) :: map pair_obj (sorted (iter (Action name kw)))
  end.

Section Hash.
Context {H : Type}.
(** The built-in [hash] on tuples. *)
Variable py_hash : list pyobj -> H.

(** [hash(r)] *)
Definition record_hash (r : record) : H := py_hash (hash_tuple r).
End Hash.

(** ** [augment_state] *)

(** ['{}'.format(i)] for an index [i]. *)
Definition str_of_nat (i : nat) : string :=
  NilEmpty.string_of_uint (Nat.to_uint i).

(** [enumerate(l)] *)
Definition enumerate {A : Type} (l : list A) : list (nat * A) :=
  imap (fun i x => (i, x)) l.

(** The loop
    [for key in list(state.keys()): if key.startswith(prefix): del state[key]]. *)
Definition strip_prefix (prefix : string) (state : kwargs) : kwargs :=
  fold_left
    (fun st key => if String.prefix prefix key
                   then PyDict.del String.eqb st key else st)
    (PyDict.keys state) state.

(** The dictionary comprehension
    [{(prefix + '{}'.format(i)): value for i, value in enumerate(memories)}]. *)
Definition memory_dict (prefix : string) (memories : list value) : kwargs :=
  fold_left
    (fun d iv => PyDict.set String.eqb d
                   (String.append prefix (str_of_nat (fst iv))) (snd iv))
    (enumerate memories) [].

Definition augment_state (state : record) (memories : list value)
    (prefix : string) : pyresult record :=
  let state := strip_prefix prefix (as_dict state) in
  let memories := memory_dict prefix memories in
  kw ← kw_merge memories state;
  Return (State kw).

(** Vocabulary for the result of [augment_state]. *)

(** The key of slot [i]. *)
Definition slot_key (prefix : string) (i : nat) : string :=
  String.append prefix (str_of_nat i).

(** An item whose key starts with the prefix. *)
Definition prefixed (p : string) (kv : string * value) : bool :=
  String.prefix p (fst kv).

Definition not_prefixed (p : string) (kv : string * value) : bool :=
  negb (String.prefix p (fst kv)).

(** The items built for the slots, from index [j] on. *)
Definition slot_items (p : string) (j : nat) (memories : list value)
    : kwargs :=
  imap (fun i v => (slot_key p (j + i), v)) memories.

(** ** Numbers and randomness *)

(** The arithmetic the agents apply to rewards, values and rates. *)
Class Number (F : Type) : Type := {
  f0 : F;
  f1 : F;
  fadd : F -> F -> F;
  fsub : F -> F -> F;
  fmul : F -> F -> F;
  flt : F -> F -> bool
}.

(** The generator behind [self.rng]: [random()] and the index drawn by
    [choice] for a sequence of a given length. *)
Class RandomSource (G F : Type) : Type := {
  rng_random : G -> F * G;
  rng_randbelow : nat -> G -> nat * G
}.

(** [rng.choice(seq)]; an empty sequence is an [IndexError]. *)
Definition rng_choice {G F X : Type} `{RandomSource G F} (seq : list X) (g : G)
    : pyresult (X * G) :=
  match seq with
  | [] => Raise IndexError
  | _ =>
      let '(i, g') := rng_randbelow (length seq) g in
      match seq !! i with
      | Some x => Return (x, g')
      | None => Raise IndexError
      end
  end.

(** ** Agents *)

(** The attributes [Agent.__init__] sets.  Observations and actions may be
    [None]. *)
Class AgentFields (G Obs Act A : Type) : Type := {
  rng : A -> G;
  set_rng : G -> A -> A;
  prev_observation : A -> option Obs;
  prev_action : A -> option Act;
  set_prev_observation : option Obs -> A -> A;
  set_prev_action : option Act -> A -> A
}.

(** The methods [Agent] leaves to its subclasses. *)
Class ValueFunction (F Obs Act A : Type) : Type := {
  get_value : option Obs -> option Act -> A -> pyresult (F * A);
  get_stored_actions : option Obs -> A -> pyresult (list (option Act))
}.

Class Learner (F Obs A : Type) : Type := {
  observe_reward : option Obs -> option F -> A -> pyresult A
}.

Module Agent.
Section Agent.
Context {F G Obs Act A : Type}.
Context `{Number F} `{RandomSource G F}.
Context `{AgentFields G Obs Act A} `{ValueFunction F Obs Act A}.

Definition start_new_episode (self : A) : A :=
  set_prev_action None (set_prev_observation None self).

(** [max(actions, key=...)] after the first item: a later item replaces
    the current one only when its key is strictly greater. *)
Fixpoint max_by_value (observation : option Obs) (maxitem : option Act)
    (maxval : F) (actions : list (option Act)) (self : A)
    : pyresult (option Act * A) :=
  match actions with
  | [] => Return (maxitem, self)
  | action :: rest =>
      '(val, self) ← get_value observation action self;
      if flt maxval val
      then max_by_value observation action val rest self
      else max_by_value observation maxitem maxval rest self
  end.

Definition get_best_action (observation : option Obs) (self : A)
    : pyresult (option Act * A) :=
  actions ← get_stored_actions observation self;
  match actions with
  | [] => Return (None, self)
  | action :: rest =>
      '(val, self) ← get_value observation action self;
      max_by_value observation action val rest self
  end.

Definition get_best_value (observation : option Obs) (self : A)
    : pyresult (F * A) :=
  '(best_action, self) ← get_best_action observation self;
  get_value observation best_action self.

Definition force_act (observation : option Obs) (action : option Act)
    (self : A) : pyresult (option Act * A) :=
  let self := set_prev_observation observation self in
  let self :=
    match observation with
    | None => set_prev_action None self
    | Some _ => set_prev_action action self
    end in
  Return (action, self).

Definition act (observation : option Obs) (actions : list Act) (self : A)
    : pyresult (option Act * A) :=
  '(best_action, self) ← get_best_action observation self;
  '(best_action, self) ←
    match best_action with
    | None =>
        '(a, g) ← rng_choice actions (rng self);
        Return (Some a, set_rng g self)
    | Some a => Return (Some a, self)
    end;
  force_act observation best_action self.
End Agent.
End Agent.

(** *** [TabularQLearningAgent] *)

(** Matching of a stored dictionary key with a looked-up key (equal hash
    and [==]). *)
Class DictKey (K : Type) : Type := key_match : K -> K -> bool.

Module TabularQLearningAgent.
Section Tabular.
Context {F G Obs Act : Type}.
Context `{Number F} `{RandomSource G F}.
Context `{DictKey (option Obs)} `{DictKey (option Act)}.

(** [defaultdict(lambda: defaultdict(float))] *)
Definition table : Type := list (option Obs * list (option Act * F)).

Record t : Type := mk {
  self_rng : G;
  self_prev_observation : option Obs;
  self_prev_action : option Act;
  value_function : table;
  learning_rate : F;
  discount_rate : F
}.

Definition with_value_function (vf : table) (self : t) : t :=
  mk (self_rng self) (self_prev_observation self) (self_prev_action self)
     vf (learning_rate self) (discount_rate self).

#[global] Instance fields : AgentFields G Obs Act t := {|
  rng := self_rng;
  set_rng g self :=
    mk g (self_prev_observation self) (self_prev_action self)
       (value_function self) (learning_rate self) (discount_rate self);
  prev_observation := self_prev_observation;
  prev_action := self_prev_action;
  set_prev_observation o self :=
    mk (self_rng self) o (self_prev_action self)
       (value_function self) (learning_rate self) (discount_rate self);
  set_prev_action a self :=
    mk (self_rng self) (self_prev_observation self) a
       (value_function self) (learning_rate self) (discount_rate self)
|}.

(** [self.value_function[observation][action]] on the inner
    [defaultdict(float)] of a present observation: a missing action is
    inserted with [float()] and that value is returned. *)
Definition inner_getitem (observation : option Obs) (action : option Act)
    (values : list (option Act * F)) (self : t) : F * t :=
  match PyDict.get key_match values action with
  | Some v => (v, self)
  | None =>
      (f0, with_value_function
             (PyDict.set key_match (value_function self) observation
                (PyDict.set key_match values action f0)) self)
  end.

Definition get_value (observation : option Obs) (action : option Act)
    (self : t) : pyresult (F * t) :=
  match PyDict.get key_match (value_function self) observation with
  | None => Return (f0, self)
  | Some values => Return (inner_getitem observation action values self)
  end.

Definition get_stored_actions (observation : option Obs) (self : t)
    : pyresult (list (option Act)) :=
  match PyDict.get key_match (value_function self) observation with
  | None => Return []
  | Some values => Return (PyDict.keys values)
  end.

#[global] Instance values : ValueFunction F Obs Act t :=
  Build_ValueFunction F Obs Act t get_value get_stored_actions.

(** [self.value_function[o][a] = v]: the outer [defaultdict] creates the
    row of a missing observation. *)
Definition setitem (o : option Obs) (a : option Act) (v : F) (vf : table)
    : table :=
  let values :=
    match PyDict.get key_match vf o with
    | Some values => values
    | None => []
    end in
  PyDict.set key_match vf o (PyDict.set key_match values a v).

(** A reward of [None] makes [reward + ...] a [TypeError]. *)
Definition observe_reward (observation : option Obs) (reward : option F)
    (self : t) : pyresult t :=
  '(prev_value, self) ←
    get_value (self_prev_observation self) (self_prev_action self) self;
  '(best_value, self) ← Agent.get_best_value observation self;
  reward ← match reward with
           | Some r => Return r
           | None => Raise TypeError
           end;
  let next_value := fadd reward (fmul (discount_rate self) best_value) in
  let new_value :=
    fadd (fmul (fsub f1 (learning_rate self)) prev_value)
         (fmul (learning_rate self) next_value) in
  Return (with_value_function
            (setitem (self_prev_observation self) (self_prev_action self)
               new_value (value_function self)) self).

#[global] Instance learner : Learner F Obs t :=
  Build_Learner F Obs t observe_reward.
End Tabular.
End TabularQLearningAgent.

(** *** [epsilon_greedy] *)

Module EpsilonGreedyMetaAgent.
Section EpsilonGreedy.
Context {F G Obs Act A : Type}.
Context `{Number F} `{RandomSource G F}.
Context `{AgentFields G Obs Act A} `{ValueFunction F Obs Act A}
        `{Learner F Obs A}.

(** An object of the subclass: the attributes of the decorated class
    [cls] and [exploration_rate]. *)
Record t : Type := mk {
  cls : A;
  exploration_rate : F
}.

Definition with_cls (self : t) (a : A) : t := mk a (exploration_rate self).

(** [act]; [depth] is the number of frames left before the interpreter
    raises [RecursionError].  The last branch calls [self.act], which on
    an object of this class is this method. *)
Fixpoint act (depth : nat) (observation : option Obs) (actions : list Act)
    (reward : option F) (self : t) : pyresult (option Act * t) :=
  match depth with
  | O => Raise RecursionError
  | S depth =>
      match actions with
      | [] =>
          a ← observe_reward observation reward (cls self);
          Return (None, with_cls self a)
      | _ =>
          let '(u, g) := rng_random (rng (cls self)) in
          let self := with_cls self (set_rng g (cls self)) in
          if flt u (exploration_rate self)
          then
            '(choice, g) ← rng_choice actions (rng (cls self));
            let self := with_cls self (set_rng g (cls self)) in
            '(action, a) ← Agent.force_act observation (Some choice) (cls self);
            Return (action, with_cls self a)
          else act depth observation actions reward self
      end
  end.
End EpsilonGreedy.
End EpsilonGreedyMetaAgent.

(** ** Environments *)

(** [action.name]: the instance attribute of an [Action]; on the other
    records and on [None] the lookup of a missing attribute. *)
Definition action_name (action : option record) : pyresult value :=
  match action with
  | Some (Action name _) => Return (VStr name)
  | Some r => getattr r "name"
  | None => Raise AttributeError
  end.

(** [action.attr] for a keyword attribute. *)
Definition action_attr (action : option record) (attr : string)
    : pyresult value :=
  match action with
  | Some r => getattr r attr
  | None => Raise AttributeError
  end.

(** [getattr(obj, name)] on an observation that may be [None]. *)
Definition getattr_dyn (obj : option record) (name : value) : pyresult value :=
  match name with
  | VStr s =>
      match obj with
      | Some r => getattr r s
      | None => Raise AttributeError
      end
  | _ => Raise TypeError
  end.

(** The position a list index denotes: negative indices count from the
    end, anything outside the list is an [IndexError]. *)
Definition list_index {X : Type} (l : list X) (i : value) : pyresult nat :=
  match i with
  | VInt z =>
      let n := Z.of_nat (length l) in
      if (0 <=? z) && (z <? n) then Return (Z.to_nat z)
      else if (- n <=? z) && (z <? 0) then Return (Z.to_nat (n + z))
      else Raise IndexError
  | _ => Raise TypeError
  end.

(** [l[i]] *)
Definition list_getitem {X : Type} (l : list X) (i : value) : pyresult X :=
  n ← list_index l i;
  match l !! n with
  | Some x => Return x
  | None => Raise IndexError
  end.

(** [l[i] = x] *)
Definition list_setitem {X : Type} (l : list X) (i : value) (x : X)
    : pyresult (list X) :=
  n ← list_index l i;
  Return (<[n := x]> l).

(** [x in actions] for an action that may be [None]. *)
Definition action_in (x : option record) (actions : list record) : bool :=
  match x with
  | Some r => record_in r actions
  | None => false
  end.

(** *** [GridWorld]

    The methods are written over the object [Self] they are called on,
    which carries the attributes of [GridWorld] and, for an object of a
    subclass, more.  A call through [self] is a call of the method of the
    object's class, given as a section variable. *)

Module GridWorld.
Record fields : Type := mk {
  width : Z;
  height : Z;
  start : list Z;
  goal : list Z;
  row : Z;
  col : Z
}.

Class Has (Self : Type) : Type := {
  grid : Self -> fields;
  set_grid : fields -> Self -> Self
}.

(** [__init__]: [start[0]] and [start[1]] must exist. *)
Definition init (width height : Z) (start goal : list Z) : pyresult fields :=
  match start with
  | r :: c :: _ => Return (mk width height start goal r c)
  | _ => Raise IndexError
  end.

Section methods.
Context {Self : Type} `{Has Self}.
Variable self_get_state : Self -> pyresult (option record).
Variable self_get_actions : Self -> pyresult (list record).
Variable self_start_new_episode : Self -> pyresult Self.

Definition get_state (self : Self) : pyresult (option record) :=
  Return (Some (State [("row"%string, VInt (row (grid self)));
                       ("col"%string, VInt (col (grid self)))])).

Definition get_observation (self : Self) : pyresult (option record) :=
  self_get_state self.

Definition at_goal (g : fields) : bool :=
  bool_decide ([row g; col g] = goal g).

Definition get_actions (self : Self) : pyresult (list record) :=
  let g := grid self in
  if at_goal g then Return []
  else
    let actions := [] in
    let actions := if 0 <? row g then actions ++ [Action "up" []] else actions in
    let actions := if row g <? height g - 1
                   then actions ++ [Action "down" []] else actions in
    let actions := if 0 <? col g then actions ++ [Action "left" []] else actions in
    let actions := if col g <? width g - 1
                   then actions ++ [Action "right" []] else actions in
    Return actions.

Definition reset (self : Self) : pyresult Self :=
  self_start_new_episode self.

Definition start_new_episode (self : Self) : pyresult Self :=
  let g := grid self in
  match start g with
  | r :: c :: _ =>
      Return (set_grid (mk (width g) (height g) (start g) (goal g) r c) self)
  | _ => Raise IndexError
  end.

Definition react (action : option record) (self : Self)
    : pyresult (Z * Self) :=
  actions ← self_get_actions self;
  _ ← assert (action_in action actions);
  name ← action_name action;
  let g := grid self in
  let g :=
    if value_eqb name (VStr "up")
    then mk (width g) (height g) (start g) (goal g) (Z.max 0 (row g - 1)) (col g)
    else if value_eqb name (VStr "down")
    then mk (width g) (height g) (start g) (goal g)
            (Z.min (height g - 1) (row g + 1)) (col g)
    else if value_eqb name (VStr "left")
    then mk (width g) (height g) (start g) (goal g) (row g) (Z.max 0 (col g - 1))
    else if value_eqb name (VStr "right")
    then mk (width g) (height g) (start g) (goal g) (row g)
            (Z.min (width g - 1) (col g + 1))
    else g in
  if at_goal g then Return (1, set_grid g self)
  else Return (-1, set_grid g self).
End methods.
End GridWorld.

(** *** [gating_memory]

    The methods of the decorated class [cls] that the subclass reaches
    through [super()] are section variables; they act on the object of
    the subclass. *)

Module GatingMemoryMetaEnvironment.
Class Has (R Self : Type) : Type := {
  reward : Self -> R;
  memories : Self -> list value;
  set_memories : list value -> Self -> Self
}.

Definition ATTR_PREFIX : string := "memory_".

(** [num_memory_slots * [None]] *)
Definition fresh (num_memory_slots : Z) : list value :=
  replicate (Z.to_nat num_memory_slots) VNone.

Section methods.
Context {R Self : Type} `{Has R Self}.
Variable super_get_state : Self -> pyresult (option record).
Variable super_get_observation : Self -> pyresult (option record).
Variable super_get_actions : Self -> pyresult (list record).
Variable super_reset : Self -> pyresult Self.
Variable super_start_new_episode : Self -> pyresult Self.
Variable super_react : option record -> Self -> pyresult (R * Self).

Definition get_state (self : Self) : pyresult (option record) :=
  state ← super_get_state self;
  match state with
  | None => Return None
  | Some state =>
      s ← augment_state state (memories self) ATTR_PREFIX;
      Return (Some s)
  end.

Definition get_observation (self : Self) : pyresult (option record) :=
  observation ← super_get_observation self;
  match observation with
  | None => Return None
  | Some observation =>
      s ← augment_state observation (memories self) ATTR_PREFIX;
      Return (Some s)
  end.

(** The two nested [for] loops appending [gate] actions. *)
Definition append_gates (n : nat) (observations : record)
    (actions : list record) : list record :=
  fold_left
    (fun actions slot_num =>
       fold_left
         (fun actions kv =>
            if String.prefix ATTR_PREFIX (fst kv) then actions
            else actions ++
                 [Action "gate" [("slot"%string, VInt (Z.of_nat slot_num));
                                 ("attribute"%string, VStr (fst kv))]])
         (iter observations) actions)
    (seq 0 n) actions.

Definition get_actions (self : Self) : pyresult (list record) :=
  actions ← super_get_actions self;
  match actions with
  | [] => Return actions
  | _ =>
      observations ← super_get_observation self;
      match observations with
      | None => Return actions
      | Some observations =>
          Return (append_gates (length (memories self)) observations actions)
      end
  end.

Definition reset (self : Self) : pyresult Self :=
  self ← super_reset self;
  Return (set_memories (replicate (length (memories self)) VNone) self).

Definition start_new_episode (self : Self) : pyresult Self :=
  self ← super_start_new_episode self;
  Return (set_memories (replicate (length (memories self)) VNone) self).

Definition react (action : option record) (self : Self)
    : pyresult (R * Self) :=
  name ← action_name action;
  if value_eqb name (VStr "gate") then
    observation ← super_get_observation self;
    attribute ← action_attr action "attribute";
    v ← getattr_dyn observation attribute;
    slot ← action_attr action "slot";
    mem ← list_setitem (memories self) slot v;
    Return (reward self, set_memories mem self)
  else super_react action self.
End methods.
End GatingMemoryMetaEnvironment.

(** Vocabulary for the result of [get_actions]: the [gate] action of a
    slot and an attribute, and the [gate] actions of [n] slots over the
    attributes of an observation that are not memory attributes, slot by
    slot. *)
Definition gate_action (slot_num : nat) (attr : string) : record :=
  Action "gate" [("slot"%string, VInt (Z.of_nat slot_num));
                 ("attribute"%string, VStr attr)].

Definition gate_actions (n : nat) (observations : record) : list record :=
  flat_map
    (fun slot_num =>
       map (fun kv => gate_action slot_num (fst kv))
           (List.filter (not_prefixed GatingMemoryMetaEnvironment.ATTR_PREFIX)
              (iter observations)))
    (seq 0 n).

(** *** [fixed_long_term_memory] *)

Module LongTermMemoryMetaEnvironment.
Class Has (R Self : Type) : Type := {
  reward : Self -> R;
  wm : Self -> list value;
  ltm : Self -> list value;
  set_wm : list value -> Self -> Self;
  set_ltm : list value -> Self -> Self
}.

Definition WM_PREFIX : string := "wm_".
Definition LTM_PREFIX : string := "ltm_".

Section methods.
Context {R Self : Type} `{Has R Self}.
Variable super_get_state : Self -> pyresult (option record).
Variable super_get_observation : Self -> pyresult (option record).
Variable super_get_actions : Self -> pyresult (list record).
Variable super_reset : Self -> pyresult Self.
Variable super_start_new_episode : Self -> pyresult Self.
Variable super_react : option record -> Self -> pyresult (R * Self).

Definition get_state (self : Self) : pyresult (option record) :=
  state ← super_get_state self;
  match state with
  | None => Return None
  | Some state =>
      state ← augment_state state (wm self) WM_PREFIX;
      state ← augment_state state (ltm self) LTM_PREFIX;
      Return (Some state)
  end.

Definition get_observation (self : Self) : pyresult (option record) :=
  observation ← super_get_observation self;
  match observation with
  | None => Return None
  | Some observation =>
      s ← augment_state observation (wm self) WM_PREFIX;
      Return (Some s)
  end.

(** The loops appending [store] actions. *)
Definition append_stores (n : nat) (observations : record)
    (actions : list record) : list record :=
  fold_left
    (fun actions slot_num =>
       fold_left
         (fun actions kv =>
            if String.prefix WM_PREFIX (fst kv) then actions
            else actions ++
                 [Action "store" [("slot"%string, VInt (Z.of_nat slot_num));
                                  ("attribute"%string, VStr (fst kv))]])
         (iter observations) actions)
    (seq 0 n) actions.

(** The loops appending [retrieve] actions. *)
Definition append_retrieves (n_wm n_ltm : nat) (actions : list record)
    : list record :=
  fold_left
    (fun actions wm_slot_num =>
       fold_left
         (fun actions ltm_slot_num =>
            actions ++
            [Action "retrieve"
               [("wm_slot"%string, VInt (Z.of_nat wm_slot_num));
                ("ltm_slot"%string, VInt (Z.of_nat ltm_slot_num))]])
         (seq 0 n_ltm) actions)
    (seq 0 n_wm) actions.

Definition get_actions (self : Self) : pyresult (list record) :=
  actions ← super_get_actions self;
  match actions with
  | [] => Return actions
  | _ =>
      observations ← super_get_observation self;
      match observations with
      | None => Return actions
      | Some observations =>
          let actions :=
            append_stores (length (ltm self)) observations actions in
          Return (append_retrieves (length (wm self)) (length (ltm self))
                    actions)
      end
  end.

Definition clear (self : Self) : Self :=
  let self := set_wm (replicate (length (wm self)) VNone) self in
  set_ltm (replicate (length (ltm self)) VNone) self.

Definition reset (self : Self) : pyresult Self :=
  self ← super_reset self;
  Return (clear self).

Definition start_new_episode (self : Self) : pyresult Self :=
  self ← super_start_new_episode self;
  Return (clear self).

Definition react (action : option record) (self : Self)
    : pyresult (R * Self) :=
  name ← action_name action;
  if value_eqb name (VStr "store") then
    observation ← super_get_observation self;
    attribute ← action_attr action "attribute";
    v ← getattr_dyn observation attribute;
    slot ← action_attr action "slot";
    mem ← list_setitem (ltm self) slot v;
    Return (reward self, set_ltm mem self)
  else if value_eqb name (VStr "retrieve") then
    ltm_slot ← action_attr action "ltm_slot";
    v ← list_getitem (ltm self) ltm_slot;
    wm_slot ← action_attr action "wm_slot";
    mem ← list_setitem (wm self) wm_slot v;
    Return (reward self, set_wm mem self)
  else super_react action self.
End methods.
End LongTermMemoryMetaEnvironment.

(** ** Concrete instances *)

(** Rational numbers as numbers. *)
#[global] Instance Q_number : Number Q := {|
  f0 := 0%Q;
  f1 := 1%Q;
  fadd := Qplus;
  fsub := Qminus;
  fmul := Qmult;
  flt x y := negb (Qle_bool y x)
|}.

(** A generator that replays a script: the values of [random()] and the
    indices of [choice], then a constant. *)
Record script : Type := mk_script {
  draws : list Q;
  picks : list nat
}.

#[global] Instance script_rng : RandomSource script Q := {|
  rng_random g :=
    match draws g with
    | u :: us => (u, mk_script us (picks g))
    | [] => ((1 # 2)%Q, g)
    end;
  rng_randbelow n g :=
    match picks g with
    | i :: rest => (i, mk_script (draws g) rest)
    | [] => (O, g)
    end
|}.

(** Dictionary keys under a collision-free [hash]: two records match when
    the tuples they hash are the same and they compare equal. *)
#[global] Instance record_key : DictKey (option record) := fun k1 k2 =>
  match k1, k2 with
  | None, None => true
  | Some r1, Some r2 =>
      bool_decide (hash_tuple r1 = hash_tuple r2) && record_eqb r1 r2
  | _, _ => false
  end.

(** A [GridWorld] decorated with [gating_memory]. *)
Module GatedGridWorld.
Record t : Type := mk {
  grid : GridWorld.fields;
  reward : Z;
  memories : list value
}.

#[global] Instance has_grid : GridWorld.Has t := {|
  GridWorld.grid := grid;
  GridWorld.set_grid g self := mk g (reward self) (memories self)
|}.

#[global] Instance has_memory : GatingMemoryMetaEnvironment.Has Z t := {|
  GatingMemoryMetaEnvironment.reward := reward;
  GatingMemoryMetaEnvironment.memories := memories;
  GatingMemoryMetaEnvironment.set_memories m self :=
    mk (grid self) (reward self) m
|}.

(** [gating_memory(GridWorld, num_memory_slots, reward)(width, height, start, goal)] *)
Definition init (num_memory_slots reward width height : Z)
    (start goal : list Z) : pyresult t :=
  g ← GridWorld.init width height start goal;
  Return (mk g reward (GatingMemoryMetaEnvironment.fresh num_memory_slots)).

(** Method resolution on an object of the subclass: [super()] is
    [GridWorld], and [self] inside [GridWorld] is the subclass. *)
Definition get_state : t -> pyresult (option record) :=
  GatingMemoryMetaEnvironment.get_state GridWorld.get_state.

Definition get_observation : t -> pyresult (option record) :=
  GatingMemoryMetaEnvironment.get_observation
    (GridWorld.get_observation get_state).

Definition get_actions : t -> pyresult (list record) :=
  GatingMemoryMetaEnvironment.get_actions
    (GridWorld.get_observation get_state) GridWorld.get_actions.

Definition start_new_episode : t -> pyresult t :=
  GatingMemoryMetaEnvironment.start_new_episode GridWorld.start_new_episode.

Definition reset : t -> pyresult t :=
  GatingMemoryMetaEnvironment.reset (GridWorld.reset start_new_episode).

Definition react : option record -> t -> pyresult (Z * t) :=
  GatingMemoryMetaEnvironment.react
    (GridWorld.get_observation get_state) (GridWorld.react get_actions).
End GatedGridWorld.

(** A [GridWorld] decorated with [fixed_long_term_memory]. *)
Module LongTermGridWorld.
Record t : Type := mk {
  grid : GridWorld.fields;
  reward : Z;
  wm : list value;
  ltm : list value
}.

#[global] Instance has_grid : GridWorld.Has t := {|
  GridWorld.grid := grid;
  GridWorld.set_grid g self := mk g (reward self) (wm self) (ltm self)
|}.

#[global] Instance has_memory : LongTermMemoryMetaEnvironment.Has Z t := {|
  LongTermMemoryMetaEnvironment.reward := reward;
  LongTermMemoryMetaEnvironment.wm := wm;
  LongTermMemoryMetaEnvironment.ltm := ltm;
  LongTermMemoryMetaEnvironment.set_wm m self :=
    mk (grid self) (reward self) m (ltm self);
  LongTermMemoryMetaEnvironment.set_ltm m self :=
    mk (grid self) (reward self) (wm self) m
|}.

(** [fixed_long_term_memory(GridWorld, num_wm_slots, num_ltm_slots, reward)(width, height, start, goal)] *)
Definition init (num_wm_slots num_ltm_slots reward width height : Z)
    (start goal : list Z) : pyresult t :=
  g ← GridWorld.init width height start goal;
  Return (mk g reward (replicate (Z.to_nat num_wm_slots) VNone)
            (replicate (Z.to_nat num_ltm_slots) VNone)).

Definition get_state : t -> pyresult (option record) :=
  LongTermMemoryMetaEnvironment.get_state GridWorld.get_state.

Definition get_observation : t -> pyresult (option record) :=
  LongTermMemoryMetaEnvironment.get_observation
    (GridWorld.get_observation get_state).

Definition get_actions : t -> pyresult (list record) :=
  LongTermMemoryMetaEnvironment.get_actions
    (GridWorld.get_observation get_state) GridWorld.get_actions.

Definition react : option record -> t -> pyresult (Z * t) :=
  LongTermMemoryMetaEnvironment.react
    (GridWorld.get_observation get_state) (GridWorld.react get_actions).
End LongTermGridWorld.

(** A generator whose [random()] is always one half. *)
#[global] Instance constant_rng : RandomSource unit Q := {|
  rng_random g := ((1 # 2)%Q, g);
  rng_randbelow n g := (O, g)
|}.

(** *** The update rule as the specification words it

    Read on the table as it is before the call: the prior value of an
    entry ([0.0] if absent), the maximum stored value at an observation
    ([0.0] if none) and the new value of the entry at the cursor. *)
Module UpdateRule.
Section UpdateRule.
Context {F G Obs Act : Type}.
Context `{Number F} `{DictKey (option Obs)} `{DictKey (option Act)}.

Definition stored_value (vf : @TabularQLearningAgent.table F Obs Act)
    (o : option Obs) (a : option Act) : F :=
  match PyDict.get key_match vf o with
  | Some values =>
      match PyDict.get key_match values a with
      | Some v => v
      | None => f0
      end
  | None => f0
  end.

Definition max_stored_value (vf : @TabularQLearningAgent.table F Obs Act)
    (o : option Obs) : F :=
  match PyDict.get key_match vf o with
  | Some ((_, v) :: values) =>
      fold_left (fun m av => if flt m (snd av) then snd av else m) values v
  | _ => f0
  end.

(** The entry [max(actions, key=...)] ends with, from a current entry
    over the later entries of a row. *)
Definition best_entry (current : option Act * F)
    (values : list (option Act * F)) : option Act * F :=
  fold_left (fun cur kv => if flt (snd cur) (snd kv) then kv else cur)
            values current.

Definition new_value (self : @TabularQLearningAgent.t F G Obs Act)
    (observation : option Obs) (reward : F) : F :=
  let vf := TabularQLearningAgent.value_function self in
  let prev_value :=
    stored_value vf (TabularQLearningAgent.self_prev_observation self)
                    (TabularQLearningAgent.self_prev_action self) in
  let target :=
    fadd reward (fmul (TabularQLearningAgent.discount_rate self)
                      (max_stored_value vf observation)) in
  fadd (fmul (fsub f1 (TabularQLearningAgent.learning_rate self)) prev_value)
       (fmul (TabularQLearningAgent.learning_rate self) target).
End UpdateRule.
End UpdateRule.

(** *** Well-formed tables

    A row holds each action once: a stored key matches itself and no
    later key of the row.  The rows of a table are non-empty: a row is
    created by the assignment that writes its first entry. *)
Module Table.
Section Table.
Context {F Obs Act : Type} `{DictKey (option Act)}.

Fixpoint row_ok (values : list (option Act * F)) : Prop :=
  match values with
  | [] => True
  | (k, _) :: rest =>
      key_match k k = true
      /\ Forall (fun kv => key_match k (fst kv) = false) rest
      /\ row_ok rest
  end.

Definition ok (vf : @TabularQLearningAgent.table F Obs Act) : Prop :=
  Forall (fun row => snd row <> [] /\ row_ok (snd row)) vf.
End Table.
End Table.

(** *** Example objects *)

Module Examples.
Local Open Scope string_scope.

(** Observations and actions of a corridor of one row. *)
Definition cell (c : Z) : option record :=
  Some (State [("row", VInt 0); ("col", VInt c)]).
Definition left : record := Action "left" [].
Definition right : record := Action "right" [].

(** A tabular agent over rationals, records and a scripted generator. *)
Definition QAgent : Type := @TabularQLearningAgent.t Q script record record.

(** [TabularQLearningAgent(learning_rate, discount_rate)] *)
Definition new_agent (learning_rate discount_rate : Q) (g : script) : QAgent :=
  TabularQLearningAgent.mk g None None [] learning_rate discount_rate.

(** The agent after [force_act(cell 0, right)] and
    [observe_reward(cell 1, -1)], with rates one: its table holds
    [-1] at [(cell 0, right)] and nothing else. *)
Definition visited_once (g : script) : pyresult QAgent :=
  '(_, self) ← Agent.force_act (cell 0) (Some right) (new_agent 1 1 g);
  TabularQLearningAgent.observe_reward (cell 1) (Some (-1)%Q) self.

(** The same agent with its cursor moved to [(cell 0, left)]. *)
Definition visited_then_left (g : script) : pyresult QAgent :=
  self ← visited_once g;
  '(_, self) ← Agent.force_act (cell 0) (Some left) self;
  Return self.

(** An agent with rates one half after [force_act(cell 0, right)],
    [observe_reward(cell 1, 2)] and [start_new_episode()]: it has learnt
    a value for [right] at [cell 0], and for nothing else. *)
Definition learnt_right (g : script) : pyresult QAgent :=
  '(_, self) ← Agent.force_act (cell 0) (Some right)
                 (new_agent (1 # 2) (1 # 2) g);
  self ← TabularQLearningAgent.observe_reward (cell 1) (Some 2%Q) self;
  Return (Agent.start_new_episode self).

(** A corridor of width three with the goal at its right end, decorated
    with two gating memory slots: at the start and at the goal. *)
Definition corridor (c : Z) : GatedGridWorld.t :=
  GatedGridWorld.mk (GridWorld.mk 3 1 [0; 0] [0; 2] 0 c) 0 [VNone; VNone].

(** The same corridor decorated with one working-memory and one
    long-term-memory slot. *)
Definition ltm_corridor (c : Z) : LongTermGridWorld.t :=
  LongTermGridWorld.mk (GridWorld.mk 3 1 [0; 0] [0; 2] 0 c) 0 [VNone] [VNone].

Definition gate (slot : Z) (attr : string) : record :=
  Action "gate" [("slot", VInt slot); ("attribute", VStr attr)].
Definition store (slot : Z) (attr : string) : record :=
  Action "store" [("slot", VInt slot); ("attribute", VStr attr)].
Definition retrieve (wm_slot ltm_slot : Z) : record :=
  Action "retrieve" [("wm_slot", VInt wm_slot); ("ltm_slot", VInt ltm_slot)].
End Examples.

(** [r.name] when [r] is an [Action]; the other records have no name. *)
Definition record_name (r : record) : option string :=
  match r with
  | Action name _ => Some name
  | _ => None
  end.

(** *** Entries of a value table *)

Module Entry.
Section Entry.
Context {F Obs Act : Type} `{DictKey (option Obs)} `{DictKey (option Act)}.

(** [o in vf and a in vf[o]], without touching the table. *)
Definition stored (vf : @TabularQLearningAgent.table F Obs Act)
    (o : option Obs) (a : option Act) : bool :=
  match PyDict.get key_match vf o with
  | Some values => PyDict.contains key_match values a
  | None => false
  end.
End Entry.

(** Two keys that no dictionary can confuse: [k2] matches neither [k] nor
    a stored key that [k] matches. *)
Definition differs {K : Type} `{DictKey K} (k k2 : K) : Prop :=
  key_match k k2 = false
  /\ forall k' : K, key_match k' k = true -> key_match k' k2 = false.
End Entry.

(** A table with two entries at [cell 0], the cursor on one of them. *)
Definition two_entries : Examples.QAgent :=
  TabularQLearningAgent.mk (mk_script [] [O])
    (Examples.cell 0) (Some Examples.right)
    [(Examples.cell 0,
      [(Some Examples.right, (-1)%Q); (Some Examples.left, 2%Q)])]
    (1 # 2)%Q (1 # 2)%Q.

(** *** [Environment.end_of_episode] *)

Module Environment.
Section Environment.
Context {Self : Type}.
(** [self.get_actions], the method of the object's class. *)
Variable self_get_actions : Self -> pyresult (list record).

Definition end_of_episode (self : Self) : pyresult bool :=
  actions ← self_get_actions self;
  Return (bool_decide (actions = [])).
End Environment.
End Environment.

(** An undecorated [GridWorld]: the object is its attributes, and [self]
    inside [GridWorld] is [GridWorld]. *)
Module PlainGridWorld.
#[global] Instance has_grid : GridWorld.Has GridWorld.fields := {|
  GridWorld.grid g := g;
  GridWorld.set_grid g _ := g
|}.

Definition get_state : GridWorld.fields -> pyresult (option record) :=
  GridWorld.get_state.

Definition get_observation : GridWorld.fields -> pyresult (option record) :=
  GridWorld.get_observation get_state.

Definition get_actions : GridWorld.fields -> pyresult (list record) :=
  GridWorld.get_actions.

Definition end_of_episode : GridWorld.fields -> pyresult bool :=
  Environment.end_of_episode get_actions.

Definition start_new_episode : GridWorld.fields -> pyresult GridWorld.fields :=
  GridWorld.start_new_episode.

Definition reset : GridWorld.fields -> pyresult GridWorld.fields :=
  GridWorld.reset start_new_episode.

Definition react
    : option record -> GridWorld.fields -> pyresult (Z * GridWorld.fields) :=
  GridWorld.react get_actions.
End PlainGridWorld.

(** The position is a cell of the grid. *)
Definition in_bounds (g : GridWorld.fields) : Prop :=
  0 <= GridWorld.row g < GridWorld.height g
  /\ 0 <= GridWorld.col g < GridWorld.width g.

(** The same grid, at another position. *)
Definition same_grid (g g' : GridWorld.fields) : Prop :=
  GridWorld.width g' = GridWorld.width g
  /\ GridWorld.height g' = GridWorld.height g
  /\ GridWorld.start g' = GridWorld.start g
  /\ GridWorld.goal g' = GridWorld.goal g.

(** The state of a [GridWorld]: [State(row=..., col=...)]. *)
Definition grid_items (g : GridWorld.fields) : kwargs :=
  [("row"%string, VInt (GridWorld.row g)); ("col"%string, VInt (GridWorld.col g))].

(** Vocabulary for the action set of [fixed_long_term_memory]: the
    [store] actions of [n] long-term slots over the attributes of an
    observation that are not working-memory attributes, and the
    [retrieve] actions of every pair of a working-memory slot and a
    long-term slot. *)
Definition store_action (slot_num : nat) (attr : string) : record :=
  Action "store" [("slot"%string, VInt (Z.of_nat slot_num));
                  ("attribute"%string, VStr attr)].

Definition retrieve_action (wm_slot_num ltm_slot_num : nat) : record :=
  Action "retrieve" [("wm_slot"%string, VInt (Z.of_nat wm_slot_num));
                     ("ltm_slot"%string, VInt (Z.of_nat ltm_slot_num))].

Definition store_actions (n : nat) (observations : record) : list record :=
  flat_map
    (fun slot_num =>
       map (fun kv => store_action slot_num (fst kv))
           (List.filter (not_prefixed LongTermMemoryMetaEnvironment.WM_PREFIX)
              (iter observations)))
    (seq 0 n).

Definition retrieve_actions (n_wm n_ltm : nat) : list record :=
  flat_map
    (fun wm_slot_num =>
       map (fun ltm_slot_num => retrieve_action wm_slot_num ltm_slot_num)
           (seq 0 n_ltm))
    (seq 0 n_wm).

(** *** [SimpleTMaze]

    Written like [GridWorld] over the object [Self] the methods are called
    on; calls through [self] are section variables.  Rewards are the
    literals of the source, as rationals. *)

Module SimpleTMaze.
Record fields (G : Type) : Type := mk {
  length : Z;
  hint_pos : Z;
  x : Z;
  y : Z;
  init_goal_x : Z;
  goal_x : Z;
  rng : G
}.
Arguments mk {G} _ _ _ _ _ _ _.
Arguments length {G} _.
Arguments hint_pos {G} _.
Arguments x {G} _.
Arguments y {G} _.
Arguments init_goal_x {G} _.
Arguments goal_x {G} _.
Arguments rng {G} _.

Class Has (G Self : Type) : Type := {
  maze : Self -> fields G;
  set_maze : fields G -> Self -> Self
}.

(** [__init__]: [assert 0 <= hint_pos < length]; the goal is a dummy
    until the first episode starts. *)
Definition init {G : Type} (length hint_pos goal_x : Z) (rng : G)
    : pyresult (fields G) :=
  _ ← assert ((0 <=? hint_pos) && (hint_pos <? length));
  Return (mk length hint_pos 0 0 goal_x 0 rng).

Section methods.
Context {G F Self : Type} `{RandomSource G F} `{Has G Self}.
Variable self_get_observation : Self -> pyresult (option record).
Variable self_get_actions : Self -> pyresult (list record).
Variable self_start_new_episode : Self -> pyresult Self.

Definition get_observation (self : Self) : pyresult (option record) :=
  let m := maze self in
  if y m =? hint_pos m
  then Return (Some (State [("x"%string, VInt (x m));
                            ("y"%string, VInt (y m));
                            ("symbol"%string, VInt (goal_x m))]))
  else Return (Some (State [("x"%string, VInt (x m));
                            ("y"%string, VInt (y m));
                            ("symbol"%string, VInt 0)])).

(** [State(goal_x=self.goal_x, **observation.as_dict())] *)
Definition get_state (self : Self) : pyresult (option record) :=
  observation ← self_get_observation self;
  match observation with
  | None => Raise AttributeError
  | Some observation =>
      kw ← kw_merge [("goal_x"%string, VInt (goal_x (maze self)))]
                    (as_dict observation);
      Return (Some (State kw))
  end.

Definition get_actions (self : Self) : pyresult (list record) :=
  let m := maze self in
  let actions := [] in
  let actions :=
    if x m =? 0 then
      if y m <? length m then actions ++ [Action "up" []]
      else if y m =? length m
           then (actions ++ [Action "left" []]) ++ [Action "right" []]
           else actions
    else actions in
  Return actions.

Definition reset (self : Self) : pyresult Self :=
  self_start_new_episode self.

Definition start_new_episode (self : Self) : pyresult Self :=
  let m := maze self in
  if init_goal_x m =? 0 then
    '(goal, g) ← rng_choice [-1; 1] (rng m);
    Return (set_maze (mk (length m) (hint_pos m) 0 0 (init_goal_x m) goal g)
              self)
  else
    Return (set_maze (mk (length m) (hint_pos m) 0 0 (init_goal_x m)
                         (init_goal_x m) (rng m)) self).

Definition react (action : option record) (self : Self)
    : pyresult (Q * Self) :=
  actions ← self_get_actions self;
  _ ← assert (action_in action actions);
  name ← action_name action;
  let m := maze self in
  let m :=
    if value_eqb name (VStr "up")
    then mk (length m) (hint_pos m) (x m) (y m + 1) (init_goal_x m)
            (goal_x m) (rng m)
    else if value_eqb name (VStr "right")
    then mk (length m) (hint_pos m) (x m + 1) (y m) (init_goal_x m)
            (goal_x m) (rng m)
    else if value_eqb name (VStr "left")
    then mk (length m) (hint_pos m) (x m - 1) (y m) (init_goal_x m)
            (goal_x m) (rng m)
    else m in
  let self := set_maze m self in
  if y m =? length m then
    if x m =? goal_x m then Return (10%Q, self)
    else if x m =? - goal_x m then Return ((-10)%Q, self)
    else Return ((-1)%Q, self)
  else if value_eqb name (VStr "gate") then Return ((-50 # 1000)%Q, self)
  else Return ((-1)%Q, self).
End methods.
End SimpleTMaze.

(** An undecorated [SimpleTMaze]. *)
Module PlainTMaze.
Section PlainTMaze.
Context {G F : Type} `{RandomSource G F}.

#[global] Instance has_maze : SimpleTMaze.Has G (SimpleTMaze.fields G) := {|
  SimpleTMaze.maze m := m;
  SimpleTMaze.set_maze m _ := m
|}.

Definition get_observation
    : SimpleTMaze.fields G -> pyresult (option record) :=
  SimpleTMaze.get_observation.

Definition get_state : SimpleTMaze.fields G -> pyresult (option record) :=
  SimpleTMaze.get_state get_observation.

Definition get_actions : SimpleTMaze.fields G -> pyresult (list record) :=
  SimpleTMaze.get_actions.

Definition end_of_episode : SimpleTMaze.fields G -> pyresult bool :=
  Environment.end_of_episode get_actions.

Definition start_new_episode
    : SimpleTMaze.fields G -> pyresult (SimpleTMaze.fields G) :=
  SimpleTMaze.start_new_episode.

Definition reset : SimpleTMaze.fields G -> pyresult (SimpleTMaze.fields G) :=
  SimpleTMaze.reset start_new_episode.

Definition react
    : option record -> SimpleTMaze.fields G
      -> pyresult (Q * SimpleTMaze.fields G) :=
  SimpleTMaze.react get_actions.
End PlainTMaze.
End PlainTMaze.

(** The positions of the maze: in the hallway, or one step to a side at
    its end. *)
Definition tmaze_position {G : Type} (m : SimpleTMaze.fields G) : Prop :=
  0 <= SimpleTMaze.y m <= SimpleTMaze.length m
  /\ (SimpleTMaze.x m = 0
      \/ (SimpleTMaze.y m = SimpleTMaze.length m
          /\ (SimpleTMaze.x m = 1 \/ SimpleTMaze.x m = -1))).

(** The number of steps left in the episode. *)
Definition tmaze_steps_left {G : Type} (m : SimpleTMaze.fields G) : Z :=
  (SimpleTMaze.length m - SimpleTMaze.y m)
  + (if SimpleTMaze.x m =? 0 then 1 else 0).

(** [SimpleTMaze(3, 1)] as constructed, and the same maze at the choice
    point with the goal to the right; the generator is [constant_rng]. *)
Definition tmaze_new : SimpleTMaze.fields unit :=
  SimpleTMaze.mk 3 1 0 0 0 0 tt.

Definition tmaze_choice_point : SimpleTMaze.fields unit :=
  SimpleTMaze.mk 3 1 0 3 0 1 tt.

(** * Properties *)

(** ** Dictionaries *)

Section dict_facts.
Context {V : Type}.
Implicit Types d : list (string * V).

Lemma get_elem_of d k v :
  PyDict.get String.eqb d k = Some v -> (k, v) ∈ d.
Proof.
  induction d as [|[k' v'] d IH]; simpl; [discriminate|].
  destruct (String.eqb_spec k' k) as [->|Hne].
  - intros [= ->]. left.
  - intros Hg. right. auto.
Qed.

Lemma get_None_not_key d k :
  PyDict.get String.eqb d k = None -> k ∉ map fst d.
Proof.
  induction d as [|[k' v'] d IH]; simpl.
  - intros _ Hin. inversion Hin.
  - destruct (String.eqb_spec k' k) as [->|Hne]; [discriminate|].
    intros Hg Hin. apply elem_of_cons in Hin as [->|Hin]; [done|].
    by apply IH.
Qed.

Lemma get_nodup d k v :
  NoDup (map fst d) -> (k, v) ∈ d -> PyDict.get String.eqb d k = Some v.
Proof.
  induction d as [|[k' v'] d IH]; simpl; intros Hnd Hin.
  - inversion Hin.
  - apply NoDup_cons in Hnd as [Hk' Hnd].
    apply elem_of_cons in Hin as [[= -> ->]|Hin].
    + by rewrite String.eqb_refl.
    + destruct (String.eqb_spec k' k) as [->|Hne]; [|by apply IH].
      exfalso. apply Hk'. apply list_elem_of_fmap. by exists (k, v).
Qed.

Lemma contains_false_not_key d k :
  PyDict.contains String.eqb d k = false -> k ∉ map fst d.
Proof.
  unfold PyDict.contains.
  destruct (PyDict.get String.eqb d k) eqn:E; [discriminate|].
  intros _. by apply get_None_not_key.
Qed.

Lemma contains_not_key d k :
  k ∉ map fst d -> PyDict.contains String.eqb d k = false.
Proof.
  unfold PyDict.contains. intros Hk.
  destruct (PyDict.get String.eqb d k) as [v|] eqn:E; [|done].
  exfalso. apply Hk. apply get_elem_of in E.
  apply list_elem_of_fmap. by exists (k, v).
Qed.
End dict_facts.

Lemma value_eqb_eq v1 v2 : value_eqb v1 v2 = true <-> v1 = v2.
Proof. unfold value_eqb. apply bool_decide_eq_true. Qed.

(** [d == d] holds for every dictionary. *)
Lemma dict_eqb_refl (d : kwargs) :
  wf_kwargs d -> PyDict.eqb String.eqb value_eqb d d = true.
Proof.
  intros Hwf. unfold PyDict.eqb.
  rewrite Nat.eqb_refl. simpl.
  apply forallb_forall. intros [k v] Hin. simpl.
  apply list_elem_of_In in Hin.
  rewrite (get_nodup d k v Hwf Hin).
  by apply value_eqb_eq.
Qed.

(** Equal dictionaries have the same items, up to order. *)
Lemma dict_eqb_Permutation (d1 d2 : kwargs) :
  wf_kwargs d1 -> wf_kwargs d2 ->
  PyDict.eqb String.eqb value_eqb d1 d2 = true -> d1 ≡ₚ d2.
Proof.
  intros Hwf1 Hwf2 Heq. unfold PyDict.eqb in Heq.
  apply andb_true_iff in Heq as [Hlen Hall].
  apply Nat.eqb_eq in Hlen.
  rewrite forallb_forall in Hall.
  apply submseteq_length_Permutation; [|lia].
  apply NoDup_submseteq.
  - eapply NoDup_fmap_1. exact Hwf1.
  - intros [k v] Hin. apply list_elem_of_In in Hin.
    specialize (Hall _ Hin). simpl in Hall.
    destruct (PyDict.get String.eqb d2 k) as [v'|] eqn:E; [|discriminate].
    apply value_eqb_eq in Hall as ->. by apply get_elem_of.
Qed.

(** ** Sorting the items of a dictionary *)

Lemma leb_trans (a b c : string) :
  String.leb a b = true -> String.leb b c = true -> String.leb a c = true.
Proof.
  unfold String.leb.
  destruct (String.compare a b) eqn:Hab; [| |discriminate];
    destruct (String.compare b c) eqn:Hbc; try discriminate; intros _ _.
  - apply String.compare_eq_iff in Hab as ->. by rewrite Hbc.
  - apply String.compare_eq_iff in Hab as ->. by rewrite Hbc.
  - apply String.compare_eq_iff in Hbc as <-. by rewrite Hab.
  - apply OrderedTypeEx.String_as_OT.cmp_lt in Hab, Hbc.
    pose proof (OrderedTypeEx.String_as_OT.lt_trans _ _ _ Hab Hbc) as Hac.
    apply OrderedTypeEx.String_as_OT.cmp_lt in Hac.
    unfold OrderedTypeEx.String_as_OT.cmp in Hac. by rewrite Hac.
Qed.

#[local] Instance item_le_trans : Transitive item_le.
Proof. intros a b c. unfold item_le. apply leb_trans. Qed.

#[local] Instance item_le_total : Total item_le.
Proof. intros a b. unfold item_le. apply String.leb_total. Qed.

Lemma sorted_Permutation (d : kwargs) : sorted d ≡ₚ d.
Proof. apply merge_sort_Permutation. Qed.

(** [sorted] depends only on the set of items when keys are distinct. *)
Lemma sorted_unique (d1 d2 : kwargs) :
  wf_kwargs d1 -> d1 ≡ₚ d2 -> sorted d1 = sorted d2.
Proof.
  intros Hwf Hperm. unfold sorted.
  apply (Sorted_unique_strong item_le).
  - intros [k1 v1] [k2 v2] Hin1 Hin2 Hle1 Hle2.
    unfold item_le in Hle1, Hle2. simpl in *.
    pose proof (String.leb_antisym _ _ Hle1 Hle2) as ->.
    rewrite merge_sort_Permutation in Hin1, Hin2.
    rewrite <- Hperm in Hin2.
    apply (get_nodup d1 k2 v1 Hwf) in Hin1.
    apply (get_nodup d1 k2 v2 Hwf) in Hin2.
    congruence.
  - apply Sorted_merge_sort; apply _.
  - apply Sorted_merge_sort; apply _.
  - by rewrite !merge_sort_Permutation.
Qed.

(** ** Equality and hashing of records *)

(** Where the code keeps the contract: records of the same class that
    compare equal hash the same tuple whenever their names agree (always
    so for [AttrDict] and [State], which have none). *)
Lemma hash_tuple_eq_attrs (r1 r2 : record) :
  wf_record r1 -> wf_record r2 ->
  record_eqb r1 r2 = true ->
  map pair_obj (sorted (attributes r1)) = map pair_obj (sorted (attributes r2)).
Proof.
  intros Hwf1 Hwf2 Heq. unfold record_eqb in Heq.
  apply andb_true_iff in Heq as [_ Hd].
  f_equal. apply sorted_unique; [done|].
  by apply dict_eqb_Permutation.
Qed.

Lemma hash_consistent_without_name {H : Type} (py_hash : list pyobj -> H)
    (r1 r2 : record) :
  wf_record r1 -> wf_record r2 ->
  type_of r1 <> TAction ->
  record_eqb r1 r2 = true ->
  record_hash py_hash r1 = record_hash py_hash r2.
Proof.
  intros Hwf1 Hwf2 Hty Heq.
  pose proof (hash_tuple_eq_attrs r1 r2 Hwf1 Hwf2 Heq) as Hs.
  unfold record_eqb in Heq. apply andb_true_iff in Heq as [Ht _].
  apply bool_decide_eq_true in Ht.
  unfold record_hash. f_equal.
  destruct r1, r2; simpl in *; try discriminate; try done.
Qed.

Lemma hash_consistent_same_name {H : Type} (py_hash : list pyobj -> H)
    (name : string) (kw1 kw2 : kwargs) :
  wf_kwargs kw1 -> wf_kwargs kw2 ->
  record_eqb (Action name kw1) (Action name kw2) = true ->
  record_hash py_hash (Action name kw1) = record_hash py_hash (Action name kw2).
Proof.
  intros Hwf1 Hwf2 Heq.
  pose proof (hash_tuple_eq_attrs (Action name kw1) (Action name kw2) Hwf1 Hwf2 Heq) as Hs.
  unfold record_hash. simpl in *. unfold iter, PyDict.items. simpl.
  by rewrite Hs.
Qed.

(** C10.  [Action] equality does not depend on the name: [__eq__] is
    inherited from [AttrDict] and compares the class and the keyword
    attributes only, so two actions with the same keyword attributes are
    equal whatever their names, and a membership test [action in actions]
    gives the same answer for both. *)
Theorem C10_action_eq_ignores_name (name1 name2 : string) (kw : kwargs) :
  wf_kwargs kw ->
  record_eqb (Action name1 kw) (Action name2 kw) = true /\
  forall actions : list record,
    record_in (Action name1 kw) actions = record_in (Action name2 kw) actions.
Proof.
  intros Hwf. split.
  - unfold record_eqb. apply andb_true_iff. split.
    + by apply bool_decide_eq_true.
    + by apply dict_eqb_refl.
  - intros actions. reflexivity.
Qed.

Lemma C10_witness :
  record_eqb (Action "left" [("slot"%string, VInt 0)])
             (Action "right" [("slot"%string, VInt 0)]) = true /\
  forall actions : list record,
    record_in (Action "left" [("slot"%string, VInt 0)]) actions
    = record_in (Action "right" [("slot"%string, VInt 0)]) actions.
Proof.
  apply (C10_action_eq_ignores_name "left" "right" [("slot"%string, VInt 0)]).
  unfold wf_kwargs. simpl. apply NoDup_singleton.
Defined.

(** C3, evaluated on the code.  [Action('up')] and [Action('down')]
    compare equal, yet [Action.__hash__] hashes the tuples [('up',)] and
    [('down',)]: under a [hash] that tells these two tuples apart the two
    equal actions have different hashes.  (For [AttrDict] and [State]
    equality does imply equal hashes: [hash_consistent_without_name].) *)
Theorem C3_equal_actions_hash_differently {H : Type}
    (py_hash : list pyobj -> H) :
  py_hash [OVal (VStr "up")] <> py_hash [OVal (VStr "down")] ->
  record_eqb (Action "up" []) (Action "down" []) = true /\
  record_hash py_hash (Action "up" []) <> record_hash py_hash (Action "down" []).
Proof.
  intros Hsep. split; [reflexivity|]. exact Hsep.
Qed.

Lemma C3_witness :
  record_eqb (Action "up" []) (Action "down" []) = true /\
  record_hash (fun t : list pyobj => t) (Action "up" [])
  <> record_hash (fun t : list pyobj => t) (Action "down" []).
Proof.
  apply (C3_equal_actions_hash_differently (fun t : list pyobj => t)).
  discriminate.
Defined.

(** ** [augment_state] *)

Lemma prefix_append (p x : string) : String.prefix p (String.append p x) = true.
Proof.
  induction p as [|a p IH]; simpl; [by destruct x|].
  destruct (ascii_dec a a); [exact IH|done].
Qed.

Lemma append_inj_r (p x y : string) :
  String.append p x = String.append p y -> x = y.
Proof. induction p as [|a p IH]; simpl; [done|]. intros [= Heq]. auto. Qed.

Lemma str_of_nat_inj (i j : nat) : str_of_nat i = str_of_nat j -> i = j.
Proof.
  unfold str_of_nat. intros Heq.
  assert (Nat.to_uint i = Nat.to_uint j) as Hu.
  { apply (f_equal NilEmpty.uint_of_string) in Heq.
    rewrite !NilEmpty.usu in Heq. congruence. }
  apply (f_equal Nat.of_uint) in Hu.
  by rewrite !DecimalNat.Unsigned.of_to in Hu.
Qed.

Lemma slot_key_inj (p : string) (i j : nat) :
  slot_key p i = slot_key p j -> i = j.
Proof. intros Heq. by apply str_of_nat_inj, (append_inj_r p). Qed.

Lemma filter_filter_and {A : Type} (f g : A -> bool) (l : list A) :
  List.filter f (List.filter g l) = List.filter (fun x => f x && g x) l.
Proof.
  induction l as [|x l IH]; simpl; [done|].
  destruct (g x); simpl; rewrite ?andb_true_r, ?andb_false_r.
  - destruct (f x); by rewrite IH.
  - exact IH.
Qed.

(** The deletion loop keeps exactly the items whose key lacks the prefix. *)
Lemma strip_prefix_loop (p : string) (ks : list string) (st : kwargs) :
  fold_left
    (fun st key => if String.prefix p key
                   then PyDict.del String.eqb st key else st) ks st
  = List.filter
      (fun kv => negb (String.prefix p (fst kv)
                       && existsb (String.eqb (fst kv)) ks)) st.
Proof.
  revert st. induction ks as [|k ks IH]; intros st; simpl.
  - rewrite <- (filter_ext (fun _ => true)).
    + induction st as [|x st IHst]; simpl; [done|]. by f_equal.
    + intros kv. by rewrite andb_false_r.
  - rewrite IH. destruct (String.prefix p k) eqn:Hk.
    + unfold PyDict.del. rewrite filter_filter_and.
      apply filter_ext. intros [k' v]. simpl.
      destruct (String.eqb_spec k' k) as [->|Hne]; simpl.
      * by rewrite Hk, andb_false_r.
      * by rewrite andb_true_r.
    + apply filter_ext. intros [k' v]. simpl.
      destruct (String.eqb_spec k' k) as [->|Hne]; simpl; [|done].
      by rewrite Hk.
Qed.

Lemma strip_prefix_filter (p : string) (st : kwargs) :
  strip_prefix p st = List.filter (not_prefixed p) st.
Proof.
  unfold strip_prefix. rewrite strip_prefix_loop.
  apply filter_ext_in. intros [k v] Hin. unfold not_prefixed. simpl.
  assert (existsb (String.eqb k) (PyDict.keys st) = true) as ->.
  { apply existsb_exists. exists k. split; [|apply String.eqb_refl].
    unfold PyDict.keys. apply in_map_iff. by exists (k, v). }
  by rewrite andb_true_r.
Qed.

Lemma set_fresh {V : Type} (d : list (string * V)) (k : string) (v : V) :
  k ∉ map fst d -> PyDict.set String.eqb d k v = d ++ [(k, v)].
Proof.
  induction d as [|[k' v'] d IH]; simpl; intros Hk; [done|].
  apply not_elem_of_cons in Hk as [Hne Hk].
  destruct (String.eqb_spec k' k) as [->|_]; [done|].
  by rewrite IH.
Qed.

Lemma slot_items_cons (p : string) (j : nat) (v : value) (l : list value) :
  slot_items p j (v :: l) = (slot_key p j, v) :: slot_items p (S j) l.
Proof.
  unfold slot_items. simpl. rewrite Nat.add_0_r. f_equal.
  apply imap_ext. intros i x _. simpl. do 2 f_equal. lia.
Qed.

Lemma memory_dict_loop (p : string) (memories : list value) (j : nat)
    (acc : kwargs) :
  (forall k, k ∈ map fst acc -> exists i, (i < j)%nat /\ k = slot_key p i) ->
  fold_left
    (fun d iv => PyDict.set String.eqb d
                   (String.append p (str_of_nat (fst iv))) (snd iv))
    (imap (fun i x => ((j + i)%nat, x)) memories) acc
  = acc ++ slot_items p j memories.
Proof.
  revert j acc. induction memories as [|v l IH]; intros j acc Hacc.
  - simpl. by rewrite app_nil_r.
  - rewrite slot_items_cons. simpl. rewrite Nat.add_0_r. rewrite set_fresh.
    + rewrite (imap_ext _ (fun i x => ((S j + i)%nat, x))); last first.
      { intros i x _. simpl. f_equal. lia. }
      rewrite IH.
      * by rewrite <- app_assoc.
      * intros k Hk. rewrite map_app in Hk. simpl in Hk.
        apply elem_of_app in Hk as [Hk|Hk].
        -- destruct (Hacc k Hk) as (i & Hi & ->). exists i. split; [lia|done].
        -- apply list_elem_of_singleton in Hk as ->. exists j. split; [lia|done].
    + intros Hin. destruct (Hacc _ Hin) as (i & Hi & Heq).
      apply slot_key_inj in Heq. lia.
Qed.

Lemma memory_dict_items (p : string) (memories : list value) :
  memory_dict p memories = slot_items p 0 memories.
Proof.
  unfold memory_dict, enumerate.
  apply (memory_dict_loop p memories 0 []).
  intros k Hk. inversion Hk.
Qed.

Lemma slot_items_prefixed (p : string) (j : nat) (memories : list value) :
  Forall (fun kv => prefixed p kv = true) (slot_items p j memories).
Proof.
  unfold slot_items. apply Forall_forall. intros [k v] Hin.
  apply elem_of_lookup_imap in Hin as (i & x & [= -> ->] & _).
  unfold prefixed, slot_key. simpl. apply prefix_append.
Qed.

Lemma filter_all {A : Type} (f : A -> bool) (l : list A) :
  Forall (fun x => f x = true) l -> List.filter f l = l.
Proof.
  induction 1 as [|x l Hx _ IH]; simpl; [done|]. by rewrite Hx, IH.
Qed.

Lemma filter_none {A : Type} (f : A -> bool) (l : list A) :
  Forall (fun x => f x = false) l -> List.filter f l = [].
Proof.
  induction 1 as [|x l Hx _ IH]; simpl; [done|]. by rewrite Hx, IH.
Qed.

Lemma filter_idem {A : Type} (f : A -> bool) (l : list A) :
  List.filter f (List.filter f l) = List.filter f l.
Proof.
  rewrite filter_filter_and. apply filter_ext. intros x. by destruct (f x).
Qed.

Lemma filter_neg_none {A : Type} (f : A -> bool) (l : list A) :
  List.filter f (List.filter (fun x => negb (f x)) l) = [].
Proof.
  rewrite filter_filter_and. apply filter_none, Forall_forall.
  intros x _. by destruct (f x).
Qed.

(** The keyword call in [augment_state] never meets a repeated keyword. *)
Lemma kw_merge_slots (p : string) (memories : list value) (st : kwargs) :
  kw_merge (slot_items p 0 memories) (List.filter (not_prefixed p) st)
  = Return (slot_items p 0 memories ++ List.filter (not_prefixed p) st).
Proof.
  unfold kw_merge.
  destruct (existsb _ _) eqn:E; [|done].
  exfalso. apply existsb_exists in E as ([k v] & Hin & Hc).
  apply filter_In in Hin as [_ Hnp]. simpl in Hc.
  unfold PyDict.contains in Hc.
  destruct (PyDict.get String.eqb _ k) as [v'|] eqn:Hg; [|discriminate].
  apply get_elem_of in Hg.
  pose proof (slot_items_prefixed p 0 memories) as Hall.
  rewrite Forall_forall in Hall. specialize (Hall _ Hg).
  unfold not_prefixed, prefixed in *. simpl in *. by rewrite Hall in Hnp.
Qed.

(** What [augment_state] returns. *)
Lemma augment_state_spec (s : record) (memories : list value) (p : string) :
  augment_state s memories p
  = Return (State (slot_items p 0 memories
                   ++ List.filter (not_prefixed p) (attributes s))).
Proof.
  unfold augment_state, as_dict.
  rewrite strip_prefix_filter, memory_dict_items, kw_merge_slots.
  reflexivity.
Qed.

Lemma slot_items_length (p : string) (j : nat) (memories : list value) :
  length (slot_items p j memories) = length memories.
Proof. unfold slot_items. apply length_imap. Qed.

Lemma slot_items_keys_NoDup (p : string) (j : nat) (memories : list value) :
  NoDup (map fst (slot_items p j memories)).
Proof.
  apply NoDup_alt. intros i1 i2 k H1 H2.
  unfold slot_items in *.
  rewrite list_lookup_fmap, list_lookup_imap in H1, H2.
  destruct (memories !! i1) as [x1|]; [|discriminate].
  destruct (memories !! i2) as [x2|]; [|discriminate].
  simpl in *. injection H1 as <-. injection H2 as H2.
  apply slot_key_inj in H2. lia.
Qed.

Lemma augmented_prefixed (p : string) (memories : list value) (st : kwargs) :
  List.filter (prefixed p)
    (slot_items p 0 memories ++ List.filter (not_prefixed p) st)
  = slot_items p 0 memories.
Proof.
  rewrite List.filter_app.
  rewrite (filter_all (prefixed p)) by apply slot_items_prefixed.
  unfold prefixed, not_prefixed.
  rewrite (filter_neg_none (fun kv => String.prefix p (fst kv))).
  apply app_nil_r.
Qed.

Lemma augmented_not_prefixed (p : string) (memories : list value)
    (st : kwargs) :
  List.filter (not_prefixed p)
    (slot_items p 0 memories ++ List.filter (not_prefixed p) st)
  = List.filter (not_prefixed p) st.
Proof.
  rewrite List.filter_app, filter_idem.
  rewrite (filter_none (not_prefixed p)); [done|].
  eapply Forall_impl; [apply slot_items_prefixed|].
  intros kv Hkv. unfold not_prefixed, prefixed in *. by rewrite Hkv.
Qed.

(** C8.  [augment_state(s, v, p)] returns a [State] whose [p]-prefixed
    attributes are exactly [p0 .. p(k-1)] with the values of [v], in
    order and each once, and whose other attributes are those of [s],
    unchanged; old [p]-prefixed attributes of [s] are dropped.  Augmenting
    the result again with a vector [v'] gives the state that augmenting
    [s] with [v'] gives: the slot attributes are replaced, not added. *)
Theorem C8_augment_state_idempotent (s : record) (v v' : list value)
    (p : string) :
  exists r r' : record,
    augment_state s v p = Return r /\
    type_of r = TState /\
    List.filter (prefixed p) (attributes r) = slot_items p 0 v /\
    NoDup (map fst (List.filter (prefixed p) (attributes r))) /\
    length (List.filter (prefixed p) (attributes r)) = length v /\
    List.filter (not_prefixed p) (attributes r)
    = List.filter (not_prefixed p) (attributes s) /\
    augment_state r v' p = Return r' /\
    augment_state s v' p = Return r' /\
    List.filter (prefixed p) (attributes r') = slot_items p 0 v' /\
    length (List.filter (prefixed p) (attributes r')) = length v' /\
    List.filter (not_prefixed p) (attributes r')
    = List.filter (not_prefixed p) (attributes s).
Proof.
  exists (State (slot_items p 0 v ++ List.filter (not_prefixed p) (attributes s))).
  exists (State (slot_items p 0 v' ++ List.filter (not_prefixed p) (attributes s))).
  rewrite !augment_state_spec. simpl.
  rewrite !augmented_prefixed, !augmented_not_prefixed, !slot_items_length.
  repeat split; auto using slot_items_keys_NoDup.
Qed.

(** ** [gating_memory]: the action set *)

Lemma fold_left_app_flat_map {A B : Type} (step : list B -> A -> list B)
    (f : A -> list B) (l : list A) (acc : list B) :
  (forall acc x, step acc x = acc ++ f x) ->
  fold_left step l acc = acc ++ flat_map f l.
Proof.
  intros Hstep. revert acc.
  induction l as [|x l IH]; intros acc; simpl.
  - by rewrite app_nil_r.
  - by rewrite IH, Hstep, <- app_assoc.
Qed.

Lemma flat_map_singleton_filter {A B : Type} (c : A -> bool) (g : A -> B)
    (l : list A) :
  flat_map (fun x => if c x then [] else [g x]) l
  = map g (List.filter (fun x => negb (c x)) l).
Proof.
  induction l as [|x l IH]; simpl; [done|].
  destruct (c x); simpl; by rewrite IH.
Qed.

Lemma flat_map_length_const {A B : Type} (f : A -> list B) (l : list A)
    (m : nat) :
  (forall x, length (f x) = m) ->
  length (flat_map f l) = (length l * m)%nat.
Proof.
  intros Hf. induction l as [|x l IH]; simpl; [done|].
  by rewrite length_app, Hf, IH.
Qed.

Lemma append_gates_spec (n : nat) (observations : record)
    (actions : list record) :
  GatingMemoryMetaEnvironment.append_gates n observations actions
  = actions ++ gate_actions n observations.
Proof.
  unfold GatingMemoryMetaEnvironment.append_gates, gate_actions.
  apply fold_left_app_flat_map. intros acc slot_num.
  rewrite (fold_left_app_flat_map _
             (fun kv => if String.prefix GatingMemoryMetaEnvironment.ATTR_PREFIX (fst kv)
                        then [] else [gate_action slot_num (fst kv)])).
  - f_equal. apply flat_map_singleton_filter.
  - intros acc' kv. destruct (String.prefix _ _); [by rewrite app_nil_r|done].
Qed.

Lemma gate_actions_length (n : nat) (observations : record) :
  length (gate_actions n observations)
  = (n * length (List.filter
                   (not_prefixed GatingMemoryMetaEnvironment.ATTR_PREFIX)
                   (attributes observations)))%nat.
Proof.
  unfold gate_actions.
  rewrite (flat_map_length_const _ _
             (length (List.filter
                        (not_prefixed GatingMemoryMetaEnvironment.ATTR_PREFIX)
                        (attributes observations)))).
  - by rewrite length_seq.
  - intros slot_num. by rewrite length_map.
Qed.

(** C7.  On an object with [n] memory slots: when the decorated class
    returns no action, [get_actions] returns the empty list; when it
    returns a non-empty list and an observation with [m] attributes not
    prefixed by [memory_], [get_actions] returns that list followed by the
    [n * m] [gate] actions, one per slot and such attribute. *)
Theorem C7_gating_get_actions {R Self : Type}
    `{GatingMemoryMetaEnvironment.Has R Self}
    (super_get_observation : Self -> pyresult (option record))
    (super_get_actions : Self -> pyresult (list record)) (self : Self) :
  (super_get_actions self = Return [] ->
   GatingMemoryMetaEnvironment.get_actions
     super_get_observation super_get_actions self = Return [])
  /\
  (forall (base_actions : list record) (observation : record),
     super_get_actions self = Return base_actions ->
     base_actions <> [] ->
     super_get_observation self = Return (Some observation) ->
     let n := length (GatingMemoryMetaEnvironment.memories self) in
     let m := length (List.filter
                        (not_prefixed GatingMemoryMetaEnvironment.ATTR_PREFIX)
                        (attributes observation)) in
     GatingMemoryMetaEnvironment.get_actions
       super_get_observation super_get_actions self
     = Return (base_actions ++ gate_actions n observation)
     /\ length (gate_actions n observation) = (n * m)%nat
     /\ Forall (fun a => exists slot_num attr,
                  a = gate_action slot_num attr) (gate_actions n observation)).
Proof.
  split.
  - intros Hacts. unfold GatingMemoryMetaEnvironment.get_actions.
    by rewrite Hacts.
  - intros base_actions observation Hacts Hne Hobs n m.
    split; [|split].
    + unfold GatingMemoryMetaEnvironment.get_actions.
      rewrite Hacts. simpl.
      destruct base_actions as [|a rest]; [done|].
      rewrite Hobs. simpl. by rewrite append_gates_spec.
    + apply gate_actions_length.
    + apply Forall_forall. intros a Hin. unfold gate_actions in Hin.
      apply list_elem_of_In, in_flat_map in Hin as (slot_num & _ & Hin).
      apply in_map_iff in Hin as (kv & <- & _). by eexists _, _.
Qed.

(** ** The tabular agent on well-formed tables *)

Section tabular_facts.
Context {F G Obs Act : Type} `{Number F}.
Context `{DictKey (option Obs)} `{DictKey (option Act)}.
Implicit Types self : @TabularQLearningAgent.t F G Obs Act.
Implicit Types values : list (option Act * F).

Lemma get_Some_elem {K V : Type} (keq : K -> K -> bool) (d : list (K * V))
    (k : K) (v : V) :
  PyDict.get keq d k = Some v -> exists k', (k', v) ∈ d.
Proof.
  induction d as [|[k0 v0] d IH]; simpl; [discriminate|].
  destruct (keq k0 k).
  - intros [= ->]. exists k0. left.
  - intros Hg. destruct (IH Hg) as [k' Hin]. exists k'. by right.
Qed.

(** A stored entry is what a lookup of its key finds. *)
Lemma get_stored values (k : option Act) (v : F) :
  Table.row_ok values -> (k, v) ∈ values ->
  PyDict.get key_match values k = Some v.
Proof.
  induction values as [|[k0 v0] rest IH]; simpl; intros Hok Hin.
  - inversion Hin.
  - destruct Hok as (Hrefl & Hrest & Hok).
    apply elem_of_cons in Hin as [[= -> ->]|Hin].
    + by rewrite Hrefl.
    + rewrite Forall_forall in Hrest.
      pose proof (Hrest _ Hin) as Hne. simpl in Hne.
      rewrite Hne. by apply IH.
Qed.

Lemma get_value_stored self (o : option Obs) (a : option Act) values (v : F) :
  PyDict.get key_match (TabularQLearningAgent.value_function self) o
  = Some values ->
  Table.row_ok values -> (a, v) ∈ values ->
  TabularQLearningAgent.get_value o a self = Return (v, self).
Proof.
  intros Hrow Hok Hin. unfold TabularQLearningAgent.get_value.
  rewrite Hrow. unfold TabularQLearningAgent.inner_getitem.
  by rewrite (get_stored values a v Hok Hin).
Qed.

Lemma best_entry_value current values :
  snd (UpdateRule.best_entry current values)
  = fold_left (fun m av => if flt m (snd av) then snd av else m)
              values (snd current).
Proof.
  revert current. induction values as [|kv rest IH]; intros cur; simpl; [done|].
  rewrite IH. by destruct (flt (snd cur) (snd kv)).
Qed.

Lemma best_entry_elem current values :
  UpdateRule.best_entry current values = current \/ UpdateRule.best_entry current values ∈ values.
Proof.
  revert current. induction values as [|kv rest IH]; intros cur; simpl; [by left|].
  destruct (IH (if flt (snd cur) (snd kv) then kv else cur)) as [Heq|Hin].
  - unfold UpdateRule.best_entry in *. simpl. rewrite Heq.
    destruct (flt (snd cur) (snd kv)); [right; left|by left].
  - right. by right.
Qed.

Lemma max_by_value_stored self (o : option Obs) values rest
    (item : option Act) (val : F) :
  PyDict.get key_match (TabularQLearningAgent.value_function self) o
  = Some values ->
  Table.row_ok values ->
  (forall kv, kv ∈ rest -> kv ∈ values) ->
  Agent.max_by_value o item val (PyDict.keys rest) self
  = Return (fst (UpdateRule.best_entry (item, val) rest), self).
Proof.
  intros Hrow Hok. revert item val.
  induction rest as [|[k v] rest IH]; intros item val Hsub; simpl; [done|].
  change (get_value o k self) with (TabularQLearningAgent.get_value o k self).
  rewrite (get_value_stored self o k values v Hrow Hok) by (apply Hsub; left).
  simpl. destruct (flt val v); apply IH; intros kv Hkv; apply Hsub; by right.
Qed.

(** On a well-formed table [get_best_action] and [get_best_value] leave
    the agent as it is, and the best value is the maximum stored value. *)
Lemma get_best_action_ok self (o : option Obs) :
  Table.ok (TabularQLearningAgent.value_function self) ->
  exists a : option Act,
    Agent.get_best_action o self = Return (a, self) /\
    TabularQLearningAgent.get_value o a self
    = Return (UpdateRule.max_stored_value
                (TabularQLearningAgent.value_function self) o, self).
Proof.
  intros Hok. unfold Agent.get_best_action. simpl.
  unfold TabularQLearningAgent.get_stored_actions,
    UpdateRule.max_stored_value.
  destruct (PyDict.get key_match (TabularQLearningAgent.value_function self) o)
    as [values|] eqn:Hrow; simpl.
  - assert (values <> [] /\ Table.row_ok values) as [Hne Hrok].
    { unfold Table.ok in Hok. rewrite Forall_forall in Hok.
      destruct (get_Some_elem _ _ _ _ Hrow) as [o' Hin].
      apply (Hok _ Hin). }
    destruct values as [|[k v] rest]; [done|]. simpl.
    change (get_value o k self) with (TabularQLearningAgent.get_value o k self).
    rewrite (get_value_stored self o k ((k, v) :: rest) v Hrow Hrok) by left.
    simpl.
    rewrite (max_by_value_stored self o ((k, v) :: rest) rest k v Hrow Hrok)
      by (intros kv Hkv; by right).
    eexists. split; [reflexivity|].
    pose proof (best_entry_value (k, v) rest) as Hval. simpl in Hval.
    rewrite <- Hval. clear Hval.
    destruct (UpdateRule.best_entry (k, v) rest) as [bk bv] eqn:Hbest. simpl.
    apply (get_value_stored self o bk ((k, v) :: rest) bv Hrow Hrok).
    destruct (best_entry_elem (k, v) rest) as [Heq|Hin].
    + rewrite Hbest in Heq. rewrite Heq. left.
    + rewrite Hbest in Hin. by right.
  - exists None. split; [done|].
    unfold TabularQLearningAgent.get_value. by rewrite Hrow.
Qed.

Lemma get_best_value_ok self (o : option Obs) :
  Table.ok (TabularQLearningAgent.value_function self) ->
  Agent.get_best_value o self
  = Return (UpdateRule.max_stored_value
              (TabularQLearningAgent.value_function self) o, self).
Proof.
  intros Hok. destruct (get_best_action_ok self o Hok) as (a & Hbest & Hval).
  unfold Agent.get_best_value. rewrite Hbest. exact Hval.
Qed.

(** Where the read at the cursor inserts nothing (the entry is stored, or
    the observation has no row yet), [observe_reward] writes the value of
    the update rule at the cursor. *)
Lemma observe_reward_rule self (o : option Obs) (r : F) :
  Table.ok (TabularQLearningAgent.value_function self) ->
  match PyDict.get key_match (TabularQLearningAgent.value_function self)
          (TabularQLearningAgent.self_prev_observation self) with
  | Some values =>
      PyDict.get key_match values (TabularQLearningAgent.self_prev_action self)
      <> None
  | None => True
  end ->
  TabularQLearningAgent.observe_reward o (Some r) self
  = Return (TabularQLearningAgent.with_value_function
              (TabularQLearningAgent.setitem
                 (TabularQLearningAgent.self_prev_observation self)
                 (TabularQLearningAgent.self_prev_action self)
                 (UpdateRule.new_value self o r)
                 (TabularQLearningAgent.value_function self)) self).
Proof.
  intros Hok Hcur. unfold TabularQLearningAgent.observe_reward.
  assert (TabularQLearningAgent.get_value
            (TabularQLearningAgent.self_prev_observation self)
            (TabularQLearningAgent.self_prev_action self) self
          = Return (UpdateRule.stored_value
                      (TabularQLearningAgent.value_function self)
                      (TabularQLearningAgent.self_prev_observation self)
                      (TabularQLearningAgent.self_prev_action self), self))
    as ->.
  { unfold TabularQLearningAgent.get_value, UpdateRule.stored_value,
      TabularQLearningAgent.inner_getitem.
    destruct (PyDict.get key_match _ (TabularQLearningAgent.self_prev_observation self))
      as [values|]; [|done].
    by destruct (PyDict.get key_match values _). }
  simpl. rewrite (get_best_value_ok self o Hok). reflexivity.
Qed.

(** Assignment keeps what holds of the keys and of the values. *)
Lemma set_keys_Forall {K V : Type} (keq : K -> K -> bool) (P : K -> Prop)
    (d : list (K * V)) (k : K) (v : V) :
  Forall (fun kv => P (fst kv)) d -> P k ->
  Forall (fun kv => P (fst kv)) (PyDict.set keq d k v).
Proof.
  intros Hd Hk. induction Hd as [|[k0 v0] d Hk0 Hd IH]; simpl.
  - by constructor.
  - destruct (keq k0 k); by constructor.
Qed.

Lemma set_values_Forall {K V : Type} (keq : K -> K -> bool) (Q : V -> Prop)
    (d : list (K * V)) (k : K) (v : V) :
  Forall (fun kv => Q (snd kv)) d -> Q v ->
  Forall (fun kv => Q (snd kv)) (PyDict.set keq d k v).
Proof.
  intros Hd Hv. induction Hd as [|[k0 v0] d Hv0 Hd IH]; simpl.
  - by constructor.
  - destruct (keq k0 k); by constructor.
Qed.

Lemma set_nonempty {K V : Type} (keq : K -> K -> bool) (d : list (K * V))
    (k : K) (v : V) :
  PyDict.set keq d k v <> [].
Proof. destruct d as [|[k0 v0] d]; simpl; [done|]. by destruct (keq k0 k). Qed.

Lemma set_row_ok values (a : option Act) (v : F) :
  Table.row_ok values -> key_match a a = true ->
  Table.row_ok (PyDict.set key_match values a v).
Proof.
  intros Hok Ha. induction values as [|[k0 v0] rest IH]; simpl.
  - repeat split; [done|constructor].
  - destruct Hok as (Hrefl & Hrest & Hok).
    destruct (key_match k0 a) eqn:Hm; simpl.
    + done.
    + repeat split; [done| |by apply IH].
      by apply (set_keys_Forall key_match (fun k => key_match k0 k = false)).
Qed.

Lemma set_table_ok (vf : @TabularQLearningAgent.table F Obs Act)
    (o : option Obs) values :
  Table.ok vf -> values <> [] -> Table.row_ok values ->
  Table.ok (PyDict.set key_match vf o values).
Proof.
  intros Hok Hne Hrok. unfold Table.ok.
  by apply (set_values_Forall key_match
              (fun values => values <> [] /\ Table.row_ok values)).
Qed.

Lemma get_table_ok (vf : @TabularQLearningAgent.table F Obs Act)
    (o : option Obs) values :
  Table.ok vf -> PyDict.get key_match vf o = Some values ->
  Table.row_ok values.
Proof.
  intros Hok Hrow. destruct (get_Some_elem _ _ _ _ Hrow) as [o' Hin].
  unfold Table.ok in Hok. rewrite Forall_forall in Hok.
  apply (Hok _ Hin).
Qed.

(** Well-formedness is kept by [get_value] and by [observe_reward]. *)
Lemma get_value_table_ok self self' (o : option Obs) (a : option Act) (v : F) :
  Table.ok (TabularQLearningAgent.value_function self) ->
  key_match a a = true ->
  TabularQLearningAgent.get_value o a self = Return (v, self') ->
  Table.ok (TabularQLearningAgent.value_function self').
Proof.
  intros Hok Ha. unfold TabularQLearningAgent.get_value,
    TabularQLearningAgent.inner_getitem.
  destruct (PyDict.get key_match _ o) as [values|] eqn:Hrow.
  - destruct (PyDict.get key_match values a).
    + by intros [= _ <-].
    + intros [= _ <-]. simpl. apply set_table_ok; [done|apply set_nonempty|].
      apply set_row_ok; [|done]. by eapply get_table_ok.
  - by intros [= _ <-].
Qed.

(** X10.  An update keeps the table well-formed: rows stay non-empty
    and hold each action once, also when the read at the cursor inserts
    the default. *)
Lemma observe_reward_table_ok self self' (o : option Obs) (r : option F) :
  Table.ok (TabularQLearningAgent.value_function self) ->
  key_match (TabularQLearningAgent.self_prev_action self)
            (TabularQLearningAgent.self_prev_action self) = true ->
  TabularQLearningAgent.observe_reward o r self = Return self' ->
  Table.ok (TabularQLearningAgent.value_function self').
Proof.
  intros Hok Ha. unfold TabularQLearningAgent.observe_reward.
  destruct (TabularQLearningAgent.get_value _ _ self) as [[pv s1]|e] eqn:Hget;
    [|discriminate].
  simpl.
  assert (Table.ok (TabularQLearningAgent.value_function s1)) as Hok1
    by (by eapply get_value_table_ok).
  assert (TabularQLearningAgent.self_prev_action s1
          = TabularQLearningAgent.self_prev_action self) as Hpa.
  { unfold TabularQLearningAgent.get_value,
      TabularQLearningAgent.inner_getitem in Hget.
    destruct (PyDict.get key_match _ _) as [values|]; [|by injection Hget as _ <-].
    destruct (PyDict.get key_match values _); by injection Hget as _ <-. }
  rewrite (get_best_value_ok s1 o Hok1). simpl.
  destruct r as [r|]; [|discriminate]. simpl.
  intros [= <-]. simpl. unfold TabularQLearningAgent.setitem.
  apply set_table_ok; [done|apply set_nonempty|].
  apply set_row_ok; [|by rewrite Hpa].
  destruct (PyDict.get key_match _ _) eqn:Hrow; [|done].
  by eapply get_table_ok.
Qed.
End tabular_facts.

(** ** The tabular agent: the claims *)

(** C9.  At an observation with no stored actions, [get_best_action]
    returns [None] and [get_best_value] returns the default value: it is
    the value [get_value] gives for the pair of the observation and
    [None]. *)
Theorem C9_no_stored_actions {F G Obs Act : Type} `{Number F}
    `{DictKey (option Obs)} `{DictKey (option Act)}
    (self : @TabularQLearningAgent.t F G Obs Act) (observation : option Obs) :
  TabularQLearningAgent.get_stored_actions observation self = Return [] ->
  Agent.get_best_action observation self = Return (None, self) /\
  exists self' : @TabularQLearningAgent.t F G Obs Act,
    Agent.get_best_value observation self = Return (f0, self') /\
    TabularQLearningAgent.get_value observation None self = Return (f0, self').
Proof.
  intros Hstored.
  assert (Agent.get_best_action observation self = Return (None, self)) as Hbest.
  { unfold Agent.get_best_action. simpl. by rewrite Hstored. }
  split; [exact Hbest|].
  unfold Agent.get_best_value. rewrite Hbest. simpl.
  unfold TabularQLearningAgent.get_stored_actions in Hstored.
  unfold TabularQLearningAgent.get_value.
  destruct (PyDict.get key_match (TabularQLearningAgent.value_function self)
              observation) as [values|] eqn:Hrow.
  - injection Hstored as Hkeys. destruct values; [|discriminate].
    unfold TabularQLearningAgent.inner_getitem. simpl. by eexists.
  - by eexists.
Qed.

Lemma C9_witness :
  Agent.get_best_action (Examples.cell 1)
    (Examples.new_agent 1 1 (mk_script [] []))
  = Return (None, Examples.new_agent 1 1 (mk_script [] [])) /\
  exists self' : Examples.QAgent,
    Agent.get_best_value (Examples.cell 1)
      (Examples.new_agent 1 1 (mk_script [] [])) = Return (0%Q, self') /\
    TabularQLearningAgent.get_value (Examples.cell 1) None
      (Examples.new_agent 1 1 (mk_script [] [])) = Return (0%Q, self').
Proof.
  exact (C9_no_stored_actions (Examples.new_agent 1 1 (mk_script [] []))
           (Examples.cell 1) eq_refl).
Defined.

(** C4, evaluated on the code.  After one update at [(cell 0, right)] the
    row of [cell 0] stores [right] only.  The read
    [get_value(cell 0, left)] returns the default and leaves an entry for
    [left] in the row: the table has changed and [get_stored_actions] now
    lists an action that no update was ever made for. *)
Theorem C4_get_value_inserts_entry :
  exists self self' : Examples.QAgent,
    Examples.visited_once (mk_script [] []) = Return self /\
    TabularQLearningAgent.get_stored_actions (Examples.cell 0) self
    = Return [Some Examples.right] /\
    TabularQLearningAgent.get_value (Examples.cell 0) (Some Examples.left) self
    = Return (0%Q, self') /\
    TabularQLearningAgent.get_stored_actions (Examples.cell 0) self'
    = Return [Some Examples.right; Some Examples.left] /\
    TabularQLearningAgent.value_function self'
    <> TabularQLearningAgent.value_function self.
Proof.
  eexists _, _. split; [vm_compute; reflexivity|].
  split; [reflexivity|].
  split; [vm_compute; reflexivity|].
  split; [reflexivity|].
  vm_compute. discriminate.
Qed.

(** C5, evaluated on the code.  With the table holding [-1] at
    [(cell 0, right)] only, the cursor at [(cell 0, left)] and both rates
    one, [observe_reward(cell 0, 0)] should write
    [(1-1)*0 + 1*(0 + 1*(-1)) = -1] at [(cell 0, left)].  The code first
    reads the entry at the cursor, which inserts it with the default, and
    then takes the best value at [cell 0] over a row that already holds
    that default: it writes [0]. *)
Theorem C5_update_reads_inserted_default :
  exists self self' : Examples.QAgent,
    Examples.visited_then_left (mk_script [] []) = Return self /\
    TabularQLearningAgent.observe_reward (Examples.cell 0) (Some 0%Q) self
    = Return self' /\
    UpdateRule.max_stored_value (TabularQLearningAgent.value_function self)
      (Examples.cell 0) = (-1)%Q /\
    (UpdateRule.new_value self (Examples.cell 0) 0%Q == -1)%Q /\
    (UpdateRule.stored_value (TabularQLearningAgent.value_function self')
       (Examples.cell 0) (Some Examples.left) == 0)%Q /\
    ~ (UpdateRule.stored_value (TabularQLearningAgent.value_function self')
         (Examples.cell 0) (Some Examples.left)
       == UpdateRule.new_value self (Examples.cell 0) 0%Q)%Q.
Proof.
  eexists _, _. split; [vm_compute; reflexivity|].
  split; [vm_compute; reflexivity|].
  split; [reflexivity|].
  split; [reflexivity|].
  split; [reflexivity|].
  vm_compute. discriminate.
Qed.

(** ** The epsilon-greedy agent *)

Lemma act_no_exploration {F G Obs Act A : Type} `{Number F}
    `{RandomSource G F} `{AgentFields G Obs Act A} `{Learner F Obs A}
    (eps : F) (observation : option Obs) (actions : list Act)
    (reward : option F) :
  (forall g : G, flt (fst (rng_random g)) eps = false) ->
  actions <> [] ->
  forall (depth : nat) (self : EpsilonGreedyMetaAgent.t),
    EpsilonGreedyMetaAgent.exploration_rate self = eps ->
    EpsilonGreedyMetaAgent.act depth observation actions reward self
    = Raise RecursionError.
Proof.
  intros Hdraw Hne depth.
  induction depth as [|depth IH]; intros self Heps; simpl; [done|].
  destruct actions as [|a rest]; [done|].
  pose proof (Hdraw (rng (EpsilonGreedyMetaAgent.cls self))) as Hu.
  destruct (rng_random (rng (EpsilonGreedyMetaAgent.cls self))) as [u g].
  simpl in *. rewrite Heps, Hu. by apply IH.
Qed.

(** Whenever [act] returns on a non-empty action list, the action is one
    drawn by [rng.choice]: no path leads to the greedy selection of
    [Agent.act]. *)
Lemma act_returns_random_choice {F G Obs Act A : Type} `{Number F}
    `{RandomSource G F} `{AgentFields G Obs Act A} `{Learner F Obs A}
    (observation : option Obs) (actions : list Act) (reward : option F)
    (depth : nat) (self self' : EpsilonGreedyMetaAgent.t)
    (action : option Act) :
  actions <> [] ->
  EpsilonGreedyMetaAgent.act depth observation actions reward self
  = Return (action, self') ->
  exists (g g' : G) (choice : Act),
    rng_choice actions g = Return (choice, g') /\ action = Some choice.
Proof.
  intros Hne. revert self.
  induction depth as [|depth IH]; intros self; simpl; [discriminate|].
  destruct actions as [|a rest] eqn:Hactions; [done|].
  rewrite <- Hactions in *.
  destruct (rng_random (rng (EpsilonGreedyMetaAgent.cls self))) as [u g].
  simpl. destruct (flt u (EpsilonGreedyMetaAgent.exploration_rate self)).
  - destruct (rng_choice actions _) as [[choice g']|e] eqn:Hchoice; simpl;
      [|discriminate].
    intros [= <- _]. by eexists _, _, _.
  - apply IH.
Qed.

(** C2, evaluated on the code.  When no value of [random()] is below the
    exploration rate (so for the rate [0], [random()] being non-negative),
    [act] on a non-empty action list calls itself again and again: at
    every recursion limit it ends in [RecursionError] and returns no
    action. *)
Theorem C2_act_recurses_forever {F G Obs Act A : Type} `{Number F}
    `{RandomSource G F} `{AgentFields G Obs Act A} `{Learner F Obs A}
    (self : EpsilonGreedyMetaAgent.t) (observation : option Obs)
    (actions : list Act) (reward : option F) :
  (forall g : G,
     flt (fst (rng_random g)) (EpsilonGreedyMetaAgent.exploration_rate self)
     = false) ->
  actions <> [] ->
  forall depth : nat,
    EpsilonGreedyMetaAgent.act depth observation actions reward self
    = Raise RecursionError.
Proof.
  intros Hdraw Hne depth.
  by apply (act_no_exploration (EpsilonGreedyMetaAgent.exploration_rate self)).
Qed.

Lemma C2_witness :
  EpsilonGreedyMetaAgent.act 1000 (Examples.cell 0)
    [Examples.left; Examples.right] None
    (EpsilonGreedyMetaAgent.mk
       (TabularQLearningAgent.mk tt None None [] (1 # 2)%Q (9 # 10)%Q) 0%Q)
  = Raise RecursionError.
Proof.
  refine (C2_act_recurses_forever
           (EpsilonGreedyMetaAgent.mk
              (TabularQLearningAgent.mk tt None None [] (1 # 2)%Q (9 # 10)%Q)
              0%Q)
           (Examples.cell 0) [Examples.left; Examples.right] None _ _ 1000%nat).
  - intros g. reflexivity.
  - discriminate.
Defined.

(** C1, evaluated on the code.  The agent has learnt [right] at [cell 0];
    the exploration rate is one half and the generator yields [3/4], then
    [1/4].  The first value is not below the rate.  The [act] of the
    decorated class would now return the greedy action [right]; the code
    instead enters [act] of the subclass again, draws [1/4] and returns
    the random choice [left]. *)
Theorem C1_act_redraws_instead_of_delegating :
  let g := mk_script [(3 # 4)%Q; (1 # 4)%Q] [O] in
  let g' := mk_script [(1 # 4)%Q] [O] in
  exists (agent agent' a1 : Examples.QAgent) (a2 : EpsilonGreedyMetaAgent.t),
    Examples.learnt_right g = Return agent /\
    Examples.learnt_right g' = Return agent' /\
    rng_random g = ((3 # 4)%Q, g') /\
    flt (3 # 4)%Q (1 # 2)%Q = false /\
    Agent.act (Examples.cell 0) [Examples.left; Examples.right] agent'
    = Return (Some Examples.right, a1) /\
    EpsilonGreedyMetaAgent.act 1000 (Examples.cell 0)
      [Examples.left; Examples.right] None
      (EpsilonGreedyMetaAgent.mk agent (1 # 2)%Q)
    = Return (Some Examples.left, a2).
Proof.
  intros g g'. subst g g'. eexists _, _, _, _.
  split; [vm_compute; reflexivity|].
  split; [vm_compute; reflexivity|].
  split; [vm_compute; reflexivity|].
  split; [vm_compute; reflexivity|].
  split; vm_compute; reflexivity.
Qed.

(** ** The memory decorators: [react] *)

(** The number of slots is fixed: [num_memory_slots * [None]] has that
    many items and an assignment to a slot keeps the length. *)
Lemma fresh_length (num_memory_slots : Z) :
  length (GatingMemoryMetaEnvironment.fresh num_memory_slots)
  = Z.to_nat num_memory_slots.
Proof. unfold GatingMemoryMetaEnvironment.fresh. apply length_replicate. Qed.

Lemma list_setitem_length {X : Type} (l l' : list X) (i : value) (x : X) :
  list_setitem l i x = Return l' -> length l' = length l.
Proof.
  unfold list_setitem. destruct (list_index l i) as [n|e]; simpl; [|done].
  intros [= <-]. apply length_insert.
Qed.

(** A [gate] action never reaches the [react] of the decorated class,
    where a legality check could be: the result is the same whatever that
    method is. *)
Lemma gate_not_forwarded {R Self : Type}
    `{GatingMemoryMetaEnvironment.Has R Self}
    (super_get_observation : Self -> pyresult (option record))
    (super_react super_react' : option record -> Self -> pyresult (R * Self))
    (kw : kwargs) (self : Self) :
  GatingMemoryMetaEnvironment.react super_get_observation super_react
    (Some (Action "gate" kw)) self
  = GatingMemoryMetaEnvironment.react super_get_observation super_react'
      (Some (Action "gate" kw)) self.
Proof. reflexivity. Qed.

Lemma store_retrieve_not_forwarded {R Self : Type}
    `{LongTermMemoryMetaEnvironment.Has R Self}
    (super_get_observation : Self -> pyresult (option record))
    (super_react super_react' : option record -> Self -> pyresult (R * Self))
    (name : string) (kw : kwargs) (self : Self) :
  name = "store"%string \/ name = "retrieve"%string ->
  LongTermMemoryMetaEnvironment.react super_get_observation super_react
    (Some (Action name kw)) self
  = LongTermMemoryMetaEnvironment.react super_get_observation super_react'
      (Some (Action name kw)) self.
Proof. intros [-> | ->]; reflexivity. Qed.

(** C6, evaluated on the code.  Two steps to the right bring the
    decorated [GridWorld] to its goal, where it offers no action.  A
    [gate] action passed to [react] there is not rejected: it writes the
    slot and returns the internal reward; so does a [gate] action on the
    slot [-1], which [get_actions] never offers, and so do [store] and
    [retrieve] under [fixed_long_term_memory].  An action that is not
    synthetic is forwarded to [GridWorld.react], which asserts that it is
    legal. *)
Theorem C6_synthetic_actions_not_checked :
  (g ← GatedGridWorld.init 2 0 3 1 [0; 0] [0; 2];
   '(_, g) ← GatedGridWorld.react (Some Examples.right) g;
   GatedGridWorld.react (Some Examples.right) g)
  = Return (1, Examples.corridor 2) /\
  GatedGridWorld.get_actions (Examples.corridor 2) = Return [] /\
  GatedGridWorld.react (Some (Examples.gate 0 "col")) (Examples.corridor 2)
  = Return (0, GatedGridWorld.mk (GridWorld.mk 3 1 [0; 0] [0; 2] 0 2) 0
                 [VInt 2; VNone]) /\
  GatedGridWorld.react (Some Examples.right) (Examples.corridor 2)
  = Raise AssertionError /\
  (exists actions : list record,
     GatedGridWorld.get_actions (Examples.corridor 0) = Return actions /\
     record_in (Examples.gate (-1) "col") actions = false) /\
  GatedGridWorld.react (Some (Examples.gate (-1) "col")) (Examples.corridor 0)
  = Return (0, GatedGridWorld.mk (GridWorld.mk 3 1 [0; 0] [0; 2] 0 0) 0
                 [VNone; VInt 0]) /\
  (g ← LongTermGridWorld.init 1 1 0 3 1 [0; 0] [0; 2];
   '(_, g) ← LongTermGridWorld.react (Some Examples.right) g;
   LongTermGridWorld.react (Some Examples.right) g)
  = Return (1, Examples.ltm_corridor 2) /\
  LongTermGridWorld.get_actions (Examples.ltm_corridor 2) = Return [] /\
  LongTermGridWorld.react (Some (Examples.store 0 "col"))
    (Examples.ltm_corridor 2)
  = Return (0, LongTermGridWorld.mk (GridWorld.mk 3 1 [0; 0] [0; 2] 0 2) 0
                 [VNone] [VInt 2]) /\
  LongTermGridWorld.react (Some (Examples.retrieve 0 0))
    (LongTermGridWorld.mk (GridWorld.mk 3 1 [0; 0] [0; 2] 0 2) 0
       [VNone] [VInt 2])
  = Return (0, LongTermGridWorld.mk (GridWorld.mk 3 1 [0; 0] [0; 2] 0 2) 0
                 [VInt 2] [VInt 2]) /\
  LongTermGridWorld.react (Some Examples.right) (Examples.ltm_corridor 2)
  = Raise AssertionError.
Proof.
  repeat split; try reflexivity.
  eexists. split; reflexivity.
Qed.

Lemma C7_witness :
  GatedGridWorld.get_actions (Examples.corridor 2) = Return [] /\
  GatedGridWorld.get_actions (Examples.corridor 0)
  = Return ([Examples.right]
            ++ [gate_action 0 "row"; gate_action 0 "col";
                gate_action 1 "row"; gate_action 1 "col"]).
Proof.
  split.
  - exact (proj1 (C7_gating_get_actions
                    (GridWorld.get_observation GatedGridWorld.get_state)
                    GridWorld.get_actions (Examples.corridor 2)) eq_refl).
  - refine (proj1 (proj2 (C7_gating_get_actions
                    (GridWorld.get_observation GatedGridWorld.get_state)
                    GridWorld.get_actions (Examples.corridor 0))
                    [Examples.right]
                    (State [("memory_0"%string, VNone);
                            ("memory_1"%string, VNone);
                            ("row"%string, VInt 0); ("col"%string, VInt 0)])
                    eq_refl _ eq_refl)).
    discriminate.
Defined.

(** ** More on records *)

Lemma Permutation_dict_eqb (d1 d2 : kwargs) :
  wf_kwargs d2 -> d1 ≡ₚ d2 ->
  PyDict.eqb String.eqb value_eqb d1 d2 = true.
Proof.
  intros Hwf Hperm. unfold PyDict.eqb. apply andb_true_iff. split.
  - apply Nat.eqb_eq. by apply Permutation_length.
  - apply forallb_forall. intros [k v] Hin. simpl.
    apply list_elem_of_In in Hin. rewrite Hperm in Hin.
    rewrite (get_nodup d2 k v Hwf Hin). by apply value_eqb_eq.
Qed.

(** X1.  Two records compare equal exactly when they are of the same class
    and hold the same items, in whatever order the items were given. *)
Theorem record_eqb_iff (r1 r2 : record) :
  wf_record r1 -> wf_record r2 ->
  record_eqb r1 r2 = true
  <-> type_of r1 = type_of r2 /\ attributes r1 ≡ₚ attributes r2.
Proof.
  intros Hwf1 Hwf2. unfold record_eqb. rewrite andb_true_iff.
  rewrite bool_decide_eq_true. split; intros [Hty Hd]; split; try done.
  - by apply dict_eqb_Permutation.
  - by apply Permutation_dict_eqb.
Qed.

Lemma record_eqb_iff_witness :
  record_eqb (State [("row"%string, VInt 0); ("col"%string, VInt 2)])
             (State [("col"%string, VInt 2); ("row"%string, VInt 0)]) = true
  <-> type_of (State [("row"%string, VInt 0); ("col"%string, VInt 2)])
      = type_of (State [("col"%string, VInt 2); ("row"%string, VInt 0)])
      /\ [("row"%string, VInt 0); ("col"%string, VInt 2)]
         ≡ₚ [("col"%string, VInt 2); ("row"%string, VInt 0)].
Proof.
  apply (record_eqb_iff
           (State [("row"%string, VInt 0); ("col"%string, VInt 2)])
           (State [("col"%string, VInt 2); ("row"%string, VInt 0)]));
    unfold wf_record, wf_kwargs; simpl; apply (bool_decide_unpack _); vm_compute; exact I.
Defined.

(** X2.  Equal records of the same name (or both without a name) have the
    same hash, whatever the built-in [hash] is. *)
Theorem hash_consistent_when_names_agree {H : Type}
    (py_hash : list pyobj -> H) (r1 r2 : record) :
  wf_record r1 -> wf_record r2 ->
  record_eqb r1 r2 = true ->
  record_name r1 = record_name r2 ->
  record_hash py_hash r1 = record_hash py_hash r2.
Proof.
  intros Hwf1 Hwf2 Heq Hname.
  destruct r1 as [kw1|kw1|n1 kw1].
  - by apply hash_consistent_without_name.
  - by apply hash_consistent_without_name.
  - destruct r2 as [kw2|kw2|n2 kw2]; try discriminate.
    injection Hname as ->. by apply hash_consistent_same_name.
Qed.

Lemma hash_consistent_witness :
  record_hash (fun t : list pyobj => t)
    (Action "gate" [("slot"%string, VInt 0); ("attribute"%string, VStr "row")])
  = record_hash (fun t : list pyobj => t)
      (Action "gate" [("attribute"%string, VStr "row"); ("slot"%string, VInt 0)]).
Proof.
  apply (hash_consistent_when_names_agree (fun t : list pyobj => t)
           (Action "gate" [("slot"%string, VInt 0); ("attribute"%string, VStr "row")])
           (Action "gate" [("attribute"%string, VStr "row"); ("slot"%string, VInt 0)])).
  - unfold wf_record, wf_kwargs. simpl. apply (bool_decide_unpack _). vm_compute. exact I.
  - unfold wf_record, wf_kwargs. simpl. apply (bool_decide_unpack _). vm_compute. exact I.
  - reflexivity.
  - reflexivity.
Defined.



(** ** Reading an augmented state *)

Lemma get_app {V : Type} (d1 d2 : list (string * V)) (k : string) :
  PyDict.get String.eqb (d1 ++ d2) k
  = match PyDict.get String.eqb d1 k with
    | Some v => Some v
    | None => PyDict.get String.eqb d2 k
    end.
Proof.
  induction d1 as [|[k' v'] d1 IH]; simpl; [done|].
  by destruct (String.eqb k' k).
Qed.

Lemma get_filter_not_prefixed (p : string) (d : kwargs) (k : string) :
  String.prefix p k = false ->
  PyDict.get String.eqb (List.filter (not_prefixed p) d) k
  = PyDict.get String.eqb d k.
Proof.
  intros Hk. induction d as [|[k' v'] d IH]; simpl; [done|].
  unfold not_prefixed at 1. simpl.
  destruct (String.eqb_spec k' k) as [->|Hne].
  - rewrite Hk. simpl. by rewrite String.eqb_refl.
  - destruct (String.prefix p k'); simpl; [done|].
    destruct (String.eqb_spec k' k); [done|]. exact IH.
Qed.

Lemma get_filter_prefixed (p : string) (d : kwargs) (k : string) :
  String.prefix p k = true ->
  PyDict.get String.eqb (List.filter (not_prefixed p) d) k = None.
Proof.
  intros Hk. induction d as [|[k' v'] d IH]; simpl; [done|].
  unfold not_prefixed at 1. simpl.
  destruct (String.prefix p k') eqn:Hk'; simpl; [done|].
  destruct (String.eqb_spec k' k) as [->|Hne]; [congruence|done].
Qed.

Lemma get_slot_items (p : string) (j : nat) (memories : list value)
    (i : nat) (x : value) :
  memories !! i = Some x ->
  PyDict.get String.eqb (slot_items p j memories) (slot_key p (j + i))
  = Some x.
Proof.
  revert j i. induction memories as [|v l IH]; intros j i Hi; [done|].
  rewrite slot_items_cons. simpl.
  destruct i as [|i]; simpl in Hi.
  - injection Hi as ->. by rewrite Nat.add_0_r, String.eqb_refl.
  - destruct (String.eqb_spec (slot_key p j) (slot_key p (j + S i))) as [Heq|_].
    + apply slot_key_inj in Heq. lia.
    + replace (j + S i)%nat with (S j + i)%nat by lia. by apply IH.
Qed.

Lemma get_slot_items_None (p : string) (j : nat) (memories : list value)
    (k : string) :
  (forall i, (i < length memories)%nat -> k <> slot_key p (j + i)) ->
  PyDict.get String.eqb (slot_items p j memories) k = None.
Proof.
  revert j. induction memories as [|v l IH]; intros j Hk; [done|].
  rewrite slot_items_cons. simpl.
  destruct (String.eqb_spec (slot_key p j) k) as [Heq|_].
  - exfalso. apply (Hk O); simpl; [lia|]. by rewrite Nat.add_0_r.
  - apply IH. intros i Hi. replace (S j + i)%nat with (j + S i)%nat by lia.
    apply Hk. simpl. lia.
Qed.

Lemma slot_key_prefixed (p : string) (i : nat) :
  String.prefix p (slot_key p i) = true.
Proof. apply prefix_append. Qed.


Lemma filter_keys_NoDup (f : string * value -> bool) (d : kwargs) :
  NoDup (map fst d) -> NoDup (map fst (List.filter f d)).
Proof.
  induction d as [|[k v] d IH]; simpl; intros Hnd; [done|].
  apply NoDup_cons in Hnd as [Hk Hnd].
  destruct (f (k, v)); simpl; [|by apply IH].
  apply NoDup_cons. split; [|by apply IH].
  intros Hin. apply Hk. apply list_elem_of_fmap in Hin as ([k' v'] & -> & Hin).
  apply list_elem_of_In, filter_In in Hin as [Hin _].
  apply list_elem_of_fmap. exists (k', v'). split; [done|].
  by apply list_elem_of_In.
Qed.

(** X5.  Augmenting a state that holds each key once gives a state that
    holds each key once. *)
Theorem augment_state_wf (s r : record) (memories : list value) (p : string) :
  wf_record s -> augment_state s memories p = Return r -> wf_record r.
Proof.
  intros Hwf. rewrite augment_state_spec. intros [= <-].
  unfold wf_record, wf_kwargs. simpl. rewrite map_app.
  apply NoDup_app. split; [apply slot_items_keys_NoDup|]. split.
  - intros k Hin1 Hin2.
    apply list_elem_of_fmap in Hin1 as ([k1 v1] & -> & Hin1).
    apply list_elem_of_fmap in Hin2 as ([k2 v2] & Heq & Hin2).
    simpl in Heq. subst k2.
    pose proof (slot_items_prefixed p 0 memories) as Hall.
    rewrite Forall_forall in Hall. specialize (Hall _ Hin1).
    apply list_elem_of_In, filter_In in Hin2 as [_ Hnp].
    unfold prefixed, not_prefixed in *. simpl in *. by rewrite Hall in Hnp.
  - by apply filter_keys_NoDup.
Qed.

Lemma augment_state_wf_witness :
  wf_record (State [("memory_0"%string, VInt 7); ("memory_1"%string, VNone);
                    ("row"%string, VInt 0); ("col"%string, VInt 2)]).
Proof.
  apply (augment_state_wf
           (State [("row"%string, VInt 0); ("memory_0"%string, VInt 1);
                   ("col"%string, VInt 2)])
           _ [VInt 7; VNone] "memory_").
  - unfold wf_record, wf_kwargs. simpl. apply (bool_decide_unpack _).
    vm_compute. exact I.
  - reflexivity.
Defined.

(** ** Dictionary assignment and lookup *)

Section set_get.
Context {K V : Type} (keq : K -> K -> bool).
Implicit Types d : list (K * V).

Lemma get_set_same d (k : K) (v : V) :
  keq k k = true -> PyDict.get keq (PyDict.set keq d k v) k = Some v.
Proof.
  intros Hk. induction d as [|[k0 v0] d IH]; simpl.
  - by rewrite Hk.
  - destruct (keq k0 k) eqn:E; simpl; rewrite E; [done|exact IH].
Qed.

Lemma get_set_cases d (k k2 : K) (v : V) :
  PyDict.get keq (PyDict.set keq d k v) k2 = PyDict.get keq d k2
  \/ (PyDict.get keq (PyDict.set keq d k v) k2 = Some v
      /\ PyDict.get keq d k2 = PyDict.get keq d k).
Proof.
  induction d as [|[k0 v0] d IH]; simpl.
  - destruct (keq k k2); [by right|by left].
  - destruct (keq k0 k) eqn:E; simpl.
    + destruct (keq k0 k2); [by right|by left].
    + destruct (keq k0 k2); [by left|exact IH].
Qed.

Lemma get_set_other d (k k2 : K) (v : V) :
  keq k k2 = false ->
  (forall k', keq k' k = true -> keq k' k2 = false) ->
  PyDict.get keq (PyDict.set keq d k v) k2 = PyDict.get keq d k2.
Proof.
  intros Hk Hst. induction d as [|[k0 v0] d IH]; simpl.
  - by rewrite Hk.
  - destruct (keq k0 k) eqn:E; simpl.
    + by rewrite (Hst _ E).
    + by destruct (keq k0 k2).
Qed.
End set_get.

(** ** Entries of the value table *)

Section entries.
Context {F G Obs Act : Type} `{Number F}.
Context `{DictKey (option Obs)} `{DictKey (option Act)}.
Implicit Types self : @TabularQLearningAgent.t F G Obs Act.
Implicit Types vf : @TabularQLearningAgent.table F Obs Act.

(** [setitem] reads back what it wrote. *)
Lemma setitem_stored_value vf (o : option Obs) (a : option Act) (v : F) :
  key_match o o = true -> key_match a a = true ->
  UpdateRule.stored_value (TabularQLearningAgent.setitem o a v vf) o a = v.
Proof.
  intros Ho Ha. unfold UpdateRule.stored_value, TabularQLearningAgent.setitem.
  rewrite (get_set_same key_match vf o _ Ho).
  by rewrite (get_set_same key_match _ a v Ha).
Qed.

(** [setitem] leaves the entries at other keys as they are. *)
Lemma setitem_other vf (o o2 : option Obs) (a a2 : option Act) (v : F) :
  Entry.differs o o2 \/ Entry.differs a a2 ->
  UpdateRule.stored_value (TabularQLearningAgent.setitem o a v vf) o2 a2
  = UpdateRule.stored_value vf o2 a2.
Proof.
  unfold UpdateRule.stored_value, TabularQLearningAgent.setitem.
  intros [[Ho Hso]|[Ha Hsa]].
  - by rewrite (get_set_other key_match vf o o2 _ Ho Hso).
  - destruct (get_set_cases key_match vf o o2
                (PyDict.set key_match
                   match PyDict.get key_match vf o with
                   | Some values => values
                   | None => []
                   end a v)) as [->|[-> Heq]]; [done|].
    rewrite Heq.
    destruct (PyDict.get key_match vf o) as [values|].
    + by rewrite (get_set_other key_match values a a2 v Ha Hsa).
    + simpl. by rewrite Ha.
Qed.

(** [setitem] keeps every stored entry stored. *)
Lemma setitem_stored vf (o o2 : option Obs) (a a2 : option Act) (v : F) :
  Entry.stored vf o2 a2 = true ->
  Entry.stored (TabularQLearningAgent.setitem o a v vf) o2 a2 = true.
Proof.
  unfold Entry.stored, TabularQLearningAgent.setitem, PyDict.contains.
  destruct (PyDict.get key_match vf o2) as [row2|] eqn:Hrow2; [|discriminate].
  intros Hst.
  destruct (get_set_cases key_match vf o o2
              (PyDict.set key_match
                 match PyDict.get key_match vf o with
                 | Some values => values
                 | None => []
                 end a v)) as [->|[-> Heq]].
  - by rewrite Hrow2.
  - rewrite <- Heq, Hrow2.
    destruct (get_set_cases key_match row2 a a2 v) as [->|[-> _]]; done.
Qed.

(** What a read can do to the table: nothing, or the insertion of the
    default at the pair read. *)
Lemma get_value_cases self self' (o : option Obs) (a : option Act) (v : F) :
  TabularQLearningAgent.get_value o a self = Return (v, self') ->
  self' = self
  \/ self' = TabularQLearningAgent.with_value_function
               (TabularQLearningAgent.setitem o a f0
                  (TabularQLearningAgent.value_function self)) self.
Proof.
  unfold TabularQLearningAgent.get_value, TabularQLearningAgent.inner_getitem,
    TabularQLearningAgent.setitem.
  destruct (PyDict.get key_match _ o) as [values|] eqn:Hrow.
  - destruct (PyDict.get key_match values a).
    + intros [= _ <-]. by left.
    + intros [= _ <-]. by right.
  - intros [= _ <-]. by left.
Qed.

Lemma get_value_keeps self self' (o o2 : option Obs) (a a2 : option Act)
    (v : F) :
  TabularQLearningAgent.get_value o a self = Return (v, self') ->
  Entry.stored (TabularQLearningAgent.value_function self) o2 a2 = true ->
  Entry.stored (TabularQLearningAgent.value_function self') o2 a2 = true.
Proof.
  intros Hget Hst. destruct (get_value_cases _ _ _ _ _ Hget) as [->| ->];
    [done|]. simpl. by apply setitem_stored.
Qed.

Lemma max_by_value_keeps (o o2 : option Obs) (a2 : option Act)
    (actions : list (option Act)) :
  forall self self' (item best : option Act) (val : F),
    Agent.max_by_value o item val actions self = Return (best, self') ->
    Entry.stored (TabularQLearningAgent.value_function self) o2 a2 = true ->
    Entry.stored (TabularQLearningAgent.value_function self') o2 a2 = true.
Proof.
  induction actions as [|action rest IH]; intros self self' item best val; simpl.
  - by intros [= _ <-].
  - change (get_value o action self)
      with (TabularQLearningAgent.get_value o action self).
    destruct (TabularQLearningAgent.get_value o action self)
      as [[v s1]|e] eqn:Hget; simpl; [|discriminate].
    intros Hmax Hst.
    assert (Entry.stored (TabularQLearningAgent.value_function s1) o2 a2 = true)
      as Hst1 by (by eapply get_value_keeps).
    destruct (flt val v); by eapply IH.
Qed.

Lemma get_best_value_keeps self self' (o o2 : option Obs) (a2 : option Act)
    (v : F) :
  Agent.get_best_value o self = Return (v, self') ->
  Entry.stored (TabularQLearningAgent.value_function self) o2 a2 = true ->
  Entry.stored (TabularQLearningAgent.value_function self') o2 a2 = true.
Proof.
  unfold Agent.get_best_value, Agent.get_best_action. simpl.
  destruct (TabularQLearningAgent.get_stored_actions o self)
    as [actions|e] eqn:Hacts; simpl; [|discriminate].
  intros Hrun Hst.
  destruct actions as [|action rest]; simpl in Hrun.
  - by eapply get_value_keeps.
  - change (get_value o action self)
      with (TabularQLearningAgent.get_value o action self) in Hrun.
    destruct (TabularQLearningAgent.get_value o action self)
      as [[v1 s1]|e] eqn:Hget; simpl in Hrun; [|discriminate].
    destruct (Agent.max_by_value o action v1 rest s1)
      as [[best s2]|e] eqn:Hmax; simpl in Hrun; [|discriminate].
    eapply get_value_keeps; [exact Hrun|].
    eapply max_by_value_keeps; [exact Hmax|].
    by eapply get_value_keeps.
Qed.

Lemma observe_reward_keeps self self' (o o2 : option Obs) (a2 : option Act)
    (r : option F) :
  TabularQLearningAgent.observe_reward o r self = Return self' ->
  Entry.stored (TabularQLearningAgent.value_function self) o2 a2 = true ->
  Entry.stored (TabularQLearningAgent.value_function self') o2 a2 = true.
Proof.
  unfold TabularQLearningAgent.observe_reward.
  destruct (TabularQLearningAgent.get_value _ _ self) as [[pv s1]|e] eqn:Hget;
    simpl; [|discriminate].
  destruct (Agent.get_best_value o s1) as [[bv s2]|e] eqn:Hbest; simpl;
    [|discriminate].
  destruct r as [r|]; simpl; [|discriminate].
  intros [= <-] Hst. simpl. apply setitem_stored.
  eapply get_best_value_keeps; [exact Hbest|].
  by eapply get_value_keeps.
Qed.

(** X6.  No operation of the tabular agent removes an entry from the value
    table: what is stored before a read, a best-value query or an update
    is stored after it. *)
Theorem table_never_loses_an_entry self self' (o2 : option Obs)
    (a2 : option Act) :
  Entry.stored (TabularQLearningAgent.value_function self) o2 a2 = true ->
  (forall o a v,
     TabularQLearningAgent.get_value o a self = Return (v, self') ->
     Entry.stored (TabularQLearningAgent.value_function self') o2 a2 = true) /\
  (forall o v,
     Agent.get_best_value o self = Return (v, self') ->
     Entry.stored (TabularQLearningAgent.value_function self') o2 a2 = true) /\
  (forall o r,
     TabularQLearningAgent.observe_reward o r self = Return self' ->
     Entry.stored (TabularQLearningAgent.value_function self') o2 a2 = true).
Proof.
  intros Hst. split; [|split].
  - intros o a v Hrun. by eapply get_value_keeps.
  - intros o v Hrun. by eapply get_best_value_keeps.
  - intros o r Hrun. by eapply observe_reward_keeps.
Qed.

(** X7.  After an update on a well-formed table whose read at the cursor
    inserts nothing, reading the pair at the cursor gives the value of the
    update rule and changes nothing. *)
Theorem observe_reward_then_get_value self (o : option Obs) (r : F) :
  Table.ok (TabularQLearningAgent.value_function self) ->
  match PyDict.get key_match (TabularQLearningAgent.value_function self)
          (TabularQLearningAgent.self_prev_observation self) with
  | Some values =>
      PyDict.get key_match values (TabularQLearningAgent.self_prev_action self)
      <> None
  | None => True
  end ->
  key_match (TabularQLearningAgent.self_prev_observation self)
            (TabularQLearningAgent.self_prev_observation self) = true ->
  key_match (TabularQLearningAgent.self_prev_action self)
            (TabularQLearningAgent.self_prev_action self) = true ->
  exists self',
    TabularQLearningAgent.observe_reward o (Some r) self = Return self' /\
    TabularQLearningAgent.get_value
      (TabularQLearningAgent.self_prev_observation self)
      (TabularQLearningAgent.self_prev_action self) self'
    = Return (UpdateRule.new_value self o r, self').
Proof.
  intros Hok Hcur Ho Ha. eexists. split; [by apply observe_reward_rule|].
  unfold TabularQLearningAgent.get_value, TabularQLearningAgent.inner_getitem,
    TabularQLearningAgent.setitem. simpl.
  rewrite (get_set_same key_match _ _ _ Ho).
  by rewrite (get_set_same key_match _ _ _ Ha).
Qed.

End entries.

(** ** The example table *)

Lemma two_entries_ok :
  Table.ok (TabularQLearningAgent.value_function two_entries).
Proof.
  unfold Table.ok. simpl. constructor; [|constructor]. simpl.
  split; [discriminate|].
  repeat split; try reflexivity; repeat constructor.
Qed.

(** Records that hash different tuples are different dictionary keys. *)
Lemma record_key_differs (r1 r2 : record) :
  hash_tuple r1 <> hash_tuple r2 -> Entry.differs (Some r1) (Some r2).
Proof.
  intros Hne. split.
  - unfold key_match, record_key.
    by rewrite bool_decide_eq_false_2.
  - intros [r|]; unfold key_match, record_key; [|done].
    intros Hm. apply andb_true_iff in Hm as [Hh _].
    apply bool_decide_eq_true in Hh.
    rewrite bool_decide_eq_false_2; [done|]. congruence.
Qed.

Lemma table_never_loses_an_entry_witness :
  (forall o a v,
     TabularQLearningAgent.get_value o a two_entries = Return (v, two_entries) ->
     Entry.stored (TabularQLearningAgent.value_function two_entries)
       (Examples.cell 0) (Some Examples.left) = true) /\
  (forall o v,
     Agent.get_best_value o two_entries = Return (v, two_entries) ->
     Entry.stored (TabularQLearningAgent.value_function two_entries)
       (Examples.cell 0) (Some Examples.left) = true) /\
  (forall o r,
     TabularQLearningAgent.observe_reward o r two_entries = Return two_entries ->
     Entry.stored (TabularQLearningAgent.value_function two_entries)
       (Examples.cell 0) (Some Examples.left) = true).
Proof.
  exact (table_never_loses_an_entry two_entries two_entries
           (Examples.cell 0) (Some Examples.left) eq_refl).
Defined.

Lemma observe_reward_then_get_value_witness :
  exists self' : Examples.QAgent,
    TabularQLearningAgent.observe_reward (Examples.cell 1) (Some 1%Q) two_entries
    = Return self' /\
    TabularQLearningAgent.get_value (Examples.cell 0) (Some Examples.right) self'
    = Return (UpdateRule.new_value two_entries (Examples.cell 1) 1%Q, self').
Proof.
  apply (observe_reward_then_get_value two_entries (Examples.cell 1) 1%Q).
  - exact two_entries_ok.
  - simpl. discriminate.
  - reflexivity.
  - reflexivity.
Defined.


(** X9.  On a well-formed table, when the entry at the cursor is stored
    or the cursor's observation has no row yet, [observe_reward] returns
    the agent with the value of the update rule written at the cursor:
    [(1 - alpha) * prev_value + alpha * (reward + gamma * best_value)],
    both values read on the table as it was. *)
Theorem observe_reward_writes_rule_value {F G Obs Act : Type} `{Number F}
    `{DictKey (option Obs)} `{DictKey (option Act)}
    (self : @TabularQLearningAgent.t F G Obs Act) (o : option Obs) (r : F) :
  Table.ok (TabularQLearningAgent.value_function self) ->
  match PyDict.get key_match (TabularQLearningAgent.value_function self)
          (TabularQLearningAgent.self_prev_observation self) with
  | Some values =>
      PyDict.get key_match values (TabularQLearningAgent.self_prev_action self)
      <> None
  | None => True
  end ->
  TabularQLearningAgent.observe_reward o (Some r) self
  = Return (TabularQLearningAgent.with_value_function
              (TabularQLearningAgent.setitem
                 (TabularQLearningAgent.self_prev_observation self)
                 (TabularQLearningAgent.self_prev_action self)
                 (UpdateRule.new_value self o r)
                 (TabularQLearningAgent.value_function self)) self).
Proof. intros Hok Hcur. by apply observe_reward_rule. Qed.

Lemma observe_reward_writes_rule_value_witness :
  TabularQLearningAgent.observe_reward (Examples.cell 1) (Some 1%Q) two_entries
  = Return (TabularQLearningAgent.with_value_function
              (TabularQLearningAgent.setitem (Examples.cell 0)
                 (Some Examples.right)
                 (UpdateRule.new_value two_entries (Examples.cell 1) 1%Q)
                 (TabularQLearningAgent.value_function two_entries))
              two_entries).
Proof.
  apply (observe_reward_writes_rule_value two_entries (Examples.cell 1) 1%Q).
  - exact two_entries_ok.
  - simpl. discriminate.
Defined.

Lemma observe_reward_table_ok_witness :
  Table.ok
    (TabularQLearningAgent.setitem (Examples.cell 0) (Some Examples.right)
       (UpdateRule.new_value two_entries (Examples.cell 1) 1%Q)
       (TabularQLearningAgent.value_function two_entries)).
Proof.
  apply (observe_reward_table_ok two_entries
           (TabularQLearningAgent.with_value_function
              (TabularQLearningAgent.setitem (Examples.cell 0)
                 (Some Examples.right)
                 (UpdateRule.new_value two_entries (Examples.cell 1) 1%Q)
                 (TabularQLearningAgent.value_function two_entries))
              two_entries)
           (Examples.cell 1) (Some 1%Q)).
  - exact two_entries_ok.
  - reflexivity.
  - vm_compute. reflexivity.
Defined.

(** ** The best action *)

Section best.
Context {F G Obs Act : Type} `{Number F} `{RandomSource G F}.
Context `{DictKey (option Obs)} `{DictKey (option Act)}.
Implicit Types self : @TabularQLearningAgent.t F G Obs Act.

(** On a well-formed table [get_best_action] returns the key of the entry
    [max] ends with and leaves the agent as it is. *)
Lemma get_best_action_entry self (o : option Obs) (k : option Act) (v : F)
    (rest : list (option Act * F)) :
  Table.ok (TabularQLearningAgent.value_function self) ->
  PyDict.get key_match (TabularQLearningAgent.value_function self) o
  = Some ((k, v) :: rest) ->
  Agent.get_best_action o self
  = Return (fst (UpdateRule.best_entry (k, v) rest), self).
Proof.
  intros Hok Hrow.
  pose proof (get_table_ok _ _ _ Hok Hrow) as Hrok.
  unfold Agent.get_best_action. simpl.
  unfold TabularQLearningAgent.get_stored_actions. rewrite Hrow. simpl.
  change (get_value o k self) with (TabularQLearningAgent.get_value o k self).
  rewrite (get_value_stored self o k ((k, v) :: rest) v Hrow Hrok) by left.
  simpl.
  by rewrite (max_by_value_stored self o ((k, v) :: rest) rest k v Hrow Hrok)
    by (intros kv Hkv; by right).
Qed.

(** X12.  With a stored best action the base [act] is greedy whatever it
    is offered: it returns the stored best action, also when that action is
    not in [actions] and when [actions] is empty, draws nothing from the
    generator and moves the cursor to the observation and that action. *)
Theorem act_greedy self (o : option Obs) (k : option Act) (v : F)
    (rest : list (option Act * F)) (a : Act) (actions : list Act) :
  Table.ok (TabularQLearningAgent.value_function self) ->
  PyDict.get key_match (TabularQLearningAgent.value_function self) o
  = Some ((k, v) :: rest) ->
  fst (UpdateRule.best_entry (k, v) rest) = Some a ->
  Agent.act o actions self
  = Return (Some a,
            TabularQLearningAgent.mk
              (TabularQLearningAgent.self_rng self) o
              (match o with None => None | Some _ => Some a end)
              (TabularQLearningAgent.value_function self)
              (TabularQLearningAgent.learning_rate self)
              (TabularQLearningAgent.discount_rate self)).
Proof.
  intros Hok Hrow Hbest. unfold Agent.act.
  rewrite (get_best_action_entry self o k v rest Hok Hrow), Hbest. simpl.
  unfold Agent.force_act. by destruct o.
Qed.

(** X13.  At an observation without a row the base [act] falls back on
    [rng.choice(actions)]: an empty action list is an [IndexError]; a drawn
    action is returned and becomes the cursor, and the table is untouched. *)
Theorem act_unseen self (o : option Obs) (actions : list Act) :
  PyDict.get key_match (TabularQLearningAgent.value_function self) o = None ->
  (actions = [] -> Agent.act o actions self = Raise IndexError) /\
  (forall (a : Act) (g : G),
     rng_choice actions (TabularQLearningAgent.self_rng self) = Return (a, g) ->
     Agent.act o actions self
     = Return (Some a,
               TabularQLearningAgent.mk g o
                 (match o with None => None | Some _ => Some a end)
                 (TabularQLearningAgent.value_function self)
                 (TabularQLearningAgent.learning_rate self)
                 (TabularQLearningAgent.discount_rate self))).
Proof.
  intros Hrow.
  assert (Agent.get_best_action o self = Return (None, self)) as Hbest.
  { unfold Agent.get_best_action. simpl.
    unfold TabularQLearningAgent.get_stored_actions. by rewrite Hrow. }
  split.
  - intros ->. unfold Agent.act. by rewrite Hbest.
  - intros a g Hchoice. unfold Agent.act. rewrite Hbest. simpl.
    rewrite Hchoice. simpl. unfold Agent.force_act. by destruct o.
Qed.
End best.

(** ** The best action over rational values *)

Section best_Q.
Context {G Obs Act : Type}.
Context `{DictKey (option Obs)} `{DictKey (option Act)}.
Implicit Types self : @TabularQLearningAgent.t Q G Obs Act.

Lemma flt_Q_true (x y : Q) : flt x y = true -> (x < y)%Q.
Proof.
  simpl. intros Hlt. apply negb_true_iff in Hlt.
  apply Qnot_le_lt. intros Hle. apply Qle_bool_iff in Hle. congruence.
Qed.

Lemma flt_Q_false (x y : Q) : flt x y = false -> (y <= x)%Q.
Proof.
  simpl. intros Hlt. apply negb_false_iff in Hlt. by apply Qle_bool_iff.
Qed.

Lemma best_entry_cons (cur e : option Act * Q)
    (rest : list (option Act * Q)) :
  UpdateRule.best_entry cur (e :: rest)
  = UpdateRule.best_entry (if flt (snd cur) (snd e) then e else cur) rest.
Proof. reflexivity. Qed.

(** [max] ends with the first of the largest entries. *)
Lemma best_entry_first_max (cur : option Act * Q)
    (rest : list (option Act * Q)) :
  exists pre post : list (option Act * Q),
    cur :: rest = pre ++ UpdateRule.best_entry cur rest :: post /\
    Forall (fun e => (snd e < snd (UpdateRule.best_entry cur rest))%Q) pre /\
    Forall (fun e => (snd e <= snd (UpdateRule.best_entry cur rest))%Q) post.
Proof.
  revert cur. induction rest as [|e rest IH]; intros cur.
  - exists [], []. by repeat split.
  - rewrite (best_entry_cons cur e rest).
    destruct (flt (snd cur) (snd e)) eqn:Hlt.
    + apply flt_Q_true in Hlt.
      destruct (IH e) as (pre & post & Heq & Hpre & Hpost).
      exists (cur :: pre), post. split; [by rewrite Heq|]. split; [|done].
      constructor; [|done]. simpl.
      destruct pre as [|e' pre']; simpl in Heq.
      * injection Heq as Heq _. by rewrite <- Heq.
      * injection Heq as <- _. apply Forall_cons in Hpre as [He _].
        by eapply Qlt_trans.
    + apply flt_Q_false in Hlt.
      destruct (IH cur) as (pre & post & Heq & Hpre & Hpost).
      destruct pre as [|c pre']; simpl in Heq.
      * injection Heq as Heq ->. exists [], (e :: post).
        split; [by rewrite <- Heq|]. split; [done|].
        constructor; [|done]. by rewrite <- Heq.
      * injection Heq as <- Hrest. apply Forall_cons in Hpre as [Hc Hpre'].
        exists (cur :: e :: pre'), post.
        split; [simpl; by do 2 f_equal|]. split; [|done].
        constructor; [done|]. constructor; [|done].
        by eapply Qle_lt_trans.
Qed.

(** X11.  On a well-formed table with a row for the observation,
    [get_best_action] returns the first action of the row whose value is
    the largest (every earlier value is strictly smaller, no value is
    larger), [get_best_value] returns that value, and neither changes the
    agent. *)
Theorem get_best_action_first_maximum self (o : option Obs)
    (values : list (option Act * Q)) :
  Table.ok (TabularQLearningAgent.value_function self) ->
  PyDict.get key_match (TabularQLearningAgent.value_function self) o
  = Some values ->
  exists (a : option Act) (m : Q) (pre post : list (option Act * Q)),
    values = pre ++ (a, m) :: post /\
    Forall (fun e => (snd e < m)%Q) pre /\
    Forall (fun e => (snd e <= m)%Q) post /\
    Agent.get_best_action o self = Return (a, self) /\
    Agent.get_best_value o self = Return (m, self).
Proof.
  intros Hok Hrow.
  pose proof (get_table_ok _ _ _ Hok Hrow) as Hrok.
  assert (values <> []) as Hne.
  { unfold Table.ok in Hok. rewrite Forall_forall in Hok.
    destruct (get_Some_elem _ _ _ _ Hrow) as [o' Hin].
    apply (Hok _ Hin). }
  destruct values as [|[k v] rest]; [done|].
  destruct (best_entry_first_max (k, v) rest) as (pre & post & Heq & Hpre & Hpost).
  destruct (UpdateRule.best_entry (k, v) rest) as [a m] eqn:Hbest.
  exists a, m, pre, post. simpl in *.
  pose proof (get_best_action_entry self o k v rest Hok Hrow) as Hact.
  rewrite Hbest in Hact. simpl in Hact.
  repeat split; try done.
  unfold Agent.get_best_value. rewrite Hact. simpl.
  apply (get_value_stored self o a ((k, v) :: rest) m Hrow Hrok).
  rewrite Heq. apply elem_of_app. right. left.
Qed.
End best_Q.

Lemma get_best_action_first_maximum_witness :
  exists (a : option record) (m : Q) (pre post : list (option record * Q)),
    [(Some Examples.right, (-1)%Q); (Some Examples.left, 2%Q)]
    = pre ++ (a, m) :: post /\
    Forall (fun e => (snd e < m)%Q) pre /\
    Forall (fun e => (snd e <= m)%Q) post /\
    Agent.get_best_action (Examples.cell 0) two_entries
    = Return (a, two_entries) /\
    Agent.get_best_value (Examples.cell 0) two_entries
    = Return (m, two_entries).
Proof.
  apply (get_best_action_first_maximum two_entries (Examples.cell 0)
           [(Some Examples.right, (-1)%Q); (Some Examples.left, 2%Q)]).
  - exact two_entries_ok.
  - reflexivity.
Defined.

Lemma act_greedy_witness :
  Agent.act (Examples.cell 0) [Examples.right] two_entries
  = Return (Some Examples.left,
            TabularQLearningAgent.mk (mk_script [] [O]) (Examples.cell 0)
              (Some Examples.left)
              (TabularQLearningAgent.value_function two_entries)
              (1 # 2)%Q (1 # 2)%Q).
Proof.
  apply (act_greedy two_entries (Examples.cell 0) (Some Examples.right)
           (-1)%Q [(Some Examples.left, 2%Q)] Examples.left [Examples.right]).
  - exact two_entries_ok.
  - reflexivity.
  - reflexivity.
Defined.

Lemma act_unseen_witness :
  ([Examples.left; Examples.right] = [] ->
   Agent.act (Examples.cell 1) [Examples.left; Examples.right] two_entries
   = Raise IndexError) /\
  (forall (a : record) (g : script),
     rng_choice [Examples.left; Examples.right]
       (TabularQLearningAgent.self_rng two_entries) = Return (a, g) ->
     Agent.act (Examples.cell 1) [Examples.left; Examples.right] two_entries
     = Return (Some a,
               TabularQLearningAgent.mk g (Examples.cell 1) (Some a)
                 (TabularQLearningAgent.value_function two_entries)
                 (TabularQLearningAgent.learning_rate two_entries)
                 (TabularQLearningAgent.discount_rate two_entries))).
Proof.
  apply (act_unseen two_entries (Examples.cell 1)
           [Examples.left; Examples.right]).
  reflexivity.
Defined.

(** ** The epsilon-greedy agent over the tabular agent *)

Section epsilon_tabular.
Context {F G Obs Act : Type} `{Number F} `{RandomSource G F}.
Context `{DictKey (option Obs)} `{DictKey (option Act)}.
Implicit Types self : @EpsilonGreedyMetaAgent.t F (@TabularQLearningAgent.t F G Obs Act).

Lemma rng_choice_elem {X : Type} (seq : list X) (g g' : G) (x : X) :
  rng_choice seq g = Return (x, g') -> x ∈ seq.
Proof.
  unfold rng_choice. destruct seq as [|y seq]; [discriminate|].
  destruct (rng_randbelow (length (y :: seq)) g) as [i g''].
  destruct ((y :: seq) !! i) as [z|] eqn:Hi; [|discriminate].
  intros [= <- _]. by eapply list_elem_of_lookup_2.
Qed.

(** X14.  Whenever the epsilon-greedy [act] returns on a non-empty action
    list, it returns one of the offered actions, that action and the
    observation are the new cursor, and the value table, the rates and the
    exploration rate are what they were: the call never learns. *)
Theorem epsilon_act_returns_offered_action (depth : nat) (o : option Obs)
    (actions : list Act) (reward : option F) self self'
    (action : option Act) :
  actions <> [] ->
  EpsilonGreedyMetaAgent.act depth o actions reward self
  = Return (action, self') ->
  (exists a : Act,
     action = Some a /\ a ∈ actions /\
     TabularQLearningAgent.self_prev_action (EpsilonGreedyMetaAgent.cls self')
     = match o with None => None | Some _ => Some a end) /\
  TabularQLearningAgent.self_prev_observation (EpsilonGreedyMetaAgent.cls self')
  = o /\
  TabularQLearningAgent.value_function (EpsilonGreedyMetaAgent.cls self')
  = TabularQLearningAgent.value_function (EpsilonGreedyMetaAgent.cls self) /\
  TabularQLearningAgent.learning_rate (EpsilonGreedyMetaAgent.cls self')
  = TabularQLearningAgent.learning_rate (EpsilonGreedyMetaAgent.cls self) /\
  TabularQLearningAgent.discount_rate (EpsilonGreedyMetaAgent.cls self')
  = TabularQLearningAgent.discount_rate (EpsilonGreedyMetaAgent.cls self) /\
  EpsilonGreedyMetaAgent.exploration_rate self'
  = EpsilonGreedyMetaAgent.exploration_rate self.
Proof.
  intros Hne. revert self.
  induction depth as [|depth IH]; intros self; simpl; [discriminate|].
  destruct actions as [|a0 rest] eqn:Hactions; [done|].
  rewrite <- Hactions in *.
  destruct (rng_random _) as [u g]. simpl.
  destruct (flt u (EpsilonGreedyMetaAgent.exploration_rate self)).
  - destruct (rng_choice actions g) as [[choice g']|e] eqn:Hchoice; simpl;
      [|discriminate].
    intros [= <- <-]. simpl. repeat split; try done.
    + exists choice. repeat split; [by eapply rng_choice_elem|by destruct o].
    + by destruct o.
    + by destruct o.
    + by destruct o.
    + by destruct o.
  - intros Hrun. specialize (IH _ Hrun). simpl in IH. exact IH.
Qed.

Lemma max_by_value_returns (o : option Obs) (actions : list (option Act)) :
  forall (s : @TabularQLearningAgent.t F G Obs Act) (item : option Act) (val : F),
  exists best s', Agent.max_by_value o item val actions s = Return (best, s').
Proof.
  induction actions as [|action rest IH]; intros s item val; simpl.
  - by eexists _, _.
  - change (get_value o action s)
      with (TabularQLearningAgent.get_value o action s).
    unfold TabularQLearningAgent.get_value.
    destruct (PyDict.get key_match _ o) as [values|]; simpl.
    + destruct (TabularQLearningAgent.inner_getitem o action values s) as [v s1].
      destruct (flt val v); apply IH.
    + destruct (flt val f0); apply IH.
Qed.

Lemma get_value_returns (o : option Obs) (a : option Act)
    (s : @TabularQLearningAgent.t F G Obs Act) :
  exists v s', TabularQLearningAgent.get_value o a s = Return (v, s').
Proof.
  unfold TabularQLearningAgent.get_value.
  destruct (PyDict.get key_match _ o) as [values|].
  - destruct (TabularQLearningAgent.inner_getitem o a values s) as [v s1].
    by eexists _, _.
  - by eexists _, _.
Qed.

Lemma get_best_value_returns (o : option Obs)
    (s : @TabularQLearningAgent.t F G Obs Act) :
  exists v s', Agent.get_best_value o s = Return (v, s').
Proof.
  unfold Agent.get_best_value, Agent.get_best_action. simpl.
  unfold TabularQLearningAgent.get_stored_actions.
  destruct (PyDict.get key_match _ o) as [values|] eqn:Hrow; simpl.
  - destruct (PyDict.keys values) as [|action rest]; simpl.
    + apply get_value_returns.
    + change (get_value o action s)
        with (TabularQLearningAgent.get_value o action s).
      destruct (get_value_returns o action s) as (v & s1 & ->). simpl.
      destruct (max_by_value_returns o rest s1 action v) as (best & s2 & ->).
      simpl. apply get_value_returns.
  - apply get_value_returns.
Qed.

(** X15.  An update always goes through when a reward is given, and is a
    [TypeError] when the reward is [None]; so the epsilon-greedy [act] on
    an empty action list raises [TypeError] with its default reward, and
    with a reward performs the update and returns no action. *)
Theorem epsilon_act_terminal (depth : nat) (o : option Obs) self :
  EpsilonGreedyMetaAgent.act (S depth) o [] None self = Raise TypeError /\
  forall r : F,
    exists a' : @TabularQLearningAgent.t F G Obs Act,
      TabularQLearningAgent.observe_reward o (Some r)
        (EpsilonGreedyMetaAgent.cls self) = Return a' /\
      EpsilonGreedyMetaAgent.act (S depth) o [] (Some r) self
      = Return (None,
                EpsilonGreedyMetaAgent.mk a'
                  (EpsilonGreedyMetaAgent.exploration_rate self)).
Proof.
  destruct (get_value_returns
              (TabularQLearningAgent.self_prev_observation
                 (EpsilonGreedyMetaAgent.cls self))
              (TabularQLearningAgent.self_prev_action
                 (EpsilonGreedyMetaAgent.cls self))
              (EpsilonGreedyMetaAgent.cls self)) as (pv & s1 & Hget).
  destruct (get_best_value_returns o s1) as (bv & s2 & Hbest).
  split.
  - simpl.
    change (observe_reward o None (EpsilonGreedyMetaAgent.cls self))
      with (TabularQLearningAgent.observe_reward o None
              (EpsilonGreedyMetaAgent.cls self)).
    unfold TabularQLearningAgent.observe_reward.
    rewrite Hget. simpl. by rewrite Hbest.
  - intros r. simpl.
    change (observe_reward o (Some r) (EpsilonGreedyMetaAgent.cls self))
      with (TabularQLearningAgent.observe_reward o (Some r)
              (EpsilonGreedyMetaAgent.cls self)).
    unfold TabularQLearningAgent.observe_reward.
    rewrite Hget. simpl. rewrite Hbest. simpl. by eexists.
Qed.
End epsilon_tabular.

Lemma epsilon_act_returns_offered_action_witness :
  (exists a : record,
     Some Examples.left = Some a /\ a ∈ [Examples.left; Examples.right] /\
     TabularQLearningAgent.self_prev_action
       (TabularQLearningAgent.mk (mk_script [] []) (Examples.cell 0)
          (Some Examples.left)
          (TabularQLearningAgent.value_function two_entries)
          (1 # 2)%Q (1 # 2)%Q)
     = Some a) /\
  Examples.cell 0 = Examples.cell 0 /\
  TabularQLearningAgent.value_function two_entries
  = TabularQLearningAgent.value_function two_entries /\
  (1 # 2)%Q = (1 # 2)%Q /\ (1 # 2)%Q = (1 # 2)%Q /\ (3 # 4)%Q = (3 # 4)%Q.
Proof.
  refine (epsilon_act_returns_offered_action 2 (Examples.cell 0)
            [Examples.left; Examples.right] None
            (EpsilonGreedyMetaAgent.mk two_entries (3 # 4)%Q)
            (EpsilonGreedyMetaAgent.mk
               (TabularQLearningAgent.mk (mk_script [] []) (Examples.cell 0)
                  (Some Examples.left)
                  (TabularQLearningAgent.value_function two_entries)
                  (1 # 2)%Q (1 # 2)%Q) (3 # 4)%Q)
            (Some Examples.left) _ _).
  - discriminate.
  - vm_compute. reflexivity.
Defined.

(** ** [GridWorld] *)

Lemma action_in_nil (action : option record) : action_in action [] = false.
Proof. by destruct action. Qed.

Lemma plain_get_actions_goal (g : GridWorld.fields) :
  GridWorld.at_goal g = true -> PlainGridWorld.get_actions g = Return [].
Proof.
  intros Hgoal. unfold PlainGridWorld.get_actions, GridWorld.get_actions.
  simpl. by rewrite Hgoal.
Qed.

(** X16.  A step of [GridWorld] is only taken before the goal; it keeps
    the position inside the grid, moves by at most one cell, leaves the
    grid itself as it is, and the reward is [1] exactly when the step ends
    on the goal and [-1] otherwise. *)
Theorem gridworld_react_invariant (action : option record)
    (g g' : GridWorld.fields) (reward : Z) :
  in_bounds g ->
  PlainGridWorld.react action g = Return (reward, g') ->
  GridWorld.at_goal g = false /\
  in_bounds g' /\ same_grid g g' /\
  Z.abs (GridWorld.row g' - GridWorld.row g)
  + Z.abs (GridWorld.col g' - GridWorld.col g) <= 1 /\
  reward = (if GridWorld.at_goal g' then 1 else -1).
Proof.
  intros [Hrow Hcol].
  unfold PlainGridWorld.react, GridWorld.react.
  destruct (GridWorld.at_goal g) eqn:Hgoal.
  { rewrite (plain_get_actions_goal g Hgoal). simpl.
    by rewrite action_in_nil. }
  destruct (PlainGridWorld.get_actions g) as [actions|e]; simpl; [|done].
  destruct (assert (action_in action actions)); simpl; [|done].
  destruct (action_name action) as [name|e]; simpl; [|done].
  unfold in_bounds, same_grid.
  repeat (match goal with
          | |- context [if value_eqb ?x ?y then _ else _] =>
              destruct (value_eqb x y)
          end);
    match goal with
    | |- context [GridWorld.at_goal ?h] => destruct (GridWorld.at_goal h) eqn:Hg'
    end;
    intros [= <- <-]; simpl; rewrite ?Hg'; repeat split; try done; try lia.
Qed.

(** X17.  At the goal [GridWorld] offers no action and rejects every
    action; inside a grid of more than one cell it offers an action at
    every other position, so the episode has ended exactly at the goal. *)
Theorem gridworld_end_of_episode (g : GridWorld.fields) :
  in_bounds g ->
  1 < GridWorld.width g \/ 1 < GridWorld.height g ->
  PlainGridWorld.end_of_episode g = Return (GridWorld.at_goal g) /\
  (GridWorld.at_goal g = true ->
   forall action, PlainGridWorld.react action g = Raise AssertionError).
Proof.
  intros [Hrow Hcol] Hsize. split.
  - unfold PlainGridWorld.end_of_episode, Environment.end_of_episode,
      PlainGridWorld.get_actions, GridWorld.get_actions. simpl.
    destruct (GridWorld.at_goal g); [done|]. simpl.
    destruct (0 <? GridWorld.row g) eqn:H1;
      destruct (GridWorld.row g <? GridWorld.height g - 1) eqn:H2;
      destruct (0 <? GridWorld.col g) eqn:H3;
      destruct (GridWorld.col g <? GridWorld.width g - 1) eqn:H4;
      simpl; try done.
    exfalso. apply Z.ltb_ge in H1, H2, H3, H4. lia.
  - intros Hgoal action. unfold PlainGridWorld.react, GridWorld.react.
    rewrite (plain_get_actions_goal g Hgoal). simpl.
    by rewrite action_in_nil.
Qed.

Lemma gridworld_end_of_episode_witness :
  PlainGridWorld.end_of_episode (GridWorld.mk 3 1 [0; 0] [0; 2] 0 2)
  = Return (GridWorld.at_goal (GridWorld.mk 3 1 [0; 0] [0; 2] 0 2)) /\
  (GridWorld.at_goal (GridWorld.mk 3 1 [0; 0] [0; 2] 0 2) = true ->
   forall action,
     PlainGridWorld.react action (GridWorld.mk 3 1 [0; 0] [0; 2] 0 2)
     = Raise AssertionError).
Proof.
  apply (gridworld_end_of_episode (GridWorld.mk 3 1 [0; 0] [0; 2] 0 2)).
  - unfold in_bounds. simpl. lia.
  - left. simpl. lia.
Defined.

Lemma gridworld_react_invariant_witness :
  GridWorld.at_goal (GridWorld.mk 3 1 [0; 0] [0; 2] 0 1) = false /\
  in_bounds (GridWorld.mk 3 1 [0; 0] [0; 2] 0 2) /\
  same_grid (GridWorld.mk 3 1 [0; 0] [0; 2] 0 1)
            (GridWorld.mk 3 1 [0; 0] [0; 2] 0 2) /\
  Z.abs (0 - 0) + Z.abs (2 - 1) <= 1 /\
  1 = (if GridWorld.at_goal (GridWorld.mk 3 1 [0; 0] [0; 2] 0 2)
       then 1 else -1).
Proof.
  apply (gridworld_react_invariant (Some Examples.right)
           (GridWorld.mk 3 1 [0; 0] [0; 2] 0 1)
           (GridWorld.mk 3 1 [0; 0] [0; 2] 0 2) 1).
  - unfold in_bounds. simpl. lia.
  - reflexivity.
Defined.

Lemma value_eqb_str (a b : string) : value_eqb (VStr a) (VStr b) = String.eqb a b.
Proof.
  unfold value_eqb. destruct (String.eqb_spec a b) as [->|Hne].
  - by rewrite bool_decide_eq_true_2.
  - rewrite bool_decide_eq_false_2; [done|]. by intros [= ->].
Qed.

(** Every action [GridWorld] offers is an action without keyword
    attributes. *)
Lemma plain_get_actions_names (g : GridWorld.fields) (actions : list record) :
  PlainGridWorld.get_actions g = Return actions ->
  GridWorld.at_goal g = false \/ actions = [].
Proof.
  unfold PlainGridWorld.get_actions, GridWorld.get_actions. simpl.
  destruct (GridWorld.at_goal g); [|by left]. intros [= <-]. by right.
Qed.

Lemma plain_get_actions_cases (g : GridWorld.fields) (actions : list record)
    (a : record) :
  PlainGridWorld.get_actions g = Return actions -> a ∈ actions ->
  (a = Action "up" [] /\ 0 < GridWorld.row g)
  \/ (a = Action "down" [] /\ GridWorld.row g < GridWorld.height g - 1)
  \/ (a = Action "left" [] /\ 0 < GridWorld.col g)
  \/ (a = Action "right" [] /\ GridWorld.col g < GridWorld.width g - 1).
Proof.
  unfold PlainGridWorld.get_actions, GridWorld.get_actions. simpl.
  destruct (GridWorld.at_goal g).
  { intros [= <-] Hin. inversion Hin. }
  intros [= <-] Hin.
  destruct (0 <? GridWorld.row g) eqn:H1;
    destruct (GridWorld.row g <? GridWorld.height g - 1) eqn:H2;
    destruct (0 <? GridWorld.col g) eqn:H3;
    destruct (GridWorld.col g <? GridWorld.width g - 1) eqn:H4;
    simpl in Hin;
    repeat (apply elem_of_cons in Hin as [->|Hin]);
    try (by inversion Hin);
    rewrite ?Z.ltb_lt in *; tauto.
Qed.

Lemma action_in_empty_kw (name : string) (a : record) (actions : list record) :
  (forall b, b ∈ a :: actions -> exists n, b = Action n []) ->
  action_in (Some (Action name [])) (a :: actions) = true.
Proof.
  intros Hall. destruct (Hall a) as [n ->]; [left|]. reflexivity.
Qed.

(** What [react] does with an action without keyword attributes while
    some action is on offer. *)
Lemma plain_react_name (g : GridWorld.fields) (actions : list record)
    (name : string) :
  PlainGridWorld.get_actions g = Return actions -> actions <> [] ->
  exists g' : GridWorld.fields,
    PlainGridWorld.react (Some (Action name [])) g
    = Return (if GridWorld.at_goal g' then 1 else -1, g') /\
    g' = (if String.eqb name "up"
          then GridWorld.mk (GridWorld.width g) (GridWorld.height g)
                 (GridWorld.start g) (GridWorld.goal g)
                 (Z.max 0 (GridWorld.row g - 1)) (GridWorld.col g)
          else if String.eqb name "down"
          then GridWorld.mk (GridWorld.width g) (GridWorld.height g)
                 (GridWorld.start g) (GridWorld.goal g)
                 (Z.min (GridWorld.height g - 1) (GridWorld.row g + 1))
                 (GridWorld.col g)
          else if String.eqb name "left"
          then GridWorld.mk (GridWorld.width g) (GridWorld.height g)
                 (GridWorld.start g) (GridWorld.goal g)
                 (GridWorld.row g) (Z.max 0 (GridWorld.col g - 1))
          else if String.eqb name "right"
          then GridWorld.mk (GridWorld.width g) (GridWorld.height g)
                 (GridWorld.start g) (GridWorld.goal g)
                 (GridWorld.row g)
                 (Z.min (GridWorld.width g - 1) (GridWorld.col g + 1))
          else g).
Proof.
  intros Hacts Hne. eexists. split; [|reflexivity].
  unfold PlainGridWorld.react, GridWorld.react. rewrite Hacts.
  cbn [mbind pyresult_bind].
  destruct actions as [|a rest]; [done|].
  rewrite action_in_empty_kw; last first.
  { intros b Hb.
    destruct (plain_get_actions_cases g _ b Hacts Hb)
      as [[-> _]|[[-> _]|[[-> _]|[-> _]]]]; by eexists. }
  simpl. rewrite !value_eqb_str.
  destruct (String.eqb name "up"); [by destruct (GridWorld.at_goal _)|].
  destruct (String.eqb name "down"); [by destruct (GridWorld.at_goal _)|].
  destruct (String.eqb name "left"); [by destruct (GridWorld.at_goal _)|].
  destruct (String.eqb name "right"); by destruct (GridWorld.at_goal _).
Qed.

(** X18.  [GridWorld] accepts every action it offers, and the step moves
    exactly one cell in the direction the action names; the grid itself is
    unchanged. *)
Theorem gridworld_offered_action_moves (g : GridWorld.fields)
    (actions : list record) (a : record) :
  PlainGridWorld.get_actions g = Return actions -> a ∈ actions ->
  exists (reward : Z) (g' : GridWorld.fields) (dr dc : Z),
    PlainGridWorld.react (Some a) g = Return (reward, g') /\
    same_grid g g' /\
    (a, dr, dc) ∈ [(Action "up" [], -1, 0); (Action "down" [], 1, 0);
                   (Action "left" [], 0, -1); (Action "right" [], 0, 1)] /\
    GridWorld.row g' = GridWorld.row g + dr /\
    GridWorld.col g' = GridWorld.col g + dc.
Proof.
  intros Hacts Hin.
  assert (actions <> []) as Hne by (intros ->; inversion Hin).
  destruct (plain_get_actions_cases g _ a Hacts Hin)
    as [[-> Hc]|[[-> Hc]|[[-> Hc]|[-> Hc]]]].
  - destruct (plain_react_name g actions "up" Hacts Hne) as (g' & Hrun & Hg').
    simpl in Hg'. subst g'. eexists _, _, (-1), 0.
    split; [exact Hrun|]. unfold same_grid. simpl.
    repeat split; try done; try lia; repeat constructor.
  - destruct (plain_react_name g actions "down" Hacts Hne) as (g' & Hrun & Hg').
    simpl in Hg'. subst g'. eexists _, _, 1, 0.
    split; [exact Hrun|]. unfold same_grid. simpl.
    repeat split; try done; try lia; repeat constructor.
  - destruct (plain_react_name g actions "left" Hacts Hne) as (g' & Hrun & Hg').
    simpl in Hg'. subst g'. eexists _, _, 0, (-1).
    split; [exact Hrun|]. unfold same_grid. simpl.
    repeat split; try done; try lia; repeat constructor.
  - destruct (plain_react_name g actions "right" Hacts Hne) as (g' & Hrun & Hg').
    simpl in Hg'. subst g'. eexists _, _, 0, 1.
    split; [exact Hrun|]. unfold same_grid. simpl.
    repeat split; try done; try lia; repeat constructor.
Qed.

Lemma record_eqb_kw_nil (name n : string) (kw : kwargs) :
  kw <> [] -> record_eqb (Action name kw) (Action n []) = false.
Proof. intros Hkw. destruct kw as [|kv kw]; [done|]. reflexivity. Qed.

(** X19.  The legality check of [GridWorld.react] compares actions with
    [==], which ignores names: while some action is on offer, every action
    without keyword attributes passes it, whatever its name.  A name that
    is none of the four directions leaves the position as it is and costs
    [-1].  An action with keyword attributes and [None] are rejected. *)
Theorem gridworld_assert_ignores_names (g : GridWorld.fields)
    (actions : list record) :
  PlainGridWorld.get_actions g = Return actions -> actions <> [] ->
  (forall name : string,
     exists (reward : Z) (g' : GridWorld.fields),
       PlainGridWorld.react (Some (Action name [])) g = Return (reward, g')) /\
  (forall name : string,
     name ∉ ["up"; "down"; "left"; "right"]%string ->
     PlainGridWorld.react (Some (Action name [])) g = Return (-1, g)) /\
  (forall (name : string) (kw : kwargs),
     kw <> [] ->
     PlainGridWorld.react (Some (Action name kw)) g = Raise AssertionError) /\
  PlainGridWorld.react None g = Raise AssertionError.
Proof.
  intros Hacts Hne. split; [|split; [|split]].
  - intros name.
    destruct (plain_react_name g actions name Hacts Hne) as (g' & Hrun & _).
    by eexists _, _.
  - intros name Hname.
    destruct (plain_react_name g actions name Hacts Hne) as (g' & Hrun & Hg').
    assert (String.eqb name "up" = false /\ String.eqb name "down" = false
            /\ String.eqb name "left" = false
            /\ String.eqb name "right" = false) as (E1 & E2 & E3 & E4).
    { repeat split; apply String.eqb_neq; intros ->; apply Hname; repeat constructor. }
    rewrite E1, E2, E3, E4 in Hg'. subst g'.
    destruct (plain_get_actions_names g actions Hacts) as [Hgoal|]; [|done].
    by rewrite Hgoal in Hrun.
  - intros name kw Hkw.
    unfold PlainGridWorld.react, GridWorld.react. rewrite Hacts. simpl.
    assert (record_in (Action name kw) actions = false) as ->; [|done].
    unfold record_in. apply not_true_iff_false. intros Hex.
    apply existsb_exists in Hex as (b & Hb & Heq).
    apply list_elem_of_In in Hb.
    destruct (plain_get_actions_cases g _ b Hacts Hb)
      as [[-> _]|[[-> _]|[[-> _]|[-> _]]]];
      by rewrite record_eqb_kw_nil in Heq.
  - unfold PlainGridWorld.react, GridWorld.react. by rewrite Hacts.
Qed.

Lemma gridworld_offered_action_moves_witness :
  exists (reward : Z) (g' : GridWorld.fields) (dr dc : Z),
    PlainGridWorld.react (Some Examples.right)
      (GridWorld.mk 3 1 [0; 0] [0; 2] 0 0) = Return (reward, g') /\
    same_grid (GridWorld.mk 3 1 [0; 0] [0; 2] 0 0) g' /\
    (Examples.right, dr, dc)
    ∈ [(Action "up" [], -1, 0); (Action "down" [], 1, 0);
       (Action "left" [], 0, -1); (Action "right" [], 0, 1)] /\
    GridWorld.row g' = 0 + dr /\
    GridWorld.col g' = 0 + dc.
Proof.
  apply (gridworld_offered_action_moves (GridWorld.mk 3 1 [0; 0] [0; 2] 0 0)
           [Examples.right] Examples.right).
  - reflexivity.
  - left.
Defined.

Lemma gridworld_assert_ignores_names_witness :
  (forall name : string,
     exists (reward : Z) (g' : GridWorld.fields),
       PlainGridWorld.react (Some (Action name []))
         (GridWorld.mk 3 1 [0; 0] [0; 2] 0 0) = Return (reward, g')) /\
  (forall name : string,
     name ∉ ["up"; "down"; "left"; "right"]%string ->
     PlainGridWorld.react (Some (Action name []))
       (GridWorld.mk 3 1 [0; 0] [0; 2] 0 0)
     = Return (-1, GridWorld.mk 3 1 [0; 0] [0; 2] 0 0)) /\
  (forall (name : string) (kw : kwargs),
     kw <> [] ->
     PlainGridWorld.react (Some (Action name kw))
       (GridWorld.mk 3 1 [0; 0] [0; 2] 0 0) = Raise AssertionError) /\
  PlainGridWorld.react None (GridWorld.mk 3 1 [0; 0] [0; 2] 0 0)
  = Raise AssertionError.
Proof.
  apply (gridworld_assert_ignores_names (GridWorld.mk 3 1 [0; 0] [0; 2] 0 0)
           [Examples.right]).
  - reflexivity.
  - discriminate.
Defined.

(** ** [GridWorld] under [gating_memory] *)

Lemma filter_not_prefixed_slots (p q : string) (j : nat)
    (memories : list value) :
  (forall i, String.prefix p (slot_key q i) = false) ->
  List.filter (not_prefixed p) (slot_items q j memories)
  = slot_items q j memories.
Proof.
  intros Hpq. apply filter_all, Forall_forall. intros [k v] Hin.
  unfold slot_items in Hin.
  apply elem_of_lookup_imap in Hin as (i & x & [= -> ->] & _).
  unfold not_prefixed. simpl. by rewrite Hpq.
Qed.

Lemma filter_not_prefixed_own_slots (p : string) (j : nat)
    (memories : list value) (rest : kwargs) :
  List.filter (not_prefixed p) (slot_items p j memories ++ rest)
  = List.filter (not_prefixed p) rest.
Proof.
  rewrite List.filter_app.
  rewrite (filter_none (not_prefixed p)); [done|].
  eapply Forall_impl; [apply slot_items_prefixed|].
  intros kv Hkv. unfold not_prefixed, prefixed in *. by rewrite Hkv.
Qed.

Lemma gated_state (self : GatedGridWorld.t) :
  GatedGridWorld.get_state self
  = Return (Some (State (slot_items "memory_" 0 (GatedGridWorld.memories self)
                         ++ grid_items (GatedGridWorld.grid self)))).
Proof.
  unfold GatedGridWorld.get_state, GatingMemoryMetaEnvironment.get_state,
    GridWorld.get_state. simpl.
  by rewrite augment_state_spec.
Qed.

Lemma gated_observation (self : GatedGridWorld.t) :
  GatedGridWorld.get_observation self
  = Return (Some (State (slot_items "memory_" 0 (GatedGridWorld.memories self)
                         ++ grid_items (GatedGridWorld.grid self)))).
Proof.
  unfold GatedGridWorld.get_observation,
    GatingMemoryMetaEnvironment.get_observation, GridWorld.get_observation.
  rewrite gated_state. cbn [mbind pyresult_bind]. rewrite augment_state_spec.
  cbn [mbind pyresult_bind attributes].
  by rewrite filter_not_prefixed_own_slots.
Qed.

(** X20.  Under [gating_memory] the observation and the state of a
    [GridWorld] are the same record: the memory slots, in order, followed
    by [row] and [col].  [GridWorld.get_observation] returns
    [self.get_state()], which is already augmented; augmenting it again
    replaces the slot attributes. *)
Theorem gated_observation_is_state (self : GatedGridWorld.t) :
  GatedGridWorld.get_state self
  = Return (Some (State (slot_items "memory_" 0 (GatedGridWorld.memories self)
                         ++ grid_items (GatedGridWorld.grid self)))) /\
  GatedGridWorld.get_observation self = GatedGridWorld.get_state self.
Proof.
  split; [apply gated_state|]. by rewrite gated_observation, gated_state.
Qed.

(** The [gate] actions over the state of a [GridWorld]: [row] and [col]
    for every slot. *)
Lemma gated_gate_actions (n : nat) (memories : list value)
    (g : GridWorld.fields) :
  gate_actions n (State (slot_items "memory_" 0 memories ++ grid_items g))
  = flat_map (fun slot_num => [gate_action slot_num "row";
                               gate_action slot_num "col"]) (seq 0 n).
Proof.
  unfold gate_actions, iter, PyDict.items. simpl attributes.
  unfold GatingMemoryMetaEnvironment.ATTR_PREFIX.
  by rewrite filter_not_prefixed_own_slots.
Qed.

Lemma gated_get_actions (self : GatedGridWorld.t) (base : list record) :
  PlainGridWorld.get_actions (GatedGridWorld.grid self) = Return base ->
  GatedGridWorld.get_actions self
  = Return (match base with
            | [] => []
            | _ => base
                   ++ flat_map (fun slot_num => [gate_action slot_num "row";
                                                 gate_action slot_num "col"])
                        (seq 0 (length (GatedGridWorld.memories self)))
            end).
Proof.
  intros Hbase.
  unfold GatedGridWorld.get_actions, GatingMemoryMetaEnvironment.get_actions.
  change (GridWorld.get_actions self)
    with (PlainGridWorld.get_actions (GatedGridWorld.grid self)).
  rewrite Hbase. cbn [mbind pyresult_bind].
  destruct base as [|a rest]; [done|].
  unfold GridWorld.get_observation. rewrite gated_state.
  cbn [mbind pyresult_bind]. rewrite append_gates_spec.
  by rewrite gated_gate_actions.
Qed.

Lemma record_in_elem (a : record) (l : list record) :
  a ∈ l -> record_eqb a a = true -> record_in a l = true.
Proof.
  intros Hin Heq. unfold record_in. apply existsb_exists.
  exists a. split; [by apply list_elem_of_In|done].
Qed.

(** [GridWorld.react] on the decorated object, for an action that passes
    the check against both action lists: the step of the undecorated
    [GridWorld] on the grid, the memory untouched. *)
Lemma gated_super_react (self : GatedGridWorld.t) (action : option record)
    (actions base : list record) :
  GatedGridWorld.get_actions self = Return actions ->
  action_in action actions = true ->
  PlainGridWorld.get_actions (GatedGridWorld.grid self) = Return base ->
  action_in action base = true ->
  GridWorld.react GatedGridWorld.get_actions action self
  = match PlainGridWorld.react action (GatedGridWorld.grid self) with
    | Return (r, g') =>
        Return (r, GatedGridWorld.mk g' (GatedGridWorld.reward self)
                     (GatedGridWorld.memories self))
    | Raise e => Raise e
    end.
Proof.
  intros Hacts Hin Hbase Hinb.
  unfold PlainGridWorld.react, GridWorld.react.
  rewrite Hacts, Hbase. cbn [mbind pyresult_bind]. rewrite Hin, Hinb.
  cbn [mbind pyresult_bind assert].
  destruct (action_name action) as [name|e]; [|done].
  cbn [mbind pyresult_bind]. simpl.
  repeat (match goal with
          | |- context [if value_eqb ?x ?y then _ else _] =>
              destruct (value_eqb x y)
          end);
    by match goal with
       | |- context [GridWorld.at_goal ?h] => destruct (GridWorld.at_goal h)
       end.
Qed.

(** X21.  The decorator forwards the actions of the decorated class
    unchanged: for an action [GridWorld] offers, [react] on the decorated
    object takes the step of the undecorated [GridWorld], returns its
    reward and leaves the memory and the internal reward as they are. *)
Theorem gated_react_forwards (self : GatedGridWorld.t) (base : list record)
    (a : record) :
  PlainGridWorld.get_actions (GatedGridWorld.grid self) = Return base ->
  a ∈ base ->
  exists (r : Z) (g' : GridWorld.fields),
    PlainGridWorld.react (Some a) (GatedGridWorld.grid self) = Return (r, g') /\
    GatedGridWorld.react (Some a) self
    = Return (r, GatedGridWorld.mk g' (GatedGridWorld.reward self)
                   (GatedGridWorld.memories self)).
Proof.
  intros Hbase Hin.
  assert (base <> []) as Hne by (intros ->; inversion Hin).
  assert (exists name, a = Action name [] /\ name <> "gate"%string)
    as (name & -> & Hname).
  { destruct (plain_get_actions_cases _ _ a Hbase Hin)
      as [[-> _]|[[-> _]|[[-> _]|[-> _]]]]; by eexists. }
  destruct (plain_react_name _ base name Hbase Hne) as (g' & Hrun & _).
  eexists _, g'. split; [exact Hrun|].
  unfold GatedGridWorld.react, GatingMemoryMetaEnvironment.react.
  cbn [action_name mbind pyresult_bind]. rewrite value_eqb_str.
  apply String.eqb_neq in Hname. rewrite Hname.
  rewrite (gated_super_react self _ _ base (gated_get_actions self base Hbase));
    [by rewrite Hrun| |done|].
  - destruct base as [|b rest]; [done|].
    unfold action_in. apply record_in_elem; [|done].
    apply elem_of_app. by left.
  - unfold action_in. by apply record_in_elem.
Qed.

Lemma gated_react_forwards_witness :
  exists (r : Z) (g' : GridWorld.fields),
    PlainGridWorld.react (Some Examples.right)
      (GatedGridWorld.grid (Examples.corridor 0)) = Return (r, g') /\
    GatedGridWorld.react (Some Examples.right) (Examples.corridor 0)
    = Return (r, GatedGridWorld.mk g'
                   (GatedGridWorld.reward (Examples.corridor 0))
                   (GatedGridWorld.memories (Examples.corridor 0))).
Proof.
  apply (gated_react_forwards (Examples.corridor 0) [Examples.right]
           Examples.right).
  - reflexivity.
  - left.
Defined.

Lemma gated_super_observation (self : GatedGridWorld.t) :
  GridWorld.get_observation GatedGridWorld.get_state self
  = Return (Some (State (slot_items "memory_" 0 (GatedGridWorld.memories self)
                         ++ grid_items (GatedGridWorld.grid self)))).
Proof. unfold GridWorld.get_observation. apply gated_state. Qed.

(** What [react] does with a [gate] action, whatever the slot and the
    attribute are. *)
Lemma gated_react_gate (self : GatedGridWorld.t) (slot : Z) (attr : string) :
  GatedGridWorld.react (Some (Examples.gate slot attr)) self
  = (v ← getattr (State (slot_items "memory_" 0 (GatedGridWorld.memories self)
                         ++ grid_items (GatedGridWorld.grid self))) attr;
     mem ← list_setitem (GatedGridWorld.memories self) (VInt slot) v;
     Return (GatedGridWorld.reward self,
             GatedGridWorld.mk (GatedGridWorld.grid self)
               (GatedGridWorld.reward self) mem)).
Proof.
  unfold GatedGridWorld.react, GatingMemoryMetaEnvironment.react, Examples.gate.
  cbn [action_name mbind pyresult_bind]. rewrite value_eqb_str.
  cbn [String.eqb Ascii.eqb Bool.eqb]. rewrite gated_super_observation.
  reflexivity.
Qed.

Lemma getattr_grid_items (memories : list value) (g : GridWorld.fields)
    (attr : string) (v : value) :
  (attr, v) ∈ grid_items g ->
  getattr (State (slot_items "memory_" 0 memories ++ grid_items g)) attr
  = Return v.
Proof.
  intros Hin.
  assert (String.prefix "memory_" attr = false
          /\ PyDict.get String.eqb (grid_items g) attr = Some v) as [Hnp Hget].
  { unfold grid_items in *.
    apply elem_of_cons in Hin as [[= -> ->]|Hin]; [done|].
    apply list_elem_of_singleton in Hin as [= -> ->]. done. }
  unfold getattr. simpl attributes. rewrite get_app.
  rewrite get_slot_items_None; [by rewrite Hget|].
  intros i _ Heq. rewrite Heq in Hnp. by rewrite slot_key_prefixed in Hnp.
Qed.

(** X22.  Gating an offered attribute into an existing slot: the action
    [gate(slot, attribute)] that [get_actions] offers writes the current
    value of the attribute into the slot, returns the internal reward and
    leaves the grid alone; the next observation shows the value under
    [memory_<slot>] and shows [row] and [col] as before. *)
Theorem gated_gate_then_observe (self : GatedGridWorld.t) (slot : nat)
    (attr : string) (v : value) :
  (slot < length (GatedGridWorld.memories self))%nat ->
  (attr, v) ∈ grid_items (GatedGridWorld.grid self) ->
  exists (self' : GatedGridWorld.t) (obs' : record),
    GatedGridWorld.react (Some (gate_action slot attr)) self
    = Return (GatedGridWorld.reward self, self') /\
    self' = GatedGridWorld.mk (GatedGridWorld.grid self)
              (GatedGridWorld.reward self)
              (<[slot := v]> (GatedGridWorld.memories self)) /\
    GatedGridWorld.get_observation self' = Return (Some obs') /\
    getattr obs' (slot_key "memory_" slot) = Return v /\
    getattr obs' "row" = Return (VInt (GridWorld.row (GatedGridWorld.grid self))) /\
    getattr obs' "col" = Return (VInt (GridWorld.col (GatedGridWorld.grid self))).
Proof.
  intros Hslot Hattr. eexists _, _. split; [|split; [reflexivity|]].
  - change (gate_action slot attr) with (Examples.gate (Z.of_nat slot) attr).
    rewrite gated_react_gate, (getattr_grid_items _ _ attr v Hattr).
    cbn [mbind pyresult_bind]. unfold list_setitem, list_index.
    assert ((0 <=? Z.of_nat slot)
            && (Z.of_nat slot <? Z.of_nat (length (GatedGridWorld.memories self)))
            = true) as ->.
    { apply andb_true_iff. split; [apply Z.leb_le|apply Z.ltb_lt]; lia. }
    cbn [mbind pyresult_bind]. by rewrite Nat2Z.id.
  - split.
    + apply gated_observation.
    + simpl GatedGridWorld.memories. simpl GatedGridWorld.grid.
      split; [|split].
      * unfold getattr. simpl attributes. rewrite get_app.
        pose proof (get_slot_items "memory_" 0
                      (<[slot := v]> (GatedGridWorld.memories self)) slot v) as Hg.
        simpl in Hg. rewrite Hg; [done|].
        by apply list_lookup_insert_eq.
      * apply getattr_grid_items. left.
      * apply getattr_grid_items. right. left.
Qed.

Lemma gated_gate_then_observe_witness :
  exists (self' : GatedGridWorld.t) (obs' : record),
    GatedGridWorld.react (Some (gate_action 1 "col")) (Examples.corridor 1)
    = Return (GatedGridWorld.reward (Examples.corridor 1), self') /\
    self' = GatedGridWorld.mk (GatedGridWorld.grid (Examples.corridor 1))
              (GatedGridWorld.reward (Examples.corridor 1))
              (<[1%nat := VInt 1]> (GatedGridWorld.memories (Examples.corridor 1))) /\
    GatedGridWorld.get_observation self' = Return (Some obs') /\
    getattr obs' (slot_key "memory_" 1) = Return (VInt 1) /\
    getattr obs' "row"
    = Return (VInt (GridWorld.row (GatedGridWorld.grid (Examples.corridor 1)))) /\
    getattr obs' "col"
    = Return (VInt (GridWorld.col (GatedGridWorld.grid (Examples.corridor 1)))).
Proof.
  apply (gated_gate_then_observe (Examples.corridor 1) 1 "col" (VInt 1)).
  - simpl. lia.
  - right. left.
Defined.


(** X24.  Resetting the decorated [GridWorld], or starting a new episode,
    gives the object a fresh construction with the same parameters gives:
    the position at the start and every slot empty. *)
Theorem gated_reset_is_construction (self : GatedGridWorld.t) :
  let g := GatedGridWorld.grid self in
  let fresh :=
    GatedGridWorld.init
      (Z.of_nat (length (GatedGridWorld.memories self)))
      (GatedGridWorld.reward self)
      (GridWorld.width g) (GridWorld.height g)
      (GridWorld.start g) (GridWorld.goal g) in
  GatedGridWorld.reset self = fresh /\
  GatedGridWorld.start_new_episode self = fresh.
Proof.
  intros g fresh. subst fresh g.
  unfold GatedGridWorld.reset, GatingMemoryMetaEnvironment.reset,
    GridWorld.reset, GatedGridWorld.start_new_episode,
    GatingMemoryMetaEnvironment.start_new_episode,
    GridWorld.start_new_episode, GatedGridWorld.init, GridWorld.init,
    GatingMemoryMetaEnvironment.fresh.
  rewrite Nat2Z.id. simpl.
  destruct (GridWorld.start (GatedGridWorld.grid self)) as [|r [|c rest]];
    simpl; try done.
  by rewrite !length_replicate.
Qed.

(** ** [fixed_long_term_memory]: the action set *)

Lemma append_stores_spec (n : nat) (observations : record)
    (actions : list record) :
  LongTermMemoryMetaEnvironment.append_stores n observations actions
  = actions ++ store_actions n observations.
Proof.
  unfold LongTermMemoryMetaEnvironment.append_stores, store_actions.
  apply fold_left_app_flat_map. intros acc slot_num.
  rewrite (fold_left_app_flat_map _
             (fun kv => if String.prefix LongTermMemoryMetaEnvironment.WM_PREFIX (fst kv)
                        then [] else [store_action slot_num (fst kv)])).
  - f_equal. apply flat_map_singleton_filter.
  - intros acc' kv. destruct (String.prefix _ _); [by rewrite app_nil_r|done].
Qed.

Lemma flat_map_singletons {A B : Type} (g : A -> B) (l : list A) :
  flat_map (fun x => [g x]) l = map g l.
Proof. induction l as [|x l IH]; simpl; [done|]. by rewrite IH. Qed.

Lemma append_retrieves_spec (n_wm n_ltm : nat) (actions : list record) :
  LongTermMemoryMetaEnvironment.append_retrieves n_wm n_ltm actions
  = actions ++ retrieve_actions n_wm n_ltm.
Proof.
  unfold LongTermMemoryMetaEnvironment.append_retrieves, retrieve_actions.
  apply fold_left_app_flat_map. intros acc wm_slot_num.
  rewrite (fold_left_app_flat_map _
             (fun ltm_slot_num => [retrieve_action wm_slot_num ltm_slot_num])).
  - rewrite flat_map_singletons. reflexivity.
  - done.
Qed.

(** X25.  The action set under [fixed_long_term_memory], for every
    decorated class: nothing when the decorated class offers nothing; its
    actions alone when it has no observation; otherwise its actions, then
    one [store] action per long-term slot and attribute that is not a
    working-memory attribute, then one [retrieve] action per pair of a
    working-memory slot and a long-term slot. *)
Theorem ltm_get_actions {R Self : Type}
    `{LongTermMemoryMetaEnvironment.Has R Self}
    (super_get_observation : Self -> pyresult (option record))
    (super_get_actions : Self -> pyresult (list record)) (self : Self) :
  let n_wm := length (LongTermMemoryMetaEnvironment.wm self) in
  let n_ltm := length (LongTermMemoryMetaEnvironment.ltm self) in
  (super_get_actions self = Return [] ->
   LongTermMemoryMetaEnvironment.get_actions
     super_get_observation super_get_actions self = Return [])
  /\
  (forall base_actions : list record,
     super_get_actions self = Return base_actions ->
     base_actions <> [] ->
     super_get_observation self = Return None ->
     LongTermMemoryMetaEnvironment.get_actions
       super_get_observation super_get_actions self = Return base_actions)
  /\
  (forall (base_actions : list record) (observation : record),
     super_get_actions self = Return base_actions ->
     base_actions <> [] ->
     super_get_observation self = Return (Some observation) ->
     LongTermMemoryMetaEnvironment.get_actions
       super_get_observation super_get_actions self
     = Return (base_actions ++ store_actions n_ltm observation
               ++ retrieve_actions n_wm n_ltm)
     /\ length (store_actions n_ltm observation)
        = (n_ltm
           * length (List.filter
                       (not_prefixed LongTermMemoryMetaEnvironment.WM_PREFIX)
                       (attributes observation)))%nat
     /\ length (retrieve_actions n_wm n_ltm) = (n_wm * n_ltm)%nat).
Proof.
  intros n_wm n_ltm. split; [|split].
  - intros Hacts. unfold LongTermMemoryMetaEnvironment.get_actions.
    by rewrite Hacts.
  - intros base Hacts Hne Hobs.
    unfold LongTermMemoryMetaEnvironment.get_actions.
    rewrite Hacts. cbn [mbind pyresult_bind].
    destruct base as [|a rest]; [done|]. by rewrite Hobs.
  - intros base observation Hacts Hne Hobs. split; [|split].
    + unfold LongTermMemoryMetaEnvironment.get_actions.
      rewrite Hacts. cbn [mbind pyresult_bind].
      destruct base as [|a rest]; [done|].
      rewrite Hobs. cbn [mbind pyresult_bind].
      by rewrite append_retrieves_spec, append_stores_spec, <- app_assoc.
    + unfold store_actions.
      rewrite (flat_map_length_const _ _
                 (length (List.filter
                            (not_prefixed LongTermMemoryMetaEnvironment.WM_PREFIX)
                            (attributes observation)))).
      * by rewrite length_seq.
      * intros slot_num. by rewrite length_map.
    + unfold retrieve_actions.
      rewrite (flat_map_length_const _ _ n_ltm).
      * by rewrite length_seq.
      * intros wm_slot_num. by rewrite length_map, length_seq.
Qed.

Lemma ltm_get_actions_witness :
  LongTermGridWorld.get_actions (Examples.ltm_corridor 2) = Return [] /\
  LongTermGridWorld.get_actions (Examples.ltm_corridor 0)
  = Return ([Examples.right]
            ++ [store_action 0 "ltm_0"; store_action 0 "row";
                store_action 0 "col"]
            ++ [retrieve_action 0 0]).
Proof.
  split.
  - exact (proj1 (ltm_get_actions
                    (GridWorld.get_observation LongTermGridWorld.get_state)
                    GridWorld.get_actions (Examples.ltm_corridor 2)) eq_refl).
  - refine (proj1 (proj2 (proj2 (ltm_get_actions
                    (GridWorld.get_observation LongTermGridWorld.get_state)
                    GridWorld.get_actions (Examples.ltm_corridor 0)))
                    [Examples.right]
                    (State [("ltm_0"%string, VNone); ("wm_0"%string, VNone);
                            ("row"%string, VInt 0); ("col"%string, VInt 0)])
                    eq_refl _ eq_refl)).
    discriminate.
Defined.

(** ** [GridWorld] under [fixed_long_term_memory] *)

Lemma prefix_wm_ltm (i : nat) : String.prefix "wm_" (slot_key "ltm_" i) = false.
Proof. reflexivity. Qed.

Lemma prefix_ltm_wm (i : nat) : String.prefix "ltm_" (slot_key "wm_" i) = false.
Proof. reflexivity. Qed.

Lemma ltm_state (self : LongTermGridWorld.t) :
  LongTermGridWorld.get_state self
  = Return (Some (State (slot_items "ltm_" 0 (LongTermGridWorld.ltm self)
                         ++ slot_items "wm_" 0 (LongTermGridWorld.wm self)
                         ++ grid_items (LongTermGridWorld.grid self)))).
Proof.
  unfold LongTermGridWorld.get_state, LongTermMemoryMetaEnvironment.get_state,
    GridWorld.get_state.
  cbn [mbind pyresult_bind]. rewrite augment_state_spec.
  cbn [mbind pyresult_bind]. rewrite augment_state_spec.
  cbn [mbind pyresult_bind attributes].
  unfold LongTermMemoryMetaEnvironment.LTM_PREFIX. rewrite List.filter_app.
  rewrite (filter_not_prefixed_slots "ltm_" "wm_") by apply prefix_ltm_wm.
  reflexivity.
Qed.

Lemma ltm_observation (self : LongTermGridWorld.t) :
  LongTermGridWorld.get_observation self
  = Return (Some (State (slot_items "wm_" 0 (LongTermGridWorld.wm self)
                         ++ slot_items "ltm_" 0 (LongTermGridWorld.ltm self)
                         ++ grid_items (LongTermGridWorld.grid self)))).
Proof.
  unfold LongTermGridWorld.get_observation,
    LongTermMemoryMetaEnvironment.get_observation, GridWorld.get_observation.
  rewrite ltm_state. cbn [mbind pyresult_bind]. rewrite augment_state_spec.
  cbn [mbind pyresult_bind attributes].
  unfold LongTermMemoryMetaEnvironment.WM_PREFIX.
  rewrite List.filter_app.
  rewrite (filter_not_prefixed_slots "wm_" "ltm_") by apply prefix_wm_ltm.
  by rewrite filter_not_prefixed_own_slots.
Qed.

Lemma get_skip_slots (p : string) (j : nat) (memories : list value)
    (rest : kwargs) (k : string) :
  String.prefix p k = false ->
  PyDict.get String.eqb (slot_items p j memories ++ rest) k
  = PyDict.get String.eqb rest k.
Proof.
  intros Hk. rewrite get_app, get_slot_items_None; [done|].
  intros i _ Heq. rewrite Heq in Hk. by rewrite slot_key_prefixed in Hk.
Qed.

(** X26.  With [GridWorld] as the decorated class the observation under
    [fixed_long_term_memory] carries the long-term slots as well as the
    working-memory slots: [GridWorld.get_observation] returns
    [self.get_state()], which holds the [ltm_] attributes, and stripping
    the [wm_] attributes leaves them in.  Every long-term slot can be read
    off the observation. *)
Theorem ltm_observation_exposes_long_term_memory (self : LongTermGridWorld.t) :
  exists obs : record,
    LongTermGridWorld.get_observation self = Return (Some obs) /\
    attributes obs
    = slot_items "wm_" 0 (LongTermGridWorld.wm self)
      ++ slot_items "ltm_" 0 (LongTermGridWorld.ltm self)
      ++ grid_items (LongTermGridWorld.grid self) /\
    LongTermGridWorld.get_state self
    = Return (Some (State (slot_items "ltm_" 0 (LongTermGridWorld.ltm self)
                           ++ slot_items "wm_" 0 (LongTermGridWorld.wm self)
                           ++ grid_items (LongTermGridWorld.grid self)))) /\
    (forall i x, LongTermGridWorld.ltm self !! i = Some x ->
                 getattr obs (slot_key "ltm_" i) = Return x) /\
    (forall i x, LongTermGridWorld.wm self !! i = Some x ->
                 getattr obs (slot_key "wm_" i) = Return x).
Proof.
  eexists. split; [apply ltm_observation|]. split; [done|].
  split; [apply ltm_state|]. unfold getattr. simpl attributes. split.
  - intros i x Hi. rewrite get_skip_slots by apply prefix_wm_ltm.
    rewrite get_app.
    pose proof (get_slot_items "ltm_" 0 _ i x Hi) as Hg. simpl in Hg.
    by rewrite Hg.
  - intros i x Hi. rewrite get_app.
    pose proof (get_slot_items "wm_" 0 _ i x Hi) as Hg. simpl in Hg.
    by rewrite Hg.
Qed.

Lemma ltm_super_observation (self : LongTermGridWorld.t) :
  GridWorld.get_observation LongTermGridWorld.get_state self
  = Return (Some (State (slot_items "ltm_" 0 (LongTermGridWorld.ltm self)
                         ++ slot_items "wm_" 0 (LongTermGridWorld.wm self)
                         ++ grid_items (LongTermGridWorld.grid self)))).
Proof. unfold GridWorld.get_observation. apply ltm_state. Qed.

Lemma list_index_nat {X : Type} (l : list X) (i : nat) :
  (i < length l)%nat -> list_index l (VInt (Z.of_nat i)) = Return i.
Proof.
  intros Hi. unfold list_index.
  assert ((0 <=? Z.of_nat i) && (Z.of_nat i <? Z.of_nat (length l)) = true)
    as ->.
  { apply andb_true_iff. split; [apply Z.leb_le|apply Z.ltb_lt]; lia. }
  by rewrite Nat2Z.id.
Qed.

(** What [react] does with a [store] and with a [retrieve] action. *)
Lemma ltm_react_store (self : LongTermGridWorld.t) (slot : Z) (attr : string) :
  LongTermGridWorld.react (Some (Examples.store slot attr)) self
  = (v ← getattr (State (slot_items "ltm_" 0 (LongTermGridWorld.ltm self)
                         ++ slot_items "wm_" 0 (LongTermGridWorld.wm self)
                         ++ grid_items (LongTermGridWorld.grid self))) attr;
     mem ← list_setitem (LongTermGridWorld.ltm self) (VInt slot) v;
     Return (LongTermGridWorld.reward self,
             LongTermGridWorld.mk (LongTermGridWorld.grid self)
               (LongTermGridWorld.reward self)
               (LongTermGridWorld.wm self) mem)).
Proof.
  unfold LongTermGridWorld.react, LongTermMemoryMetaEnvironment.react,
    Examples.store.
  cbn [action_name mbind pyresult_bind]. rewrite value_eqb_str.
  cbn [String.eqb Ascii.eqb Bool.eqb]. rewrite ltm_super_observation.
  reflexivity.
Qed.

Lemma ltm_react_retrieve (self : LongTermGridWorld.t) (wm_slot ltm_slot : Z) :
  LongTermGridWorld.react (Some (Examples.retrieve wm_slot ltm_slot)) self
  = (v ← list_getitem (LongTermGridWorld.ltm self) (VInt ltm_slot);
     mem ← list_setitem (LongTermGridWorld.wm self) (VInt wm_slot) v;
     Return (LongTermGridWorld.reward self,
             LongTermGridWorld.mk (LongTermGridWorld.grid self)
               (LongTermGridWorld.reward self)
               mem (LongTermGridWorld.ltm self))).
Proof. reflexivity. Qed.

(** X27.  Store, then retrieve.  On a [GridWorld] decorated with
    [fixed_long_term_memory], [store(j, attribute)] followed by
    [retrieve(i, j)] leaves the attribute's value in long-term slot [j]
    and in working-memory slot [i]; both steps return the internal reward
    and leave the grid and all other slots alone; the next observation
    shows the value under [wm_<i>]. *)
Theorem ltm_store_then_retrieve (self : LongTermGridWorld.t) (i j : nat)
    (attr : string) (v : value) :
  (i < length (LongTermGridWorld.wm self))%nat ->
  (j < length (LongTermGridWorld.ltm self))%nat ->
  (attr, v) ∈ grid_items (LongTermGridWorld.grid self) ->
  exists (s1 s2 : LongTermGridWorld.t) (obs : record),
    LongTermGridWorld.react (Some (store_action j attr)) self
    = Return (LongTermGridWorld.reward self, s1) /\
    LongTermGridWorld.react (Some (retrieve_action i j)) s1
    = Return (LongTermGridWorld.reward self, s2) /\
    s2 = LongTermGridWorld.mk (LongTermGridWorld.grid self)
           (LongTermGridWorld.reward self)
           (<[i := v]> (LongTermGridWorld.wm self))
           (<[j := v]> (LongTermGridWorld.ltm self)) /\
    LongTermGridWorld.get_observation s2 = Return (Some obs) /\
    getattr obs (slot_key "wm_" i) = Return v.
Proof.
  intros Hi Hj Hattr.
  assert (String.prefix "ltm_" attr = false /\ String.prefix "wm_" attr = false
          /\ PyDict.get String.eqb (grid_items (LongTermGridWorld.grid self)) attr
             = Some v) as (Hnl & Hnw & Hget).
  { unfold grid_items in *.
    apply elem_of_cons in Hattr as [[= -> ->]|Hattr]; [done|].
    apply list_elem_of_singleton in Hattr as [= -> ->]. done. }
  assert (getattr (State (slot_items "ltm_" 0 (LongTermGridWorld.ltm self)
                          ++ slot_items "wm_" 0 (LongTermGridWorld.wm self)
                          ++ grid_items (LongTermGridWorld.grid self))) attr
          = Return v) as Hread.
  { unfold getattr. simpl attributes.
    by rewrite !get_skip_slots, Hget by done. }
  eexists _, _, _. split; [|split; [|split; [reflexivity|split]]].
  - change (store_action j attr) with (Examples.store (Z.of_nat j) attr).
    rewrite ltm_react_store, Hread. cbn [mbind pyresult_bind].
    unfold list_setitem. rewrite list_index_nat by done. reflexivity.
  - change (retrieve_action i j)
      with (Examples.retrieve (Z.of_nat i) (Z.of_nat j)).
    rewrite ltm_react_retrieve. simpl LongTermGridWorld.ltm.
    simpl LongTermGridWorld.wm. simpl LongTermGridWorld.reward.
    simpl LongTermGridWorld.grid.
    unfold list_getitem, list_setitem.
    rewrite (list_index_nat (<[j := v]> (LongTermGridWorld.ltm self)) j)
      by (by rewrite length_insert).
    cbn [mbind pyresult_bind].
    rewrite list_lookup_insert_eq by done.
    rewrite (list_index_nat (LongTermGridWorld.wm self) i) by done.
    reflexivity.
  - apply ltm_observation.
  - unfold getattr. simpl attributes. simpl LongTermGridWorld.wm.
    rewrite get_app.
    pose proof (get_slot_items "wm_" 0
                  (<[i := v]> (LongTermGridWorld.wm self)) i v) as Hg.
    simpl in Hg. rewrite Hg; [done|]. by apply list_lookup_insert_eq.
Qed.

Lemma ltm_store_then_retrieve_witness :
  exists (s1 s2 : LongTermGridWorld.t) (obs : record),
    LongTermGridWorld.react (Some (store_action 0 "col"))
      (Examples.ltm_corridor 1)
    = Return (LongTermGridWorld.reward (Examples.ltm_corridor 1), s1) /\
    LongTermGridWorld.react (Some (retrieve_action 0 0)) s1
    = Return (LongTermGridWorld.reward (Examples.ltm_corridor 1), s2) /\
    s2 = LongTermGridWorld.mk (LongTermGridWorld.grid (Examples.ltm_corridor 1))
           (LongTermGridWorld.reward (Examples.ltm_corridor 1))
           (<[0%nat := VInt 1]> (LongTermGridWorld.wm (Examples.ltm_corridor 1)))
           (<[0%nat := VInt 1]> (LongTermGridWorld.ltm (Examples.ltm_corridor 1))) /\
    LongTermGridWorld.get_observation s2 = Return (Some obs) /\
    getattr obs (slot_key "wm_" 0) = Return (VInt 1).
Proof.
  apply (ltm_store_then_retrieve (Examples.ltm_corridor 1) 0 0 "col" (VInt 1)).
  - simpl. lia.
  - simpl. lia.
  - right. left.
Defined.

(** ** [SimpleTMaze] *)

Section tmaze.
Context {G F : Type} `{RandomSource G F}.
Implicit Types m : SimpleTMaze.fields G.

Lemma tmaze_get_actions_cases m :
  PlainTMaze.get_actions m
  = Return (if SimpleTMaze.x m =? 0
            then if SimpleTMaze.y m <? SimpleTMaze.length m
                 then [Action "up" []]
                 else if SimpleTMaze.y m =? SimpleTMaze.length m
                      then [Action "left" []; Action "right" []]
                      else []
            else []).
Proof.
  unfold PlainTMaze.get_actions, SimpleTMaze.get_actions. simpl.
  destruct (SimpleTMaze.x m =? 0); [|done].
  destruct (SimpleTMaze.y m <? SimpleTMaze.length m); [done|].
  by destruct (SimpleTMaze.y m =? SimpleTMaze.length m).
Qed.

Lemma tmaze_react_up m :
  SimpleTMaze.x m = 0 -> SimpleTMaze.y m < SimpleTMaze.length m ->
  PlainTMaze.react (Some (Action "up" [])) m
  = Return
      (if SimpleTMaze.y m + 1 =? SimpleTMaze.length m
       then if 0 =? SimpleTMaze.goal_x m then 10%Q
            else if 0 =? - SimpleTMaze.goal_x m then (-10)%Q else (-1)%Q
       else (-1)%Q,
       SimpleTMaze.mk (SimpleTMaze.length m) (SimpleTMaze.hint_pos m) 0
         (SimpleTMaze.y m + 1) (SimpleTMaze.init_goal_x m)
         (SimpleTMaze.goal_x m) (SimpleTMaze.rng m)).
Proof.
  intros Ex Ey. unfold PlainTMaze.react, SimpleTMaze.react.
  rewrite tmaze_get_actions_cases. rewrite Ex.
  apply Z.ltb_lt in Ey. rewrite Ey.
  change (0 =? 0) with true.
  cbn [mbind pyresult_bind action_name SimpleTMaze.maze
       SimpleTMaze.set_maze PlainTMaze.has_maze].
  replace (action_in (Some (Action "up" [])) [Action "up" []]) with true
    by (vm_compute; reflexivity).
  rewrite !value_eqb_str. cbn -[Z.eqb Z.ltb Z.add Z.sub Z.opp]. rewrite Ex.
  destruct (SimpleTMaze.y m + 1 =? SimpleTMaze.length m); [|done].
  destruct (0 =? SimpleTMaze.goal_x m); [done|].
  by destruct (0 =? - SimpleTMaze.goal_x m).
Qed.

Lemma tmaze_react_side m (name : string) (dx : Z) :
  (name = "left"%string /\ dx = -1) \/ (name = "right"%string /\ dx = 1) ->
  SimpleTMaze.x m = 0 -> SimpleTMaze.y m = SimpleTMaze.length m ->
  PlainTMaze.react (Some (Action name [])) m
  = Return
      (if dx =? SimpleTMaze.goal_x m then 10%Q
       else if dx =? - SimpleTMaze.goal_x m then (-10)%Q else (-1)%Q,
       SimpleTMaze.mk (SimpleTMaze.length m) (SimpleTMaze.hint_pos m) dx
         (SimpleTMaze.y m) (SimpleTMaze.init_goal_x m)
         (SimpleTMaze.goal_x m) (SimpleTMaze.rng m)).
Proof.
  intros Hname Ex Ey. unfold PlainTMaze.react, SimpleTMaze.react.
  rewrite tmaze_get_actions_cases. rewrite Ex.
  rewrite Ey, Z.ltb_irrefl, Z.eqb_refl.
  change (0 =? 0) with true.
  cbn [mbind pyresult_bind action_name SimpleTMaze.maze
       SimpleTMaze.set_maze PlainTMaze.has_maze].
  destruct Hname as [[-> ->]|[-> ->]].
  - replace (action_in (Some (Action "left" []))
               [Action "left" []; Action "right" []]) with true
      by (vm_compute; reflexivity).
    rewrite !value_eqb_str. cbn -[Z.eqb Z.ltb Z.add Z.sub Z.opp].
    rewrite Ex, Ey, Z.eqb_refl. change (0 - 1) with (-1).
    destruct (-1 =? SimpleTMaze.goal_x m); [done|].
    by destruct (-1 =? - SimpleTMaze.goal_x m).
  - replace (action_in (Some (Action "right" []))
               [Action "left" []; Action "right" []]) with true
      by (vm_compute; reflexivity).
    rewrite !value_eqb_str. cbn -[Z.eqb Z.ltb Z.add Z.sub Z.opp].
    rewrite Ex, Ey, Z.eqb_refl. change (0 + 1) with 1.
    destruct (1 =? SimpleTMaze.goal_x m); [done|].
    by destruct (1 =? - SimpleTMaze.goal_x m).
Qed.

Lemma tmaze_offered m (a : record) :
  a ∈ (if SimpleTMaze.x m =? 0
       then if SimpleTMaze.y m <? SimpleTMaze.length m
            then [Action "up" []]
            else if SimpleTMaze.y m =? SimpleTMaze.length m
                 then [Action "left" []; Action "right" []]
                 else []
       else []) ->
  SimpleTMaze.x m = 0 /\
  ((SimpleTMaze.y m < SimpleTMaze.length m /\ a = Action "up" [])
   \/ (SimpleTMaze.y m = SimpleTMaze.length m
       /\ (a = Action "left" [] \/ a = Action "right" []))).
Proof.
  destruct (SimpleTMaze.x m =? 0) eqn:Ex; [|by intros ?%elem_of_nil].
  apply Z.eqb_eq in Ex. split; [done|].
  destruct (SimpleTMaze.y m <? SimpleTMaze.length m) eqn:Ey.
  - apply Z.ltb_lt in Ey. apply list_elem_of_singleton in H0. by left.
  - destruct (SimpleTMaze.y m =? SimpleTMaze.length m) eqn:Ey2;
      [|by apply elem_of_nil in H0].
    apply Z.eqb_eq in Ey2. right. split; [done|].
    apply elem_of_cons in H0 as [?|H0]; [by left|].
    apply list_elem_of_singleton in H0. by right.
Qed.

(** X28.  An episode of the T-maze has exactly [length + 1] steps: from a
    position of the maze every offered action is accepted, leads to a
    position of the maze and takes one step off the steps left, and the
    episode has ended exactly when no step is left. *)
Theorem tmaze_episode_length m :
  tmaze_position m ->
  (forall (actions : list record) (a : record),
     PlainTMaze.get_actions m = Return actions -> a ∈ actions ->
     exists (r : Q) (m' : SimpleTMaze.fields G),
       PlainTMaze.react (Some a) m = Return (r, m') /\
       tmaze_position m' /\
       tmaze_steps_left m' = tmaze_steps_left m - 1 /\
       SimpleTMaze.length m' = SimpleTMaze.length m /\
       SimpleTMaze.goal_x m' = SimpleTMaze.goal_x m) /\
  PlainTMaze.end_of_episode m
  = Return (bool_decide (tmaze_steps_left m = 0)) /\
  0 <= tmaze_steps_left m <= SimpleTMaze.length m + 1.
Proof.
  intros [Hy Hx]. split; [|split].
  - intros actions a Hacts Hin.
    rewrite tmaze_get_actions_cases in Hacts. injection Hacts as <-.
    apply tmaze_offered in Hin as [Ex [[Ey ->]|[Ey Ha]]].
    + rewrite (tmaze_react_up m Ex Ey). eexists _, _.
      split; [reflexivity|]. unfold tmaze_position, tmaze_steps_left.
      simpl. rewrite Ex. simpl. repeat split; try lia; by left.
    + assert (exists name dx,
                a = Action name [] /\
                ((name = "left"%string /\ dx = -1)
                 \/ (name = "right"%string /\ dx = 1)))
        as (name & dx & -> & Hname).
      { destruct Ha as [->| ->]; eexists _, _; (split; [reflexivity|]);
          [left|right]; done. }
      rewrite (tmaze_react_side m name dx Hname Ex Ey). eexists _, _.
      split; [reflexivity|]. unfold tmaze_position, tmaze_steps_left.
      simpl. rewrite Ex.
      assert ((dx =? 0) = false) as -> by (apply Z.eqb_neq; lia).
      simpl. clear -Hy Ex Ey Hname.
      assert (dx = -1 \/ dx = 1) as Hdx by (destruct Hname as [[_ ?]|[_ ?]]; auto).
      repeat split; lia.
  - unfold PlainTMaze.end_of_episode, Environment.end_of_episode.
    rewrite tmaze_get_actions_cases. cbn [mbind pyresult_bind].
    unfold tmaze_steps_left. f_equal.
    destruct (SimpleTMaze.x m =? 0) eqn:Ex.
    + apply Z.eqb_eq in Ex.
      destruct (SimpleTMaze.y m <? SimpleTMaze.length m) eqn:Ey.
      * apply Z.ltb_lt in Ey. symmetry. apply bool_decide_eq_false_2. lia.
      * apply Z.ltb_ge in Ey.
        assert (SimpleTMaze.y m = SimpleTMaze.length m) as Heq by lia.
        rewrite Heq, Z.eqb_refl. symmetry.
        apply bool_decide_eq_false_2. lia.
    + apply Z.eqb_neq in Ex.
      destruct Hx as [?|[Hlen _]]; [done|].
      symmetry. apply bool_decide_eq_true_2. lia.
  - unfold tmaze_steps_left.
    destruct (SimpleTMaze.x m =? 0) eqn:Ex; [lia|].
    apply Z.eqb_neq in Ex. destruct Hx as [?|[Hlen _]]; [done|]. lia.
Qed.

(** X29.  With the goal on one side, an offered action is paid by where it
    leads: [10] on the goal's side, [-10] on the other side, and [-1] for
    every step that stays in the hallway. *)
Theorem tmaze_reward m (actions : list record) (a : record) :
  tmaze_position m ->
  SimpleTMaze.goal_x m = 1 \/ SimpleTMaze.goal_x m = -1 ->
  PlainTMaze.get_actions m = Return actions -> a ∈ actions ->
  exists (r : Q) (m' : SimpleTMaze.fields G),
    PlainTMaze.react (Some a) m = Return (r, m') /\
    ((SimpleTMaze.x m' = SimpleTMaze.goal_x m /\ r = 10%Q)
     \/ (SimpleTMaze.x m' = - SimpleTMaze.goal_x m /\ r = (-10)%Q)
     \/ (SimpleTMaze.x m' = 0 /\ r = (-1)%Q)).
Proof.
  intros [Hy Hx] Hgoal Hacts Hin.
  rewrite tmaze_get_actions_cases in Hacts. injection Hacts as <-.
  apply tmaze_offered in Hin as [Ex [[Ey ->]|[Ey Ha]]].
  - rewrite (tmaze_react_up m Ex Ey). eexists _, _.
    split; [reflexivity|]. right. right. split; [reflexivity|].
    assert ((0 =? SimpleTMaze.goal_x m) = false) as ->
      by (apply Z.eqb_neq; lia).
    assert ((0 =? - SimpleTMaze.goal_x m) = false) as ->
      by (apply Z.eqb_neq; lia).
    by destruct (SimpleTMaze.y m + 1 =? SimpleTMaze.length m).
  - assert (exists name dx,
              a = Action name [] /\
              ((name = "left"%string /\ dx = -1)
               \/ (name = "right"%string /\ dx = 1)))
      as (name & dx & -> & Hname).
    { destruct Ha as [->| ->]; eexists _, _; (split; [reflexivity|]);
        [left|right]; done. }
    rewrite (tmaze_react_side m name dx Hname Ex Ey). eexists _, _.
    split; [reflexivity|]. cbn [SimpleTMaze.x].
    assert (dx = -1 \/ dx = 1) as Hdx
      by (destruct Hname as [[_ ?]|[_ ?]]; auto).
    destruct (Z.eqb_spec dx (SimpleTMaze.goal_x m)) as [Heq|Hne].
    + by left.
    + right. left.
      assert (dx = - SimpleTMaze.goal_x m) as Hopp by lia.
      split; [done|]. by rewrite <- Hopp, Z.eqb_refl.
Qed.

(** X30.  [start_new_episode] puts the agent back at the foot of the
    hallway with [length + 1] steps to go and fixes the goal: the side
    given at construction, or a side drawn by the generator when none was
    given. *)
Theorem tmaze_start_new_episode m :
  0 <= SimpleTMaze.length m ->
  (fst (rng_randbelow 2 (SimpleTMaze.rng m)) < 2)%nat ->
  exists m' : SimpleTMaze.fields G,
    PlainTMaze.start_new_episode m = Return m' /\
    tmaze_position m' /\
    tmaze_steps_left m' = SimpleTMaze.length m + 1 /\
    SimpleTMaze.length m' = SimpleTMaze.length m /\
    SimpleTMaze.hint_pos m' = SimpleTMaze.hint_pos m /\
    SimpleTMaze.init_goal_x m' = SimpleTMaze.init_goal_x m /\
    (if SimpleTMaze.init_goal_x m =? 0
     then SimpleTMaze.goal_x m' = -1 \/ SimpleTMaze.goal_x m' = 1
     else SimpleTMaze.goal_x m' = SimpleTMaze.init_goal_x m).
Proof.
  intros Hlen Hdraw.
  unfold PlainTMaze.start_new_episode, SimpleTMaze.start_new_episode.
  cbn [SimpleTMaze.maze SimpleTMaze.set_maze PlainTMaze.has_maze].
  destruct (SimpleTMaze.init_goal_x m =? 0) eqn:Einit.
  - unfold rng_choice. cbn [List.length].
    destruct (rng_randbelow 2 (SimpleTMaze.rng m)) as [i g] eqn:Hrng.
    simpl in Hdraw.
    assert (i = 0%nat \/ i = 1%nat) as [-> | ->] by lia;
      cbn [lookup list_lookup mbind pyresult_bind]; eexists;
      (split; [reflexivity|]); unfold tmaze_position, tmaze_steps_left;
      simpl; repeat split; try lia; auto.
  - eexists. split; [reflexivity|].
    unfold tmaze_position, tmaze_steps_left. simpl.
    repeat split; try lia; auto.
Qed.

(** The observation shows the goal only at the hint: two mazes that
    differ in their goal alone are told apart by their observations
    exactly at the hint position. *)
Lemma tmaze_observation_hides_goal m (goal : Z) :
  goal <> SimpleTMaze.goal_x m ->
  PlainTMaze.get_observation m
  = PlainTMaze.get_observation
      (SimpleTMaze.mk (SimpleTMaze.length m) (SimpleTMaze.hint_pos m)
         (SimpleTMaze.x m) (SimpleTMaze.y m) (SimpleTMaze.init_goal_x m)
         goal (SimpleTMaze.rng m))
  <-> SimpleTMaze.y m <> SimpleTMaze.hint_pos m.
Proof.
  intros Hne. unfold PlainTMaze.get_observation, SimpleTMaze.get_observation.
  simpl. destruct (Z.eqb_spec (SimpleTMaze.y m) (SimpleTMaze.hint_pos m)).
  - split; [|done]. intros [= Heq]. by rewrite Heq in Hne.
  - done.
Qed.
End tmaze.

Lemma tmaze_episode_length_witness :
  (forall (actions : list record) (a : record),
     PlainTMaze.get_actions tmaze_choice_point = Return actions ->
     a ∈ actions ->
     exists (r : Q) (m' : SimpleTMaze.fields unit),
       PlainTMaze.react (Some a) tmaze_choice_point = Return (r, m') /\
       tmaze_position m' /\
       tmaze_steps_left m' = tmaze_steps_left tmaze_choice_point - 1 /\
       SimpleTMaze.length m' = SimpleTMaze.length tmaze_choice_point /\
       SimpleTMaze.goal_x m' = SimpleTMaze.goal_x tmaze_choice_point) /\
  PlainTMaze.end_of_episode tmaze_choice_point
  = Return (bool_decide (tmaze_steps_left tmaze_choice_point = 0)) /\
  0 <= tmaze_steps_left tmaze_choice_point
    <= SimpleTMaze.length tmaze_choice_point + 1.
Proof.
  apply (tmaze_episode_length tmaze_choice_point).
  unfold tmaze_position. simpl. lia.
Defined.

Lemma tmaze_reward_witness :
  exists (r : Q) (m' : SimpleTMaze.fields unit),
    PlainTMaze.react (Some (Action "right" [])) tmaze_choice_point
    = Return (r, m') /\
    ((SimpleTMaze.x m' = SimpleTMaze.goal_x tmaze_choice_point /\ r = 10%Q)
     \/ (SimpleTMaze.x m' = - SimpleTMaze.goal_x tmaze_choice_point
         /\ r = (-10)%Q)
     \/ (SimpleTMaze.x m' = 0 /\ r = (-1)%Q)).
Proof.
  apply (tmaze_reward tmaze_choice_point
           [Action "left" []; Action "right" []] (Action "right" [])).
  - unfold tmaze_position. simpl. lia.
  - left. reflexivity.
  - reflexivity.
  - right. left.
Defined.

Lemma tmaze_start_new_episode_witness :
  exists m' : SimpleTMaze.fields unit,
    PlainTMaze.start_new_episode tmaze_new = Return m' /\
    tmaze_position m' /\
    tmaze_steps_left m' = SimpleTMaze.length tmaze_new + 1 /\
    SimpleTMaze.length m' = SimpleTMaze.length tmaze_new /\
    SimpleTMaze.hint_pos m' = SimpleTMaze.hint_pos tmaze_new /\
    SimpleTMaze.init_goal_x m' = SimpleTMaze.init_goal_x tmaze_new /\
    (if SimpleTMaze.init_goal_x tmaze_new =? 0
     then SimpleTMaze.goal_x m' = -1 \/ SimpleTMaze.goal_x m' = 1
     else SimpleTMaze.goal_x m' = SimpleTMaze.init_goal_x tmaze_new).
Proof.
  apply (tmaze_start_new_episode tmaze_new).
  - simpl. lia.
  - simpl. lia.
Defined.
